(** * Emergency department orchestration: a model of [agent.py]

    Shallow embedding of [Patient], [SalleAttente], [Personnel], [Unite] and
    [AgentOrchestration], followed by the properties proved about it.

    Modelling conventions:
    - a [datetime] is an integer ([Z]) number of microseconds, and
      [timedelta(minutes=k)] is [minutes k];
    - [datetime.now()] is a reading of the wall clock: its value is an
      explicit argument ([horloge]) of every function that reads it;
    - [Patient] objects are shared between several lists: they live in a
      heap ([Tas]) and the lists hold references;
    - a Python exception is a result [Leve]. *)

From Stdlib Require Import ZArith QArith List String Ascii Bool Lia.
From Stdlib Require Import Permutation Sorted.
Import ListNotations.

Open Scope string_scope.
Open Scope list_scope.
Open Scope Z_scope.

(** ** Enums *)

Inductive Gravite := ROUGE | JAUNE | VERT | GRIS.

Inductive StatutPatient := EN_ATTENTE | EN_CONSULTATION | TRANSFERE | PARTI.

Inductive StatutPersonnel := DISPONIBLE | OCCUPE | EN_TRANSPORT.

Definition Gravite_eqb (a b : Gravite) : bool :=
  match a, b with
  | ROUGE, ROUGE | JAUNE, JAUNE | VERT, VERT | GRIS, GRIS => true
  | _, _ => false
  end.

Definition StatutPatient_eqb (a b : StatutPatient) : bool :=
  match a, b with
  | EN_ATTENTE, EN_ATTENTE | EN_CONSULTATION, EN_CONSULTATION
  | TRANSFERE, TRANSFERE | PARTI, PARTI => true
  | _, _ => false
  end.

Definition StatutPersonnel_eqb (a b : StatutPersonnel) : bool :=
  match a, b with
  | DISPONIBLE, DISPONIBLE | OCCUPE, OCCUPE | EN_TRANSPORT, EN_TRANSPORT => true
  | _, _ => false
  end.

(** [Gravite.value] *)
Definition Gravite_value (g : Gravite) : string :=
  match g with
  | ROUGE => "ROUGE" | JAUNE => "JAUNE" | VERT => "VERT" | GRIS => "GRIS"
  end.

(** ** Time *)

(** An instant, in microseconds (the resolution of [datetime]). *)
Definition Instant := Z.

(** [timedelta(minutes=k)] *)
Definition minutes (k : Z) : Z := k * 60000000.

Arguments minutes : simpl never.

(** ** Patient *)

(** A reference to a [Patient] object of the heap. *)
Definition Ref := nat.

Module Patient.

Record t := mk {
  id : string;
  prenom : string;
  nom : string;
  gravite : Gravite;
  type_maladie : list string;
  heure_arrivee : Instant;
  statut : StatutPatient;
  salle : option Z
}.

(** [(datetime.now() - self.heure_arrivee).total_seconds() / 60]: the wait
    in minutes, as an exact rational. Python computes this quotient in
    floating point; the comparison with 360 made below gives the same
    answer on the rational, since a difference of one microsecond stays far
    above the precision of a double at this magnitude. *)
Definition temps_attente_minutes (horloge : Instant) (p : t) : Q :=
  (horloge - heure_arrivee p) # 60000000.

(** [horloge] is the value [datetime.now()] returns inside
    [temps_attente_minutes]; it is read for a VERT patient only (Python's
    [and] is lazy). *)
Definition priorite_effective (horloge : Instant) (p : t) : Z :=
  if Gravite_eqb (gravite p) ROUGE then 1
  else if Gravite_eqb (gravite p) VERT
          && negb (Qle_bool (temps_attente_minutes horloge p) (360 # 1))
       then 2
  else if Gravite_eqb (gravite p) JAUNE then 3
  else if Gravite_eqb (gravite p) VERT then 4
  else 5.

(** [patient.statut = st] *)
Definition set_statut (st : StatutPatient) (p : t) : t :=
  mk (id p) (prenom p) (nom p) (gravite p) (type_maladie p) (heure_arrivee p)
     st (salle p).

(** [patient.salle = n] *)
Definition set_salle (n : option Z) (p : t) : t :=
  mk (id p) (prenom p) (nom p) (gravite p) (type_maladie p) (heure_arrivee p)
     (statut p) n.

Definition option_Z_eqb (a b : option Z) : bool :=
  match a, b with
  | Some x, Some y => x =? y
  | None, None => true
  | _, _ => false
  end.

Fixpoint liste_eqb (a b : list string) : bool :=
  match a, b with
  | [], [] => true
  | x :: a', y :: b' => String.eqb x y && liste_eqb a' b'
  | _, _ => false
  end.

(** The [__eq__] that [@dataclass] generates: field by field. *)
Definition eqb (a b : t) : bool :=
  String.eqb (id a) (id b) && String.eqb (prenom a) (prenom b)
  && String.eqb (nom a) (nom b) && Gravite_eqb (gravite a) (gravite b)
  && liste_eqb (type_maladie a) (type_maladie b)
  && (heure_arrivee a =? heure_arrivee b)
  && StatutPatient_eqb (statut a) (statut b)
  && option_Z_eqb (salle a) (salle b).

End Patient.

(** ** The heap of patients *)

Definition Tas := Ref -> Patient.t.

Definition maj (tas : Tas) (r : Ref) (p : Patient.t) : Tas :=
  fun r' => if Nat.eqb r' r then p else tas r'.

(** The comparison made by [x in l] and [l.remove(x)]: identity, else [==]. *)
Definition meme_patient (tas : Tas) (a b : Ref) : bool :=
  Nat.eqb a b || Patient.eqb (tas a) (tas b).

(** [patient in l] *)
Definition contient (tas : Tas) (r : Ref) (l : list Ref) : bool :=
  existsb (fun x => meme_patient tas x r) l.

(** [l.remove(patient)]: removes the first occurrence; [None] stands for
    Python's [ValueError] when there is none. *)
Fixpoint list_remove (tas : Tas) (r : Ref) (l : list Ref) : option (list Ref) :=
  match l with
  | [] => None
  | x :: l' =>
      if meme_patient tas x r then Some l'
      else match list_remove tas r l' with
           | Some l'' => Some (x :: l'')
           | None => None
           end
  end.

(** ** SalleAttente *)

Module SalleAttente.

Record t := mk {
  numero : Z;
  capacite : Z;
  patients : list Ref;
  derniere_surveillance : Instant
}.

Definition len_patients (s : t) : Z := Z.of_nat (List.length (patients s)).

Definition est_pleine (s : t) : bool := capacite s <=? len_patients s.

Definition a_de_la_place (s : t) : bool := len_patients s <? capacite s.

Definition ajouter_patient (s : t) (tas : Tas) (r : Ref) : t * Tas * bool :=
  if est_pleine s then (s, tas, false)
  else (mk (numero s) (capacite s) (patients s ++ [r]) (derniere_surveillance s),
        maj tas r (Patient.set_salle (Some (numero s)) (tas r)),
        true).

Definition retirer_patient (s : t) (tas : Tas) (r : Ref) : t * Tas :=
  if contient tas r (patients s) then
    match list_remove tas r (patients s) with
    | Some l => (mk (numero s) (capacite s) l (derniere_surveillance s),
                 maj tas r (Patient.set_salle None (tas r)))
    | None => (s, tas)
    end
  else (s, tas).

End SalleAttente.

(** ** Personnel *)

Module Personnel.

Record t := mk {
  id : string;
  nom : string;
  type : string;
  statut : StatutPersonnel;
  patient_en_charge : option Ref;
  fin_activite : option Instant
}.

End Personnel.

(** ** Unite *)

Module Unite.

Record t := mk {
  nom : string;
  capacite : Z;
  patients_actuels : Z;
  specialites : list string
}.

Definition a_de_la_place (u : t) : bool := patients_actuels u <? capacite u.

Definition accepter_patient (u : t) : t * bool :=
  if a_de_la_place u
  then (mk (nom u) (capacite u) (patients_actuels u + 1) (specialites u), true)
  else (u, false).

End Unite.

(** ** RAGSysteme: rules and event log

    The rules come from JSON files; a key read with [d[k]] is a field, a key
    read with [k in d] or [d.get(k, ...)] is an [option]. *)

(** The entries [enregistrer_log] appends to the log, with the data that
    identify the event (the time stamp and the metrics snapshot are left
    out). *)
Inductive Evenement :=
| PATIENT_ACCUEILLI (patient_id : string) (salle : Z)
| SALLE_PLEINE (patient_id : string)
| CONSULTATION_DEMARREE (patient_id : string) (duree_prevue_min : Z)
| UNITE_SATUREE (unite patient_id : string)
| PATIENT_TRANSFERE (patient_id unite : string).

Module RAGSysteme.

(** One element of [regles_priorite["niveaux"]]. *)
Record Niveau := mkNiveau {
  niveau_gravite : string;
  temps_consultation_max : option Z
}.

(** [regles_speciales["gris"]] *)
Record RegleGris := mkGris {
  transfert : string;
  gris_description : string
}.

(** [regles_speciales["rouge"]] *)
Record RegleRouge := mkRouge {
  transfert_prioritaire : string;
  rouge_description : string
}.

Record ReglesSpeciales := mkSpeciales {
  gris : option RegleGris;
  rouge : option RegleRouge
}.

Record t := mk {
  niveaux : option (list Niveau);
  regles_speciales : ReglesSpeciales;
  journal : list Evenement
}.

Definition get_regles_speciales (r : t) : ReglesSpeciales := regles_speciales r.

Definition enregistrer_log (e : Evenement) (r : t) : t :=
  mk (niveaux r) (regles_speciales r) (journal r ++ [e]).

End RAGSysteme.

(** ** Exceptions *)

Inductive Exception := TypeError | AttributeError | ValueError.

Inductive Resultat (A : Type) :=
| Ok (a : A)
| Leve (e : Exception).

Arguments Ok {A} a.
Arguments Leve {A} e.

(** ** AgentOrchestration *)

(** One entry of [self.violations]. *)
Record Violation := mkViolation {
  violation_type : string;
  violation_timestamp : Instant;
  violation_patient_id : string
}.

Record AgentOrchestration := mkAgent {
  rag : RAGSysteme.t;
  salles : list SalleAttente.t;
  docteur : Personnel.t;
  infirmieres : list Personnel.t;
  aides_soignants : list Personnel.t;
  unites : list Unite.t;
  patients_en_attente : list Ref;
  patients_consultes : list Ref;
  patients_transferes : list Ref;
  violations : list Violation;
  tas : Tas
}.

Definition set_rag (x : RAGSysteme.t) (s : AgentOrchestration) :=
  mkAgent x (salles s) (docteur s) (infirmieres s) (aides_soignants s)
    (unites s) (patients_en_attente s) (patients_consultes s)
    (patients_transferes s) (violations s) (tas s).

Definition set_salles (x : list SalleAttente.t) (s : AgentOrchestration) :=
  mkAgent (rag s) x (docteur s) (infirmieres s) (aides_soignants s)
    (unites s) (patients_en_attente s) (patients_consultes s)
    (patients_transferes s) (violations s) (tas s).

Definition set_docteur (x : Personnel.t) (s : AgentOrchestration) :=
  mkAgent (rag s) (salles s) x (infirmieres s) (aides_soignants s)
    (unites s) (patients_en_attente s) (patients_consultes s)
    (patients_transferes s) (violations s) (tas s).

Definition set_infirmieres (x : list Personnel.t) (s : AgentOrchestration) :=
  mkAgent (rag s) (salles s) (docteur s) x (aides_soignants s)
    (unites s) (patients_en_attente s) (patients_consultes s)
    (patients_transferes s) (violations s) (tas s).

Definition set_aides_soignants (x : list Personnel.t) (s : AgentOrchestration) :=
  mkAgent (rag s) (salles s) (docteur s) (infirmieres s) x
    (unites s) (patients_en_attente s) (patients_consultes s)
    (patients_transferes s) (violations s) (tas s).

Definition set_unites (x : list Unite.t) (s : AgentOrchestration) :=
  mkAgent (rag s) (salles s) (docteur s) (infirmieres s) (aides_soignants s)
    x (patients_en_attente s) (patients_consultes s)
    (patients_transferes s) (violations s) (tas s).

Definition set_patients_en_attente (x : list Ref) (s : AgentOrchestration) :=
  mkAgent (rag s) (salles s) (docteur s) (infirmieres s) (aides_soignants s)
    (unites s) x (patients_consultes s)
    (patients_transferes s) (violations s) (tas s).

Definition set_patients_transferes (x : list Ref) (s : AgentOrchestration) :=
  mkAgent (rag s) (salles s) (docteur s) (infirmieres s) (aides_soignants s)
    (unites s) (patients_en_attente s) (patients_consultes s)
    x (violations s) (tas s).

Definition set_violations (x : list Violation) (s : AgentOrchestration) :=
  mkAgent (rag s) (salles s) (docteur s) (infirmieres s) (aides_soignants s)
    (unites s) (patients_en_attente s) (patients_consultes s)
    (patients_transferes s) x (tas s).

Definition set_tas (x : Tas) (s : AgentOrchestration) :=
  mkAgent (rag s) (salles s) (docteur s) (infirmieres s) (aides_soignants s)
    (unites s) (patients_en_attente s) (patients_consultes s)
    (patients_transferes s) (violations s) x.

(** [self.rag.enregistrer_log(...)] *)
Definition log (e : Evenement) (s : AgentOrchestration) : AgentOrchestration :=
  set_rag (RAGSysteme.enregistrer_log e (rag s)) s.

(** *** Admission *)

Inductive ResultatAccueil :=
| Accueilli (salle : Z)
| AucuneSalle (capacite_totale occupation_actuelle : Z).

(** The ["success"] key of the returned dictionary. *)
Definition accueil_success (r : ResultatAccueil) : bool :=
  match r with Accueilli _ => true | AucuneSalle _ _ => false end.

(** The loop [for salle in self.salles] of [accueillir_patient]: the first
    room that has a free place receives the patient. *)
Fixpoint placer (tas : Tas) (r : Ref) (l : list SalleAttente.t)
  : option (list SalleAttente.t * Tas * Z) :=
  match l with
  | [] => None
  | s :: l' =>
      if SalleAttente.a_de_la_place s then
        let '(s', tas', _) := SalleAttente.ajouter_patient s tas r in
        Some (s' :: l', tas', SalleAttente.numero s)
      else
        match placer tas r l' with
        | Some (l'', tas', n) => Some (s :: l'', tas', n)
        | None => None
        end
  end.

Definition somme (l : list Z) : Z := fold_right Z.add 0 l.

Definition capacite_totale (s : AgentOrchestration) : Z :=
  somme (map SalleAttente.capacite (salles s)).

Definition occupation_actuelle (s : AgentOrchestration) : Z :=
  somme (map SalleAttente.len_patients (salles s)).

(** [horloge]: the [datetime.now()] that dates the violation. *)
Definition accueillir_patient (horloge : Instant) (r : Ref)
  (s : AgentOrchestration) : AgentOrchestration * ResultatAccueil :=
  match placer (tas s) r (salles s) with
  | Some (l, tas', n) =>
      let s1 := set_tas tas' (set_salles l s) in
      let s2 := set_patients_en_attente (patients_en_attente s1 ++ [r]) s1 in
      (log (PATIENT_ACCUEILLI (Patient.id (tas s2 r)) n) s2, Accueilli n)
  | None =>
      let s1 := set_violations
                  (violations s ++
                   [mkViolation "SALLE_PLEINE" horloge (Patient.id (tas s r))]) s in
      (log (SALLE_PLEINE (Patient.id (tas s r))) s1,
       AucuneSalle (capacite_totale s1) (occupation_actuelle s1))
  end.

(** *** Priority queue *)

(** The sort key [(p.priorite_effective(), p.heure_arrivee)]. *)
Definition Cle := (Z * Instant)%type.

(** Python's [<] on pairs: lexicographic. *)
Definition cle_ltb (a b : Cle) : bool :=
  (fst a <? fst b) || ((fst a =? fst b) && (snd a <? snd b)).

(** [sorted] evaluates the key once per element, in list order; each
    evaluation reads the clock: [horloge i] is the reading made for the
    element of rank [i]. *)
Fixpoint decorer (horloge : nat -> Instant) (tas : Tas) (l : list Ref)
  : list (Cle * Ref) :=
  match l with
  | [] => []
  | r :: l' =>
      ((Patient.priorite_effective (horloge 0%nat) (tas r),
        Patient.heure_arrivee (tas r)), r)
      :: decorer (fun i => horloge (S i)) tas l'
  end.

(** Python's [sorted] is a stable sort; the result of a stable sort does
    not depend on the algorithm (see [tri_stable_unique]), and insertion
    sort computes it. *)
Fixpoint inserer (x : Cle * Ref) (l : list (Cle * Ref)) : list (Cle * Ref) :=
  match l with
  | [] => [x]
  | y :: l' =>
      if cle_ltb (fst y) (fst x) then y :: inserer x l' else x :: y :: l'
  end.

Fixpoint sorted (l : list (Cle * Ref)) : list (Cle * Ref) :=
  match l with
  | [] => []
  | x :: l' => inserer x (sorted l')
  end.

Definition calculer_file_priorite (horloge : nat -> Instant)
  (s : AgentOrchestration) : list Ref :=
  map snd (sorted (decorer horloge (tas s) (patients_en_attente s))).

(** [file[0] if file else None] *)
Definition selectionner_prochain_patient (horloge : nat -> Instant)
  (s : AgentOrchestration) : option Ref :=
  match calculer_file_priorite horloge s with
  | [] => None
  | r :: _ => Some r
  end.

(** *** Consultation *)

Inductive ResultatConsultation :=
| DocteurOccupe (fin_consultation : option Instant)
| ConsultationDemarree (patient_id : string) (duree_min : Z) (fin_prevue : Instant).

(** The duration lookup in [regles_priorite["niveaux"]]: the first level
    for the patient's severity decides, 5 by default. *)
Fixpoint duree_niveaux (g : string) (l : list RAGSysteme.Niveau) : Z :=
  match l with
  | [] => 5
  | n :: l' =>
      if String.eqb (RAGSysteme.niveau_gravite n) g then
        match RAGSysteme.temps_consultation_max n with
        | Some d => d
        | None => 5
        end
      else duree_niveaux g l'
  end.

Definition duree_consultation (r : RAGSysteme.t) (g : Gravite) : Z :=
  match RAGSysteme.niveaux r with
  | Some l => duree_niveaux (Gravite_value g) l
  | None => 5
  end.

(** [horloge]: the [datetime.now()] to which the duration is added. *)
Definition demarrer_consultation (horloge : Instant) (r : Ref)
  (s : AgentOrchestration) : Resultat (AgentOrchestration * ResultatConsultation) :=
  if negb (StatutPersonnel_eqb (Personnel.statut (docteur s)) DISPONIBLE) then
    Ok (s, DocteurOccupe (Personnel.fin_activite (docteur s)))
  else
    let duree_min := duree_consultation (rag s) (Patient.gravite (tas s r)) in
    let d := docteur s in
    let fin := horloge + minutes duree_min in
    let s1 := set_docteur
                (Personnel.mk (Personnel.id d) (Personnel.nom d) (Personnel.type d)
                   OCCUPE (Some r) (Some fin)) s in
    let s2 := set_tas (maj (tas s1) r (Patient.set_statut EN_CONSULTATION (tas s1 r))) s1 in
    match list_remove (tas s2) r (patients_en_attente s2) with
    | None => Leve ValueError
    | Some l =>
        let s3 := set_patients_en_attente l s2 in
        Ok (log (CONSULTATION_DEMARREE (Patient.id (tas s3 r)) duree_min) s3,
            ConsultationDemarree (Patient.id (tas s3 r)) duree_min fin)
    end.

(** *** Transfer *)

Inductive Priorite := IMMEDIATE | NORMALE.

Inductive Justification :=
| DescriptionRegle (description : string)
| SpecialiteUnite (patho unite : string)
| PathologieUnite (patho unite : string)
| UniteParDefaut.

(** The dictionary [_suggerer_unite_transfert] returns. *)
Record Suggestion := mkSuggestion {
  unite : string;
  justification : Justification;
  priorite : Priorite;
  places_disponibles : option Z
}.

(** Lower case for the ASCII letters [A]..[Z], used to run the model on
    examples; the theorems hold for every [lower]. *)
Definition ascii_lower_char (c : ascii) : ascii :=
  let n := nat_of_ascii c in
  if (Nat.leb 65 n && Nat.leb n 90)%bool then ascii_of_nat (n + 32) else c.

Fixpoint ascii_lower (s : string) : string :=
  match s with
  | EmptyString => EmptyString
  | String c s' => String (ascii_lower_char c) (ascii_lower s')
  end.

Inductive ResultatTransfert :=
| UniteIntrouvable (unite_nom : string)
| UnitePleine (unite_nom : string)
| TransfertReussi (patient_id unite : string).

(** The ["success"] key of the returned dictionary. *)
Definition transfert_success (r : ResultatTransfert) : bool :=
  match r with TransfertReussi _ _ => true | _ => false end.

(** [next((u for u in self.unites if u.nom == unite_nom), None)] *)
Definition trouver_unite (unite_nom : string) (us : list Unite.t) : option Unite.t :=
  find (fun u => String.eqb (Unite.nom u) unite_nom) us.

(** [unite.accepter_patient()] on the object found: the first unit of that
    name is updated in place. *)
Fixpoint accepter_dans (unite_nom : string) (us : list Unite.t) : list Unite.t :=
  match us with
  | [] => []
  | u :: us' =>
      if String.eqb (Unite.nom u) unite_nom
      then fst (Unite.accepter_patient u) :: us'
      else u :: accepter_dans unite_nom us'
  end.

(** [for salle in self.salles: if patient in salle.patients:
    salle.retirer_patient(patient)] *)
Fixpoint retirer_des_salles (tas : Tas) (r : Ref) (l : list SalleAttente.t)
  : list SalleAttente.t * Tas :=
  match l with
  | [] => ([], tas)
  | s :: l' =>
      let '(s', tas') :=
        if contient tas r (SalleAttente.patients s)
        then SalleAttente.retirer_patient s tas r
        else (s, tas) in
      let '(l'', tas'') := retirer_des_salles tas' r l' in
      (s' :: l'', tas'')
  end.

Definition transferer_patient (r : Ref) (unite_nom : string)
  (s : AgentOrchestration) : AgentOrchestration * ResultatTransfert :=
  match trouver_unite unite_nom (unites s) with
  | None => (s, UniteIntrouvable unite_nom)
  | Some u =>
      if negb (Unite.a_de_la_place u) then
        (log (UNITE_SATUREE unite_nom (Patient.id (tas s r))) s,
         UnitePleine unite_nom)
      else
        let s1 := set_unites (accepter_dans unite_nom (unites s)) s in
        let s2 := set_patients_transferes (patients_transferes s1 ++ [r]) s1 in
        let '(l, tas') := retirer_des_salles (tas s2) r (salles s2) in
        let s3 := set_tas tas' (set_salles l s2) in
        (log (PATIENT_TRANSFERE (Patient.id (tas s3 r)) unite_nom) s3,
         TransfertReussi (Patient.id (tas s3 r)) unite_nom)
  end.

(** *** Orchestration cycle *)

(** The texts [cycle_orchestration] appends to [actions]; each constructor
    carries the values interpolated in its text. *)
Inductive Action :=
| ActTransport (aide_nom patient_id unite : string)
    (* "Consult terminée. {aide.nom} transporte {patient.id} vers {unite} (15 min)" *)
| ActAttenteTransport (patient_id : string)
    (* "{patient.id} attend un transport (tous les aides sont occupés)" *)
| ActInspection (inf_nom : string) (salle_numero : Z)
    (* "{inf.nom} inspecte la Salle {salle.numero}" *)
| ActConsultation (patient_id : string).
    (* "{prochain.id} entre en consultation" *)

Definition est_disponible (p : Personnel.t) : bool :=
  StatutPersonnel_eqb (Personnel.statut p) DISPONIBLE.

(** [next((a for a in l if a.statut == StatutPersonnel.DISPONIBLE), None)] *)
Definition premier_disponible (l : list Personnel.t) : option Personnel.t :=
  find est_disponible l.

(** The assignments made on the object [premier_disponible] found: the
    first available member of the list is updated in place. *)
Fixpoint modifier_premier_disponible (f : Personnel.t -> Personnel.t)
  (l : list Personnel.t) : list Personnel.t :=
  match l with
  | [] => []
  | p :: l' =>
      if est_disponible p then f p :: l'
      else p :: modifier_premier_disponible f l'
  end.

(** [p.statut == OCCUPE and p.fin_activite and maintenant >= p.fin_activite] *)
Definition activite_finie (maintenant : Instant) (p : Personnel.t) : bool :=
  StatutPersonnel_eqb (Personnel.statut p) OCCUPE
  && match Personnel.fin_activite p with
     | Some f => f <=? maintenant
     | None => false
     end.

Definition liberer (maintenant : Instant) (p : Personnel.t) : Personnel.t :=
  if activite_finie maintenant p
  then Personnel.mk (Personnel.id p) (Personnel.nom p) (Personnel.type p)
         DISPONIBLE None None
  else p.

(** Step 1, GESTION DU PERSONNEL: nurses and aides whose activity is over. *)
Definition gestion_personnel (maintenant : Instant) (s : AgentOrchestration)
  : AgentOrchestration :=
  set_aides_soignants (map (liberer maintenant) (aides_soignants s))
    (set_infirmieres (map (liberer maintenant) (infirmieres s)) s).

(** Step 3, SURVEILLANCE DES SALLES: the loop over the rooms. *)
Fixpoint surveiller (maintenant : Instant) (infs : list Personnel.t)
  (l : list SalleAttente.t)
  : list Personnel.t * list SalleAttente.t * list Action :=
  match l with
  | [] => (infs, [], [])
  | s :: l' =>
      if minutes 15 <=? maintenant - SalleAttente.derniere_surveillance s then
        match premier_disponible infs with
        | Some inf =>
            let infs1 :=
              modifier_premier_disponible
                (fun i => Personnel.mk (Personnel.id i) (Personnel.nom i)
                            (Personnel.type i) OCCUPE
                            (Personnel.patient_en_charge i)
                            (Some (maintenant + minutes 5))) infs in
            let s' := SalleAttente.mk (SalleAttente.numero s)
                        (SalleAttente.capacite s) (SalleAttente.patients s)
                        maintenant in
            let '(infs2, l'', acts) := surveiller maintenant infs1 l' in
            (infs2, s' :: l'',
             ActInspection (Personnel.nom inf) (SalleAttente.numero s) :: acts)
        | None =>
            let '(infs2, l'', acts) := surveiller maintenant infs l' in
            (infs2, s :: l'', acts)
        end
      else
        let '(infs2, l'', acts) := surveiller maintenant infs l' in
        (infs2, s :: l'', acts)
  end.

Definition surveillance_salles (maintenant : Instant) (s : AgentOrchestration)
  : AgentOrchestration * list Action :=
  let '(infs, l, acts) := surveiller maintenant (infirmieres s) (salles s) in
  (set_salles l (set_infirmieres infs s), acts).

(** Step 4, NOUVELLE CONSULTATION; [horloge]: the clock readings made while
    the queue is computed. *)
Definition nouvelle_consultation (horloge : nat -> Instant)
  (maintenant : Instant) (s : AgentOrchestration)
  : AgentOrchestration * list Action :=
  if est_disponible (docteur s) then
    match selectionner_prochain_patient horloge s with
    | Some prochain =>
        let d := docteur s in
        let s1 := set_docteur
                    (Personnel.mk (Personnel.id d) (Personnel.nom d)
                       (Personnel.type d) OCCUPE (Some prochain)
                       (Some (maintenant + minutes 5))) s in
        let s2 := set_tas (maj (tas s1) prochain
                             (Patient.set_statut EN_CONSULTATION (tas s1 prochain))) s1 in
        let s3 :=
          if contient (tas s2) prochain (patients_en_attente s2) then
            match list_remove (tas s2) prochain (patients_en_attente s2) with
            | Some l => set_patients_en_attente l s2
            | None => s2
            end
          else s2 in
        (s3, [ActConsultation (Patient.id (tas s3 prochain))])
    | None => (s, [])
    end
  else (s, []).

Section Orchestration.

(** Python's [str.lower], taken as a parameter. *)
Variable lower : string -> string.

(** [patho.lower() in [s.lower() for s in unite.specialites]] *)
Definition correspond (u : Unite.t) (patho : string) : bool :=
  existsb (String.eqb (lower patho)) (map lower (Unite.specialites u)).

(** The loops [for unite in self.unites: for patho in patient.type_maladie]:
    the first unit, in order, one of whose specialties matches a condition
    of the patient, with the first condition that matches it. *)
Fixpoint chercher_specialite (maladies : list string) (us : list Unite.t)
  : option (Unite.t * string) :=
  match us with
  | [] => None
  | u :: us' =>
      match find (correspond u) maladies with
      | Some patho => Some (u, patho)
      | None => chercher_specialite maladies us'
      end
  end.

(** The rest of [_suggerer_unite_transfert] after the GRIS and ROUGE cases. *)
Definition suggestion_commune (p : Patient.t) (s : AgentOrchestration) : Suggestion :=
  match chercher_specialite (Patient.type_maladie p) (unites s) with
  | Some (u, patho) =>
      mkSuggestion (Unite.nom u) (PathologieUnite patho (Unite.nom u)) NORMALE
        (Some (Unite.capacite u - Unite.patients_actuels u))
  | None => mkSuggestion "ORTHOPÉDIE" UniteParDefaut NORMALE None
  end.

Definition _suggerer_unite_transfert (p : Patient.t) (s : AgentOrchestration)
  : Suggestion :=
  let regles_speciales := RAGSysteme.get_regles_speciales (rag s) in
  match Patient.gravite p, RAGSysteme.gris regles_speciales with
  | GRIS, Some g =>
      mkSuggestion (RAGSysteme.transfert g)
        (DescriptionRegle (RAGSysteme.gris_description g)) NORMALE None
  | ROUGE, _ =>
      match chercher_specialite (Patient.type_maladie p) (unites s) with
      | Some (u, patho) =>
          mkSuggestion (Unite.nom u) (SpecialiteUnite patho (Unite.nom u))
            IMMEDIATE (Some (Unite.capacite u - Unite.patients_actuels u))
      | None =>
          match RAGSysteme.rouge regles_speciales with
          | Some ro =>
              mkSuggestion (RAGSysteme.transfert_prioritaire ro)
                (DescriptionRegle (RAGSysteme.rouge_description ro))
                IMMEDIATE None
          | None => suggestion_commune p s
          end
      end
  | _, _ => suggestion_commune p s
  end.

(** Step 2, FIN DE CONSULTATION & DEBUT TRANSPORT. *)
Definition fin_consultation (maintenant : Instant) (s : AgentOrchestration)
  : Resultat (AgentOrchestration * list Action) :=
  if StatutPersonnel_eqb (Personnel.statut (docteur s)) OCCUPE then
    match Personnel.fin_activite (docteur s) with
    | None => Leve TypeError
    | Some fin =>
        if fin <=? maintenant then
          let patient := Personnel.patient_en_charge (docteur s) in
          match premier_disponible (aides_soignants s), patient with
          | Some aide, Some r =>
              let d := docteur s in
              let s1 := set_docteur
                          (Personnel.mk (Personnel.id d) (Personnel.nom d)
                             (Personnel.type d) DISPONIBLE None
                             (Personnel.fin_activite d)) s in
              let suggestion := _suggerer_unite_transfert (tas s1 r) s1 in
              let s2 := set_aides_soignants
                          (modifier_premier_disponible
                             (fun a => Personnel.mk (Personnel.id a) (Personnel.nom a)
                                         (Personnel.type a) OCCUPE (Some r)
                                         (Some (maintenant + minutes 15)))
                             (aides_soignants s1)) s1 in
              let s3 := set_tas (maj (tas s2) r
                                   (Patient.set_statut TRANSFERE (tas s2 r))) s2 in
              let s4 := fst (transferer_patient r (unite suggestion) s3) in
              Ok (s4, [ActTransport (Personnel.nom aide) (Patient.id (tas s4 r))
                         (unite suggestion)])
          | None, Some r => Ok (s, [ActAttenteTransport (Patient.id (tas s r))])
          | _, None => Leve AttributeError
          end
        else Ok (s, [])
    end
  else Ok (s, []).

(** [horloge 0] is the [datetime.now()] read when [temps_virtuel] is absent,
    the following readings are those of the queue computation. *)
Definition cycle_orchestration (horloge : nat -> Instant)
  (temps_virtuel : option Instant) (s : AgentOrchestration)
  : Resultat (AgentOrchestration * list Action) :=
  let maintenant :=
    match temps_virtuel with Some t => t | None => horloge 0%nat end in
  let s1 := gestion_personnel maintenant s in
  match fin_consultation maintenant s1 with
  | Leve e => Leve e
  | Ok (s2, a2) =>
      let '(s3, a3) := surveillance_salles maintenant s2 in
      let '(s4, a4) := nouvelle_consultation (fun i => horloge (S i)) maintenant s3 in
      Ok (s4, a2 ++ a3 ++ a4)
  end.

End Orchestration.

(** * Definitions used by the statements *)

(** ** Order on keys *)

(** [a <= b] on keys: [b < a] is false. *)
Definition cle_le (a b : Cle) : Prop := cle_ltb b a = false.

Definition ordre (x y : Cle * Ref) : Prop := cle_le (fst x) (fst y).

Definition cle_eqb (a b : Cle) : bool := (fst a =? fst b) && (snd a =? snd b).

(** The elements of key [k], in list order. *)
Definition de_clef (k : Cle) (l : list (Cle * Ref)) : list (Cle * Ref) :=
  filter (fun x => cle_eqb (fst x) k) l.


(** ** The queue order according to the specification

    The specification announces a sort by effective priority, then arrival
    time, remaining ties being broken by the patient id. *)
Definition ordre_spec (horloge : Instant) (tas : Tas) (a b : Ref) : Prop :=
  let ka := (Patient.priorite_effective horloge (tas a), Patient.heure_arrivee (tas a)) in
  let kb := (Patient.priorite_effective horloge (tas b), Patient.heure_arrivee (tas b)) in
  cle_ltb ka kb = true
  \/ (ka = kb /\ String.leb (Patient.id (tas a)) (Patient.id (tas b)) = true).

(** * Example states *)

Definition patient_ex (ident : string) (g : Gravite) (maladies : list string)
  (arrivee : Instant) : Patient.t :=
  Patient.mk ident "Patient" ident g maladies arrivee EN_ATTENTE None.

Definition rag_ex : RAGSysteme.t :=
  RAGSysteme.mk
    (Some [RAGSysteme.mkNiveau "ROUGE" (Some 15);
           RAGSysteme.mkNiveau "JAUNE" (Some 10);
           RAGSysteme.mkNiveau "VERT" (Some 8);
           RAGSysteme.mkNiveau "GRIS" None])
    (RAGSysteme.mkSpeciales
       (Some (RAGSysteme.mkGris "MAISON" "Retour au domicile"))
       (Some (RAGSysteme.mkRouge "SOINS_CRITIQUES" "Transfert prioritaire")))
    [].

Definition personnel_ex (ident nom : string) : Personnel.t :=
  Personnel.mk ident nom "FIXE" DISPONIBLE None None.

(** An agent with no room, no nurse, no aide, no unit and no patient. *)
Definition agent_ex (tas : Tas) : AgentOrchestration :=
  mkAgent rag_ex [] (personnel_ex "docteur_1" "Dr. Urgences") [] [] []
    [] [] [] [] tas.

(** Two JAUNE patients arrived at the same instant; the first one in the
    waiting list has the greater id. *)
Definition tas_egalite : Tas :=
  fun r => match r with
           | O => patient_ex "P2" JAUNE ["fracture"] 0
           | _ => patient_ex "P1" JAUNE ["fracture"] 0
           end.

Definition etat_egalite : AgentOrchestration :=
  set_patients_en_attente [0%nat; 1%nat] (agent_ex tas_egalite).

(** A clock whose every reading is the same instant. *)
Definition horloge_fixe (h : Instant) : nat -> Instant := fun _ => h.

(** The 360-minute exception for a patient: its wait, read at [horloge],
    exceeds 360 minutes. *)
Definition depasse_360 (horloge : Instant) (p : Patient.t) : bool :=
  negb (Qle_bool (Patient.temps_attente_minutes horloge p) (360 # 1)).

(** A JAUNE patient arrived at minute 100 and a VERT patient arrived at
    instant 0, in this order in the waiting list. *)
Definition tas_360 : Tas :=
  fun r => match r with
           | O => patient_ex "J1" JAUNE ["fracture"] (minutes 100)
           | _ => patient_ex "V1" VERT ["entorse"] 0
           end.

Definition etat_360 : AgentOrchestration :=
  set_patients_en_attente [0%nat; 1%nat] (agent_ex tas_360).

(** The doctor's consultation of "P1" ends at minute 5; the only aide is
    carrying "P0" until minute 100. *)
Definition tas_sans_aide : Tas :=
  fun r => match r with
           | O => Patient.set_statut EN_CONSULTATION
                    (patient_ex "P1" JAUNE ["fracture"] 0)
           | _ => Patient.set_statut TRANSFERE
                    (patient_ex "P0" VERT ["entorse"] 0)
           end.

Definition etat_sans_aide : AgentOrchestration :=
  set_docteur
    (Personnel.mk "docteur_1" "Dr. Urgences" "FIXE" OCCUPE (Some 0%nat)
       (Some (minutes 5)))
    (set_aides_soignants
       [Personnel.mk "aide_1" "Aide A" "MOBILE" OCCUPE (Some 1%nat)
          (Some (minutes 100))]
       (set_infirmieres [personnel_ex "infirmiere_1" "Inf A"]
          (set_salles [SalleAttente.mk 1 2 [] 0] (agent_ex tas_sans_aide)))).

(** A ROUGE patient waits and the doctor is available; the rules of
    [rag_ex] give ROUGE 15 minutes of consultation. *)
Definition tas_rouge : Tas :=
  fun _ => patient_ex "R1" ROUGE ["cardiaque"] 0.

Definition etat_rouge : AgentOrchestration :=
  set_patients_en_attente [0%nat] (agent_ex tas_rouge).

(** The doctor's consultation of the ROUGE patient "R1", who sits in room
    1, is over; an aide is free; the cardiology unit, which the suggestion
    names, is full. *)
Definition tas_unite_pleine : Tas :=
  fun _ => Patient.set_salle (Some 1)
             (Patient.set_statut EN_CONSULTATION
                (patient_ex "R1" ROUGE ["cardiaque"] 0)).

Definition etat_unite_pleine : AgentOrchestration :=
  set_docteur
    (Personnel.mk "docteur_1" "Dr. Urgences" "FIXE" OCCUPE (Some 0%nat)
       (Some (minutes 5)))
    (set_aides_soignants [personnel_ex "aide_1" "Aide A"]
       (set_unites [Unite.mk "CARDIOLOGIE" 1 1 ["Cardiaque"]]
          (set_salles [SalleAttente.mk 1 2 [0%nat] (minutes 8)]
             (agent_ex tas_unite_pleine)))).

(** Two lists of units with the same names and the same specialties, in
    the same order; capacities and occupancies are free. *)
Definition memes_specialites (us us' : list Unite.t) : Prop :=
  Forall2 (fun u u' => Unite.nom u = Unite.nom u'
                       /\ Unite.specialites u = Unite.specialites u') us us'.

(** An orthopaedics unit, then the full cardiology unit. *)
Definition etat_cardiaque : AgentOrchestration :=
  set_unites [Unite.mk "ORTHOPÉDIE" 5 0 ["fracture"; "entorse"];
              Unite.mk "CARDIOLOGIE" 1 1 ["Cardiaque"]]
    (agent_ex tas_rouge).

(** ** Admissions in a row *)

(** A sequence of calls to [accueillir_patient], one per element of the
    list, in order; each call has its own clock reading. *)
Fixpoint accueillir_en_serie (l : list (Instant * Ref)) (s : AgentOrchestration)
  : AgentOrchestration * list ResultatAccueil :=
  match l with
  | [] => (s, [])
  | (h, r) :: l' =>
      let '(s1, res) := accueillir_patient h r s in
      let '(s2, ress) := accueillir_en_serie l' s1 in
      (s2, res :: ress)
  end.

(** Every room is empty, with a capacity that is not negative. *)
Definition salles_vides (s : AgentOrchestration) : Prop :=
  Forall (fun sa => SalleAttente.patients sa = [] /\ 0 <= SalleAttente.capacite sa)
    (salles s).

Definition nombre_succes (l : list ResultatAccueil) : Z :=
  Z.of_nat (List.length (filter accueil_success l)).

Definition nombre_echecs (l : list ResultatAccueil) : Z :=
  Z.of_nat (List.length (filter (fun r => negb (accueil_success r)) l)).

(** Two empty rooms of capacities 1 and 2. *)
Definition etat_trois_places : AgentOrchestration :=
  set_salles [SalleAttente.mk 1 1 [] 0; SalleAttente.mk 2 2 [] 0]
    (agent_ex tas_egalite).

(** A patient already transferred is submitted again; a room has a free place. *)
Definition tas_readmis : Tas :=
  fun _ => Patient.set_statut TRANSFERE (patient_ex "P9" VERT ["entorse"] 0).

Definition etat_readmission : AgentOrchestration :=
  set_salles [SalleAttente.mk 1 2 [] 0] (agent_ex tas_readmis).

(** No room of the list has a free place. *)
Definition sans_place (l : list SalleAttente.t) : Prop :=
  Forall (fun sa => SalleAttente.a_de_la_place sa = false) l.

(** No room of the list exceeds its capacity. *)
Definition salles_bornees (l : list SalleAttente.t) : Prop :=
  Forall (fun sa => SalleAttente.len_patients sa <= SalleAttente.capacite sa) l.

(** ** A cycle repeated at the same instant *)

(** The action a cycle emits again as long as the doctor stays OCCUPE past
    the end of its consultation, for want of an aide. *)
Definition rappel_transport (maintenant : Instant) (s : AgentOrchestration)
  : list Action :=
  if activite_finie maintenant (docteur s) then
    match Personnel.patient_en_charge (docteur s) with
    | Some r => [ActAttenteTransport (Patient.id (tas s r))]
    | None => []
    end
  else [].

Definition en_cours (maintenant : Instant) (p : Personnel.t) : Prop :=
  activite_finie maintenant p = false.

(** A doctor that is OCCUPE has an end time; if it has passed, the doctor
    holds a patient and no aide is available. *)
Definition docteur_regle (maintenant : Instant) (s : AgentOrchestration) : Prop :=
  Personnel.statut (docteur s) = OCCUPE ->
  exists f, Personnel.fin_activite (docteur s) = Some f
    /\ (f <= maintenant ->
        (exists r, Personnel.patient_en_charge (docteur s) = Some r)
        /\ premier_disponible (aides_soignants s) = None).

(** The state a cycle at instant [maintenant] leaves behind: nothing is
    left to process at that instant. *)
Definition au_repos (maintenant : Instant) (s : AgentOrchestration) : Prop :=
  Forall (en_cours maintenant) (infirmieres s)
  /\ Forall (en_cours maintenant) (aides_soignants s)
  /\ docteur_regle maintenant s
  /\ surveiller maintenant (infirmieres s) (salles s)
     = (infirmieres s, salles s, [])
  /\ (est_disponible (docteur s) = true -> patients_en_attente s = []).

(** * Definitions used by the further properties *)

From Stdlib Require Import DecimalString DecimalNat.

(** The rooms of [l'] are those of [l], in order, with the same number,
    capacity and last surveillance time, each holding as many patients as
    before or one fewer. *)
Definition salles_allegees (l l' : list SalleAttente.t) : Prop :=
  Forall2 (fun sa sa' =>
             SalleAttente.numero sa' = SalleAttente.numero sa
             /\ SalleAttente.capacite sa' = SalleAttente.capacite sa
             /\ SalleAttente.derniere_surveillance sa'
                = SalleAttente.derniere_surveillance sa
             /\ SalleAttente.len_patients sa - 1 <= SalleAttente.len_patients sa'
                <= SalleAttente.len_patients sa) l l'.

(** No unit of the list holds more patients than its capacity. *)
Definition unites_bornees (us : list Unite.t) : Prop :=
  Forall (fun u => Unite.patients_actuels u <= Unite.capacite u) us.

(** The sort key of a patient for a clock reading. *)
Definition cle_patient (horloge : Instant) (p : Patient.t) : Cle :=
  (Patient.priorite_effective horloge p, Patient.heure_arrivee p).

(** The heap [tas'] is [tas] except perhaps for the room reference of [r],
    which may have been cleared. *)
Definition tas_detache (r : Ref) (tas tas' : Tas) : Prop :=
  (forall x, x <> r -> tas' x = tas x)
  /\ (tas' r = tas r \/ tas' r = Patient.set_salle None (tas r)).

(** The state of step 2 of the cycle just before the transfer is committed:
    the doctor is freed, the first available aide holds the patient for 15
    minutes and the patient is TRANSFERE. *)
Definition prise_en_charge (maintenant : Instant) (r : Ref)
  (s : AgentOrchestration) : AgentOrchestration :=
  let d := docteur s in
  set_tas (maj (tas s) r (Patient.set_statut TRANSFERE (tas s r)))
    (set_aides_soignants
       (modifier_premier_disponible
          (fun a => Personnel.mk (Personnel.id a) (Personnel.nom a)
                      (Personnel.type a) OCCUPE (Some r)
                      (Some (maintenant + minutes 15)))
          (aides_soignants s))
       (set_docteur
          (Personnel.mk (Personnel.id d) (Personnel.nom d)
             (Personnel.type d) DISPONIBLE None (Personnel.fin_activite d)) s)).

(** The rooms of [l'] are those of [l], in order, with the same number and
    capacity, none holding more patients than before. *)
Definition salles_reduites (l l' : list SalleAttente.t) : Prop :=
  Forall2 (fun sa sa' =>
             SalleAttente.numero sa' = SalleAttente.numero sa
             /\ SalleAttente.capacite sa' = SalleAttente.capacite sa
             /\ SalleAttente.len_patients sa' <= SalleAttente.len_patients sa) l l'.

(** The units of [us'] are those of [us], in order, with the same name,
    capacity and specialties, none holding fewer patients than before. *)
Definition unites_conservees (us us' : list Unite.t) : Prop :=
  Forall2 (fun u u' =>
             Unite.nom u' = Unite.nom u
             /\ Unite.capacite u' = Unite.capacite u
             /\ Unite.specialites u' = Unite.specialites u
             /\ Unite.patients_actuels u <= Unite.patients_actuels u') us us'.

(** A doctor has just ended a consultation of "R1" and an aide is free, as in
    [etat_unite_pleine], but the cardiology unit has one place left. *)
Definition etat_unite_libre : AgentOrchestration :=
  set_unites [Unite.mk "CARDIOLOGIE" 2 1 ["Cardiaque"]] etat_unite_pleine.

(** ** Sequences of operations *)

Inductive Operation :=
| OpAccueillir (horloge : Instant) (r : Ref)
| OpDemarrer (horloge : Instant) (r : Ref)
| OpTransferer (r : Ref) (unite_nom : string)
| OpCycle (horloge : nat -> Instant) (temps_virtuel : option Instant).

(** One call of a public operation of the agent; what the call returns is
    dropped, an exception is kept. *)
Definition appliquer (lower : string -> string) (op : Operation)
  (s : AgentOrchestration) : Resultat AgentOrchestration :=
  match op with
  | OpAccueillir h r => Ok (fst (accueillir_patient h r s))
  | OpDemarrer h r =>
      match demarrer_consultation h r s with
      | Ok (s', _) => Ok s'
      | Leve e => Leve e
      end
  | OpTransferer r unite_nom => Ok (fst (transferer_patient r unite_nom s))
  | OpCycle h tv =>
      match cycle_orchestration lower h tv s with
      | Ok (s', _) => Ok s'
      | Leve e => Leve e
      end
  end.

(** The calls of the list, in order, up to the first exception. *)
Fixpoint executer (lower : string -> string) (ops : list Operation)
  (s : AgentOrchestration) : Resultat AgentOrchestration :=
  match ops with
  | [] => Ok s
  | op :: ops' =>
      match appliquer lower op s with
      | Ok s' => executer lower ops' s'
      | Leve e => Leve e
      end
  end.

(** An admission, a cycle and an explicit transfer on [etat_unite_libre]. *)
Definition operations_ex : list Operation :=
  [OpAccueillir 0 1%nat;
   OpCycle (horloge_fixe 0) (Some (minutes 10));
   OpTransferer 1%nat "CARDIOLOGIE"].

(** The doctor's consultation of the GRIS patient "G1", who sits in room 1,
    is over and an aide is free; the special rule sends GRIS patients to
    "MAISON", which is not a transfer unit. *)
Definition tas_gris : Tas :=
  fun _ => Patient.set_salle (Some 1)
             (Patient.set_statut EN_CONSULTATION
                (patient_ex "G1" GRIS ["rhume"] 0)).

Definition etat_gris : AgentOrchestration :=
  set_docteur
    (Personnel.mk "docteur_1" "Dr. Urgences" "FIXE" OCCUPE (Some 0%nat)
       (Some (minutes 5)))
    (set_aides_soignants [personnel_ex "aide_1" "Aide A"]
       (set_unites [Unite.mk "CARDIOLOGIE" 2 1 ["Cardiaque"]]
          (set_salles [SalleAttente.mk 1 2 [0%nat] (minutes 8)]
             (agent_ex tas_gris)))).

(** ** Counting in the cycle *)

(** [(maintenant - salle.derniere_surveillance).total_seconds() / 60 >= 15] *)
Definition a_surveiller (maintenant : Instant) (sa : SalleAttente.t) : bool :=
  minutes 15 <=? maintenant - SalleAttente.derniere_surveillance sa.

Definition est_inspection (a : Action) : bool :=
  match a with ActInspection _ _ => true | _ => false end.

Definition compter {A : Type} (f : A -> bool) (l : list A) : nat :=
  List.length (filter f l).

(** What identifies a member of staff: the fields the agent never writes. *)
Definition identite (p : Personnel.t) : string * string * string :=
  (Personnel.id p, Personnel.nom p, Personnel.type p).


(** What the hospital knows of a patient on arrival: every field of the
    record apart from [statut] and [salle]. *)
Definition dossier (p : Patient.t)
  : string * string * string * Gravite * list string * Instant :=
  (Patient.id p, Patient.prenom p, Patient.nom p, Patient.gravite p,
   Patient.type_maladie p, Patient.heure_arrivee p).

(** The rules the agent reads from the RAG system, without the journal. *)
Definition regles (r : RAGSysteme.t)
  : option (list RAGSysteme.Niveau) * RAGSysteme.ReglesSpeciales :=
  (RAGSysteme.niveaux r, RAGSysteme.regles_speciales r).

(** ** Construction of the agent *)

(** [str(n)] for a natural number, as an f-string interpolates it. *)
Definition str_nat (n : nat) : string :=
  NilEmpty.string_of_uint (Nat.to_uint n).

(** [enumerate(l)] *)
Definition enumerate {A : Type} (l : list A) : list (nat * A) :=
  combine (seq 0 (List.length l)) l.

(** The values [_initialiser_depuis_rag] obtains from the RAG system, with
    the keys it reads. An [option] field is a key that may be absent. *)
Module Configuration.

(** One element of [infra["salles_attente"]]. *)
Record Salle := mkSalle {
  numero : Z;
  capacite : Z
}.

(** One element of [personnel_config["infirmieres"]] or
    [personnel_config["aides_soignants"]]. *)
Record Membre := mkMembre {
  nom : string;
  type : string
}.

(** One element of [get_unites_transfert()]. *)
Record UniteTransfert := mkUnite {
  unite_nom : string;
  capacite_initiale : option Z;
  unite_capacite : option Z;
  specialites : option (list string)
}.

Record t := mk {
  salles_attente : option (list Salle);
  docteur : bool;                            (* "docteur" in personnel_config *)
  infirmieres : option (list Membre);
  aides_soignants : option (list Membre);
  unites_transfert : list UniteTransfert
}.

End Configuration.

(** [unite_cfg.get("capacite_initiale", unite_cfg.get("capacite", 10))] *)
Definition capacite_configuree (c : Configuration.UniteTransfert) : Z :=
  match Configuration.capacite_initiale c with
  | Some k => k
  | None =>
      match Configuration.unite_capacite c with
      | Some k => k
      | None => 10
      end
  end.

(** The loop over [infra["salles_attente"]]; [horloge i] is the clock reading
    that dates the creation of the room of index [i]. *)
Definition creer_salles (horloge : nat -> Instant)
  (l : list Configuration.Salle) : list SalleAttente.t :=
  map (fun ic : nat * Configuration.Salle =>
         SalleAttente.mk (Configuration.numero (snd ic))
           (Configuration.capacite (snd ic)) [] (horloge (fst ic)))
      (enumerate l).

(** The loops over [personnel_config["infirmieres"]] and
    [personnel_config["aides_soignants"]]:
    [Personnel(id=f"<prefixe>{i+1}", nom=m["nom"], type=m["type"])]. *)
Definition creer_equipe (prefixe : string) (l : list Configuration.Membre)
  : list Personnel.t :=
  map (fun im : nat * Configuration.Membre =>
         Personnel.mk (prefixe ++ str_nat (S (fst im)))
           (Configuration.nom (snd im)) (Configuration.type (snd im))
           DISPONIBLE None None)
      (enumerate l).

Definition creer_unites (l : list Configuration.UniteTransfert) : list Unite.t :=
  map (fun c =>
         Unite.mk (Configuration.unite_nom c) (capacite_configuree c) 0
           (match Configuration.specialites c with
            | Some sp => sp
            | None => []
            end))
      l.

Definition liste_ou_vide {A : Type} (o : option (list A)) : list A :=
  match o with Some l => l | None => [] end.

(** The attributes [_initialiser_depuis_rag] assigns: the rooms, the doctor
    (assigned only when the configuration has the key), the nurses, the
    aides and the units. *)
Definition _initialiser_depuis_rag (horloge : nat -> Instant)
  (cfg : Configuration.t)
  : list SalleAttente.t * option Personnel.t * list Personnel.t
    * list Personnel.t * list Unite.t :=
  (creer_salles horloge (liste_ou_vide (Configuration.salles_attente cfg)),
   (if Configuration.docteur cfg
    then Some (Personnel.mk "docteur_1" "Dr. Urgences" "FIXE" DISPONIBLE None None)
    else None),
   creer_equipe "infirmiere_" (liste_ou_vide (Configuration.infirmieres cfg)),
   creer_equipe "aide_" (liste_ou_vide (Configuration.aides_soignants cfg)),
   creer_unites (Configuration.unites_transfert cfg)).

(** [AgentOrchestration.__init__]; [rg] is the RAG system the agent keeps and
    [tas] the patients that exist. The agent record of this development
    always has a doctor: without the key ["docteur"] the Python object is
    built without that attribute, which the record cannot express, and the
    result is [None]. *)
Definition agent__init__ (horloge : nat -> Instant) (cfg : Configuration.t)
  (rg : RAGSysteme.t) (tas : Tas) : option AgentOrchestration :=
  match _initialiser_depuis_rag horloge cfg with
  | (sl, Some d, infs, aides, us) =>
      Some (mkAgent rg sl d infs aides us [] [] [] [] tas)
  | (_, None, _, _, _) => None
  end.

(** Two rooms, a doctor, two nurses, an aide and two units, one of which
    relies on the default capacity. *)
Definition configuration_ex : Configuration.t :=
  Configuration.mk
    (Some [Configuration.mkSalle 1 5; Configuration.mkSalle 2 10])
    true
    (Some [Configuration.mkMembre "Inf A" "FIXE";
           Configuration.mkMembre "Inf B" "MOBILE"])
    (Some [Configuration.mkMembre "Aide A" "MOBILE"])
    [Configuration.mkUnite "CARDIOLOGIE" (Some 2) (Some 8) (Some ["Cardiaque"]);
     Configuration.mkUnite "SOINS_CRITIQUES" None None None].

(** ** [mcp_tools.py]: admissions in bulk *)

Fixpoint zeros (k : nat) : string :=
  match k with
  | O => ""
  | S k' => String "0" (zeros k')
  end.

(** [f"{n:03d}"] for a natural number. *)
Definition format_03d (n : nat) : string :=
  zeros (3 - String.length (str_nat n)) ++ str_nat n.

(** What one iteration of [ajouter_patients_masse] draws or reads: the new
    [Patient] object, the values [random] picks, the clock reading that
    dates the arrival and the one [accueillir_patient] makes. Any value may
    be drawn: the model does not restrict the draws to the pools of
    [generer_patient_aleatoire]. *)
Record Tirage := mkTirage {
  objet : Ref;
  prenom_tire : string;
  nom_tire : string;
  maladies_tirees : list string;
  gravite_choisie : Gravite;
  instant_creation : Instant;
  instant_accueil : Instant
}.

(** [generer_patient_aleatoire(f"PMASSE{i+1:03d}")] followed by
    [patient.gravite = gravite_choisie]. *)
Definition patient_masse (i : nat) (t : Tirage) : Patient.t :=
  Patient.mk ("PMASSE" ++ format_03d (S i)) (prenom_tire t) (nom_tire t)
    (gravite_choisie t) (maladies_tirees t) (instant_creation t)
    EN_ATTENTE None.

(** The loop [for i in range(nombre)], from index [i] for [n] iterations;
    the result carries [patients_ajoutes] and [patients_refuses]. *)
Fixpoint boucle_masse (tirages : nat -> Tirage) (i n : nat)
  (s : AgentOrchestration) : AgentOrchestration * list string * list string :=
  match n with
  | O => (s, [], [])
  | S n' =>
      let t := tirages i in
      let s0 := set_tas (maj (tas s) (objet t) (patient_masse i t)) s in
      let '(s1, res) := accueillir_patient (instant_accueil t) (objet t) s0 in
      let ident := Patient.id (tas s1 (objet t)) in
      let '(s2, aj, re) := boucle_masse tirages (S i) n' s1 in
      if accueil_success res then (s2, ident :: aj, re)
      else (s2, aj, ident :: re)
  end.

(** The dictionary [ajouter_patients_masse] returns, without
    ["taux_saturation_apres"], a rounded floating-point ratio. *)
Record ResultatMasse := mkResultatMasse {
  total_generes : Z;
  ajoutes : Z;
  refuses : Z;
  patients_ajoutes : list string;
  patients_refuses : list string
}.

(** [ajouter_patients_masse(nombre)], with the default distribution. *)
Definition ajouter_patients_masse (tirages : nat -> Tirage) (nombre : Z)
  (s : AgentOrchestration) : AgentOrchestration * ResultatMasse :=
  let '(s', aj, re) := boucle_masse tirages 0 (Z.to_nat nombre) s in
  (s', mkResultatMasse nombre (Z.of_nat (List.length aj))
         (Z.of_nat (List.length re)) aj re).

(** The dictionary [creer_scenario_saturation] returns, without the two
    entries derived from the rounded ratio. *)
Record ScenarioSaturation := mkScenarioSaturation {
  scenario_capacite_totale : Z;
  scenario_occupation_initiale : Z;
  scenario_patients_ajoutes : Z;
  scenario_patients_refuses : Z
}.

Definition creer_scenario_saturation (tirages : nat -> Tirage)
  (s : AgentOrchestration) : AgentOrchestration * ScenarioSaturation :=
  let places_restantes := capacite_totale s - occupation_actuelle s in
  let nombre_a_ajouter := places_restantes + 5 in
  let '(s', resultats) := ajouter_patients_masse tirages nombre_a_ajouter s in
  (s', mkScenarioSaturation (capacite_totale s) (occupation_actuelle s)
         (ajoutes resultats) (refuses resultats)).

(** Every draw creates the object 7 and a VERT patient. *)
Definition tirages_ex : nat -> Tirage :=
  fun _ => mkTirage 7%nat "Marie" "Dupont" ["entorse"] VERT 0 0.

(** ** [rag_systeme.py]: the rules as JSON values *)

(** A value [json.load] returns. A [dict] keeps its entries in insertion
    order; its keys are pairwise distinct. *)
#[warnings="-register-all"]
Inductive JSON :=
| JNull
| JBool (b : bool)
| JNombre (q : Q)
| JChaine (s : string)
| JListe (l : list JSON)
| JDict (d : list (string * JSON)).

(** [d.get(k)] on the entries of a dict; [None] when [k not in d]. *)
Fixpoint valeur (k : string) (d : list (string * JSON)) : option JSON :=
  match d with
  | [] => None
  | (k', v) :: d' => if String.eqb k' k then Some v else valeur k d'
  end.

(** [s.split('/')] *)
Fixpoint split_slash (s : string) : list string :=
  match s with
  | EmptyString => [EmptyString]
  | String c s' =>
      if Ascii.eqb c "/" then EmptyString :: split_slash s'
      else
        match split_slash s' with
        | h :: t => String c h :: t
        | [] => [String c EmptyString]
        end
  end.

(** The loop of [get_section]; Python's [None] is [JNull]. *)
Fixpoint descendre (parts : list string) (current : JSON) : JSON :=
  match parts with
  | [] => current
  | part :: rest =>
      match current with
      | JDict d =>
          match valeur part d with
          | Some v => descendre rest v
          | None => JNull
          end
      | _ => JNull
      end
  end.

(** [regles] holds the entries of [self.regles]: file name, content. *)
Definition get_section (section_path : string) (regles : list (string * JSON))
  : JSON :=
  descendre (split_slash section_path) (JDict regles).

(** The loop shared by the accessors:
    [for regles_file in self.regles.values():
       if isinstance(regles_file, dict) and cle in regles_file:
         return regles_file[cle]]. *)
Fixpoint premiere_section (cle : string) (regles : list (string * JSON))
  : option JSON :=
  match regles with
  | [] => None
  | (_, JDict d) :: rest =>
      match valeur cle d with
      | Some v => Some v
      | None => premiere_section cle rest
      end
  | _ :: rest => premiere_section cle rest
  end.

Definition section_ou_vide (cle : string) (regles : list (string * JSON)) : JSON :=
  match premiere_section cle regles with
  | Some v => v
  | None => JDict []
  end.

Definition get_regles_priorite := section_ou_vide "regles_priorite".
Definition get_personnel := section_ou_vide "personnel".
Definition get_infrastructure := section_ou_vide "infrastructure".
Definition get_contraintes := section_ou_vide "contraintes_principales".
Definition get_regles_speciales_json := section_ou_vide "regles_speciales".

(** [regles_file["unites_transfert"].get("unites", [])]: only a dict has the
    method [get]. *)
Definition get_unites_transfert (regles : list (string * JSON))
  : Resultat JSON :=
  match premiere_section "unites_transfert" regles with
  | Some (JDict d) =>
      Ok (match valeur "unites" d with Some v => v | None => JListe [] end)
  | Some _ => Leve AttributeError
  | None => Ok (JListe [])
  end.

Definition sans_slash (s : string) : Prop := split_slash s = [s].

(** Two rule files; the second repeats a section of the first. *)
Definition regles_ex : list (string * JSON) :=
  [("contraintes.json",
    JDict [("contraintes_principales", JDict [("surveillance_min", JNombre (15 # 1))])]);
   ("regles_orchestration.json",
    JDict [("regles_priorite", JDict [("niveaux", JListe [])]);
           ("unites_transfert", JDict [("unites", JListe [JChaine "CARDIOLOGIE"])])]);
   ("archive.json",
    JDict [("regles_priorite", JDict []);
           ("unites_transfert", JListe [])])].

(** ** [rag_systeme.py]: the log files *)

(** [l[debut:]] for a Python list. *)
Definition tranche_depuis {A : Type} (debut : Z) (l : list A) : list A :=
  let n := Z.of_nat (List.length l) in
  let d := if debut <? 0 then Z.max (debut + n) 0 else Z.min debut n in
  skipn (Z.to_nat d) l.

Module Journal.

(** One entry of a log file; [timestamp] stands for both ["timestamp"] and
    ["timestamp_unix"]. *)
Record Entree := mkEntree {
  timestamp : Instant;
  event_type : string;
  data : JSON;
  metriques_instant : JSON
}.

(** The log directory: the entries each existing file holds, by path. A
    file holds what [json.dump] wrote, which [json.load] gives back. *)
Definition Fichiers := string -> option (list Entree).

Definition ecrire (chemin : string) (logs : list Entree) (fs : Fichiers)
  : Fichiers :=
  fun c => if String.eqb c chemin then Some logs else fs c.

Section Acces.

(** [timestamp.strftime("%Y-%m-%d")] *)
Variable strftime_date : Instant -> string.

(** [os.path.join(self.logs_dir, f"urgences_{date}.json")] *)
Variable log_file : string -> string.

(** [maintenant]: the [datetime.now()] read on entry. *)
Definition enregistrer_log (maintenant : Instant) (type_evenement : string)
  (donnees : JSON) (metriques : option (list (string * JSON)))
  (fs : Fichiers) : Fichiers * string :=
  let log_entry :=
    mkEntree maintenant type_evenement donnees
      (JDict (match metriques with Some m => m | None => [] end)) in
  let chemin := log_file (strftime_date maintenant) in
  let logs := match fs chemin with Some l => l | None => [] end in
  (ecrire chemin (logs ++ [log_entry]) fs, chemin).

(** [maintenant] is read only when [date] is [None]. *)
Definition charger_logs (maintenant : Instant) (date : option string)
  (limit : Z) (fs : Fichiers) : list Entree :=
  let d := match date with Some d => d | None => strftime_date maintenant end in
  match fs (log_file d) with
  | None => []
  | Some logs => tranche_depuis (- limit) logs
  end.

End Acces.

End Journal.

(** A calendar of whole days and the file of each date, for the examples. *)
Definition date_ex (t : Instant) : string :=
  if t <? minutes 1440 then "2024-01-01" else "2024-01-02".

Definition log_file_ex (date : string) : string :=
  "logs/urgences_" ++ date ++ ".json".

Definition entree_ex (t : Instant) : Journal.Entree :=
  Journal.mkEntree t "PATIENT_ACCUEILLI" (JDict [("patient_id", JChaine "P1")])
    (JDict []).

(** A directory with one file, which holds three entries. *)
Definition fichiers_ex : Journal.Fichiers :=
  Journal.ecrire (log_file_ex "2024-01-01")
    [entree_ex 1; entree_ex 2; entree_ex 3] (fun _ => None).

(** ** [app_simulation.py]: the simulation tick *)

(** [t.replace(hour=8, minute=0)]: the date, the seconds and the
    microseconds of [t] are kept. Instants are counted from a midnight; a
    day is [minutes 1440]. *)
Definition replace_8h (t : Instant) : Instant :=
  t - t mod minutes 1440 + minutes 480 + t mod minutes 1.

(** [datetime.now().replace(hour=8, minute=0)
     + timedelta(minutes=st.session_state.temps_simule)];
    [mur] is the reading of the wall clock. *)
Definition horloge_virtuelle (mur : Instant) (temps_simule : Z) : Instant :=
  replace_8h mur + minutes temps_simule.

(** The part of [st.session_state] the tick uses. An entry of [events_log]
    is the text [f"[T+{temps:03d}min] {message}"]: it is kept as the pair of
    the values interpolated. *)
Record Session := mkSession {
  agent : AgentOrchestration;
  temps_simule : Z;
  events_log : list (Z * Action)
}.

(** [horloge 0] is the reading made by the tick itself, the following ones
    are those of the cycle. *)
Definition tick_simulation (lower : string -> string) (horloge : nat -> Instant)
  (ss : Session) : Resultat Session :=
  let hv := horloge_virtuelle (horloge 0%nat) (temps_simule ss) in
  let temps := temps_simule ss + 1 in
  match cycle_orchestration lower (fun i => horloge (S i)) (Some hv) (agent ss) with
  | Ok (a, actions) =>
      Ok (mkSession a temps
            (events_log ss ++ map (fun action => (temps, action)) actions))
  | Leve e => Leve e
  end.

(** Tick 3 started the consultation of patient 0 at 12 seconds past the
    minute; an aide is free. *)
Definition session_ex (temps : Z) : Session :=
  mkSession
    (set_docteur
       (Personnel.mk "docteur_1" "Dr. Urgences" "FIXE" OCCUPE (Some 0%nat)
          (Some (horloge_virtuelle 12000000 3 + minutes 5)))
       (set_aides_soignants [personnel_ex "aide_1" "Aide A"]
          (agent_ex tas_egalite)))
    temps [].

(** ** [mcp_tools.py]: the scenario of the 360-minute exception *)

(** The clock readings of [creer_scenario_exception_360], in the order they
    are made. *)
Record Lectures360 := mkLectures360 {
  creation_vert : Instant;            (* heure_arrivee of the VERT patient, plus 7 h *)
  creation_jaune : Instant;           (* heure_arrivee of the JAUNE patient *)
  accueil_vert : Instant;             (* accueillir_patient(patient_vert) *)
  accueil_jaune : Instant;            (* accueillir_patient(patient_jaune) *)
  lectures_file : nat -> Instant;     (* calculer_file_priorite() *)
  priorite_vert : Instant;            (* patient_vert.priorite_effective() *)
  priorite_jaune : Instant;           (* patient_jaune.priorite_effective() *)
  lectures_liste : nat -> Instant;    (* p.priorite_effective() for p in file *)
  exception_vert : Instant;           (* "exception_activee", VERT patient *)
  exception_jaune : Instant           (* "exception_activee", JAUNE patient *)
}.

(** The dictionary returned, without the two ["attente_minutes"], which are
    floating-point numbers. *)
Record Scenario360 := mkScenario360 {
  vert_priorite_effective : Z;
  jaune_priorite_effective : Z;
  file_priorite : list (string * Gravite * Z);
  exception_activee : bool
}.

(** [rv] and [rj] are the two [Patient] objects the scenario creates. *)
Definition creer_scenario_exception_360 (l : Lectures360) (rv rj : Ref)
  (s : AgentOrchestration) : AgentOrchestration * Scenario360 :=
  let patient_vert :=
    Patient.mk "VERT_7H" "Patient" "Longue Attente" VERT ["entorse"]
      (creation_vert l - minutes 420) EN_ATTENTE None in
  let patient_jaune :=
    Patient.mk "JAUNE_RECENT" "Patient" "Récent" JAUNE ["fracture"]
      (creation_jaune l) EN_ATTENTE None in
  let s0 := set_tas (maj (maj (tas s) rv patient_vert) rj patient_jaune) s in
  let s1 := fst (accueillir_patient (accueil_vert l) rv s0) in
  let s2 := fst (accueillir_patient (accueil_jaune l) rj s1) in
  let file := calculer_file_priorite (lectures_file l) s2 in
  (s2,
   mkScenario360
     (Patient.priorite_effective (priorite_vert l) (tas s2 rv))
     (Patient.priorite_effective (priorite_jaune l) (tas s2 rj))
     (map (fun ip : nat * Ref =>
             (Patient.id (tas s2 (snd ip)), Patient.gravite (tas s2 (snd ip)),
              Patient.priorite_effective (lectures_liste l (fst ip))
                (tas s2 (snd ip))))
          (enumerate file))
     (Patient.priorite_effective (exception_vert l) (tas s2 rv)
      <? Patient.priorite_effective (exception_jaune l) (tas s2 rj))).

(** Every reading gives the same instant. *)
Definition lectures_ex : Lectures360 :=
  mkLectures360 0 0 0 0 (horloge_fixe 0) 0 0 (horloge_fixe 0) 0 0.
(** * Properties *)

(** ** Effective priority *)

Lemma attente_depasse_360 (horloge : Instant) (p : Patient.t) :
  negb (Qle_bool (Patient.temps_attente_minutes horloge p) (360 # 1)) = true
  <-> (360 # 1 < Patient.temps_attente_minutes horloge p)%Q.
Proof.
  rewrite negb_true_iff. split.
  - intro E. apply Qnot_le_lt. intro H. apply Qle_bool_iff in H. congruence.
  - intro H. destruct (Qle_bool _ _) eqn:E; [|reflexivity].
    apply Qle_bool_iff in E. exfalso. eapply Qlt_not_le; eauto.
Qed.


(** ** Sorting the queue *)

Lemma cle_ltb_iff (a b : Cle) :
  cle_ltb a b = true <-> fst a < fst b \/ (fst a = fst b /\ snd a < snd b).
Proof.
  unfold cle_ltb.
  rewrite orb_true_iff, andb_true_iff, Z.eqb_eq, !Z.ltb_lt. tauto.
Qed.

Lemma cle_le_iff (a b : Cle) :
  cle_le a b <-> fst a < fst b \/ (fst a = fst b /\ snd a <= snd b).
Proof.
  unfold cle_le. rewrite <- not_true_iff_false, cle_ltb_iff. lia.
Qed.

Lemma cle_eqb_eq (a b : Cle) : cle_eqb a b = true <-> a = b.
Proof.
  unfold cle_eqb. rewrite andb_true_iff, !Z.eqb_eq.
  destruct a, b; cbn. split; [intros [-> ->]; reflexivity | intros [= -> ->]; auto].
Qed.

Lemma cle_eqb_refl (a : Cle) : cle_eqb a a = true.
Proof. apply cle_eqb_eq. reflexivity. Qed.

Lemma cle_le_trans (a b c : Cle) : cle_le a b -> cle_le b c -> cle_le a c.
Proof. rewrite !cle_le_iff. lia. Qed.

Lemma cle_le_antisym (a b : Cle) : cle_le a b -> cle_le b a -> a = b.
Proof.
  rewrite !cle_le_iff. destruct a as [a1 a2], b as [b1 b2]; cbn. intros H1 H2.
  assert (a1 = b1 /\ a2 = b2) as [-> ->] by lia. reflexivity.
Qed.

Lemma cle_ltb_le (a b : Cle) : cle_ltb a b = true -> cle_le a b.
Proof. rewrite cle_ltb_iff, cle_le_iff. lia. Qed.

Lemma cle_ltb_neq (a b : Cle) : cle_ltb a b = true -> cle_eqb a b = false.
Proof.
  intro H. apply not_true_iff_false. rewrite cle_eqb_eq. intros ->.
  apply cle_ltb_iff in H. lia.
Qed.

Lemma inserer_perm (x : Cle * Ref) (l : list (Cle * Ref)) :
  Permutation (inserer x l) (x :: l).
Proof.
  induction l as [|y l IH]; cbn.
  - apply Permutation_refl.
  - destruct (cle_ltb (fst y) (fst x)).
    + rewrite IH. apply perm_swap.
    + apply Permutation_refl.
Qed.

Lemma sorted_perm (l : list (Cle * Ref)) : Permutation (sorted l) l.
Proof.
  induction l as [|x l IH]; cbn.
  - apply perm_nil.
  - rewrite inserer_perm. apply perm_skip, IH.
Qed.

Lemma inserer_ordonne (x : Cle * Ref) (l : list (Cle * Ref)) :
  StronglySorted ordre l -> StronglySorted ordre (inserer x l).
Proof.
  induction 1 as [|y l Hl IH Hy]; cbn.
  - constructor; constructor.
  - destruct (cle_ltb (fst y) (fst x)) eqn:E.
    + constructor; [exact IH|].
      apply Forall_forall. intros z Hz.
      apply (Permutation_in _ (inserer_perm x l)) in Hz.
      destruct Hz as [<-|Hz].
      * apply cle_ltb_le, E.
      * rewrite Forall_forall in Hy. apply Hy, Hz.
    + constructor; [constructor; assumption|].
      constructor; [exact E|].
      eapply Forall_impl; [|exact Hy].
      intros z Hz. unfold ordre in *. eapply cle_le_trans; [exact E|exact Hz].
Qed.

Lemma sorted_ordonne (l : list (Cle * Ref)) : StronglySorted ordre (sorted l).
Proof.
  induction l as [|x l IH]; cbn.
  - constructor.
  - apply inserer_ordonne, IH.
Qed.

Lemma de_clef_inserer (k : Cle) (x : Cle * Ref) (l : list (Cle * Ref)) :
  de_clef k (inserer x l) = de_clef k (x :: l).
Proof.
  induction l as [|y l IH]; [reflexivity|].
  cbn [inserer]. destruct (cle_ltb (fst y) (fst x)) eqn:E; [|reflexivity].
  unfold de_clef in *. cbn [filter] in *. rewrite IH.
  destruct (cle_eqb (fst x) k) eqn:Ex; [|reflexivity].
  apply cle_eqb_eq in Ex. subst k.
  rewrite (cle_ltb_neq _ _ E). reflexivity.
Qed.

Lemma sorted_stable (k : Cle) (l : list (Cle * Ref)) :
  de_clef k (sorted l) = de_clef k l.
Proof.
  induction l as [|x l IH]; [reflexivity|].
  cbn [sorted]. rewrite de_clef_inserer.
  unfold de_clef in *. cbn [filter]. rewrite IH. reflexivity.
Qed.

Lemma de_clef_vide (l : list (Cle * Ref)) :
  (forall k, de_clef k l = []) -> l = [].
Proof.
  destruct l as [|y l]; [reflexivity|].
  intro H. specialize (H (fst y)). unfold de_clef in H. cbn in H.
  rewrite cle_eqb_refl in H. discriminate.
Qed.

Lemma de_clef_In (k : Cle) (x : Cle * Ref) (l : list (Cle * Ref)) :
  In x (de_clef k l) <-> In x l /\ fst x = k.
Proof. unfold de_clef. rewrite filter_In, cle_eqb_eq. reflexivity. Qed.

(** Two ordered lists that have, for each key, the same elements in the
    same order are equal. *)
Lemma ordonnees_egales (l1 : list (Cle * Ref)) :
  forall l2, StronglySorted ordre l1 -> StronglySorted ordre l2 ->
  (forall k, de_clef k l1 = de_clef k l2) -> l1 = l2.
Proof.
  induction l1 as [|x l1 IH]; intros l2 S1 S2 H.
  - symmetry. apply de_clef_vide. intro k. rewrite <- H. reflexivity.
  - destruct l2 as [|y l2].
    { apply de_clef_vide. intro k. rewrite H. reflexivity. }
    inversion S1 as [|? ? S1' F1]; subst. inversion S2 as [|? ? S2' F2]; subst.
    rewrite Forall_forall in F1, F2.
    assert (Ek : fst x = fst y).
    { apply cle_le_antisym.
      - assert (Hy : In y (x :: l1)).
        { apply (de_clef_In (fst y)). rewrite H. apply de_clef_In.
          split; [left|]; reflexivity. }
        destruct Hy as [->|Hy]; [rewrite cle_le_iff; lia | apply F1, Hy].
      - assert (Hx : In x (y :: l2)).
        { apply (de_clef_In (fst x)). rewrite <- H. apply de_clef_In.
          split; [left|]; reflexivity. }
        destruct Hx as [->|Hx]; [rewrite cle_le_iff; lia | apply F2, Hx]. }
    assert (Exy : x = y).
    { specialize (H (fst x)). unfold de_clef in H. cbn in H.
      rewrite <- Ek, cle_eqb_refl in H. congruence. }
    subst y. f_equal. apply IH; try assumption.
    intro k. specialize (H k). unfold de_clef in *. cbn in H.
    destruct (cle_eqb (fst x) k); congruence.
Qed.

(** The result of a stable sort is unique: any ordered list that keeps,
    key by key, the input order is the one [sorted] computes. *)
Lemma tri_stable_unique (l l' : list (Cle * Ref)) :
  StronglySorted ordre l' -> (forall k, de_clef k l' = de_clef k l) ->
  l' = sorted l.
Proof.
  intros S H. apply ordonnees_egales; [exact S | apply sorted_ordonne |].
  intro k. rewrite H, sorted_stable. reflexivity.
Qed.

Lemma decorer_snd (horloge : nat -> Instant) (tas : Tas) (l : list Ref) :
  map snd (decorer horloge tas l) = l.
Proof.
  revert horloge. induction l as [|r l IH]; intro horloge; cbn; [reflexivity|].
  rewrite IH. reflexivity.
Qed.

Lemma decorer_nth (tas : Tas) (l : list Ref) :
  forall (horloge : nat -> Instant) (i : nat) (r : Ref),
  nth_error l i = Some r ->
  nth_error (decorer horloge tas l) i
  = Some ((Patient.priorite_effective (horloge i) (tas r),
           Patient.heure_arrivee (tas r)), r).
Proof.
  induction l as [|x l IH]; intros horloge [|i] r H; cbn in *; try discriminate.
  - injection H as ->. reflexivity.
  - apply (IH (fun i => horloge (S i))), H.
Qed.

Lemma calculer_file_priorite_perm (horloge : nat -> Instant)
  (s : AgentOrchestration) :
  Permutation (calculer_file_priorite horloge s) (patients_en_attente s).
Proof.
  unfold calculer_file_priorite.
  rewrite <- (decorer_snd horloge (tas s) (patients_en_attente s)) at 2.
  apply Permutation_map, sorted_perm.
Qed.

(** C5, as stated, is false: two patients with the same priority and the
    same arrival time keep the order of the waiting list, here id "P2"
    before "P1"; the queue returned is not ordered by [ordre_spec]. *)
Lemma file_sans_departage_par_id :
  calculer_file_priorite (fun _ => 0) etat_egalite = [0%nat; 1%nat]
  /\ ~ Sorted (ordre_spec 0 (tas etat_egalite))
         (calculer_file_priorite (fun _ => 0) etat_egalite).
Proof.
  split; [reflexivity|].
  intro H. inversion H as [|? ? _ Hd]; subst.
  inversion Hd as [|? ? Ho]; subst.
  destruct Ho as [Ho | [_ Ho]]; vm_compute in Ho; discriminate.
Qed.

(** C5 (amended): the queue returned is the waiting list sorted by
    effective priority ascending, then arrival time ascending; the sort is
    stable: patients with the same key (priority, arrival) keep the order of
    the waiting list, and the patient id plays no part. *)
Theorem calculer_file_priorite_spec (horloge : nat -> Instant)
  (s : AgentOrchestration) :
  let d := decorer horloge (tas s) (patients_en_attente s) in
  map snd d = patients_en_attente s
  /\ (forall i r, nth_error (patients_en_attente s) i = Some r ->
        nth_error d i
        = Some ((Patient.priorite_effective (horloge i) (tas s r),
                 Patient.heure_arrivee (tas s r)), r))
  /\ calculer_file_priorite horloge s = map snd (sorted d)
  /\ Permutation (calculer_file_priorite horloge s) (patients_en_attente s)
  /\ StronglySorted ordre (sorted d)
  /\ (forall k, de_clef k (sorted d) = de_clef k d)
  /\ (forall d', StronglySorted ordre d' ->
        (forall k, de_clef k d' = de_clef k d) -> d' = sorted d).
Proof.
  cbv zeta. repeat split.
  - apply decorer_snd.
  - intros i r H. apply decorer_nth, H.
  - apply calculer_file_priorite_perm.
  - apply sorted_ordonne.
  - intro k. apply sorted_stable.
  - intros d' S H. apply tri_stable_unique; assumption.
Qed.

(** ** The wall clock *)

(** C6, as stated, is false: the priority reads the wall clock. For the
    same patients, and the same [temps_virtuel] given to the cycle, two
    different clock readings give two priorities, two queues and two
    different patients taken into consultation. *)
Lemma priorite_lit_horloge_murale :
  Patient.priorite_effective (minutes 360) (tas_360 1%nat) = 4
  /\ Patient.priorite_effective (minutes 361) (tas_360 1%nat) = 2
  /\ calculer_file_priorite (horloge_fixe (minutes 360)) etat_360 = [0%nat; 1%nat]
  /\ calculer_file_priorite (horloge_fixe (minutes 361)) etat_360 = [1%nat; 0%nat]
  /\ match cycle_orchestration ascii_lower (horloge_fixe (minutes 360))
             (Some (minutes 200)) etat_360,
           cycle_orchestration ascii_lower (horloge_fixe (minutes 361))
             (Some (minutes 200)) etat_360 with
     | Ok (s1, a1), Ok (s2, a2) =>
         Personnel.patient_en_charge (docteur s1) = Some 0%nat
         /\ Personnel.patient_en_charge (docteur s2) = Some 1%nat
         /\ a1 = [ActConsultation "J1"] /\ a2 = [ActConsultation "V1"]
     | _, _ => False
     end.
Proof. vm_compute. repeat split. Qed.

Lemma priorite_selon_depasse (h : Instant) (p : Patient.t) :
  Patient.priorite_effective h p
  = match Patient.gravite p with
    | ROUGE => 1
    | JAUNE => 3
    | VERT => if depasse_360 h p then 2 else 4
    | GRIS => 5
    end.
Proof.
  unfold Patient.priorite_effective, depasse_360.
  destruct (Patient.gravite p); reflexivity.
Qed.

Lemma decorer_ext (tas : Tas) (l : list Ref) :
  forall h1 h2 : nat -> Instant,
  (forall i r, nth_error l i = Some r ->
     Patient.priorite_effective (h1 i) (tas r)
     = Patient.priorite_effective (h2 i) (tas r)) ->
  decorer h1 tas l = decorer h2 tas l.
Proof.
  induction l as [|x l IH]; intros h1 h2 H; cbn; [reflexivity|].
  rewrite (H 0%nat x eq_refl). f_equal.
  apply IH. intros i r Hi. apply (H (S i) r Hi).
Qed.

(** C6 (amended): priority and queue are functions of the patients and of
    the wall-clock readings; the clock matters for VERT patients only, and
    only through the side of the 360-minute threshold on which their wait
    falls. *)
Theorem priorite_fonction_de_horloge :
  (forall h1 h2 p, Patient.gravite p <> VERT ->
     Patient.priorite_effective h1 p = Patient.priorite_effective h2 p)
  /\ (forall h1 h2 p, Patient.gravite p = VERT ->
        (Patient.priorite_effective h1 p = Patient.priorite_effective h2 p
         <-> depasse_360 h1 p = depasse_360 h2 p))
  /\ (forall h1 h2 s,
        (forall i r, nth_error (patients_en_attente s) i = Some r ->
           Patient.gravite (tas s r) = VERT ->
           depasse_360 (h1 i) (tas s r) = depasse_360 (h2 i) (tas s r)) ->
        calculer_file_priorite h1 s = calculer_file_priorite h2 s).
Proof.
  split; [|split].
  - intros h1 h2 p H. rewrite !priorite_selon_depasse.
    destruct (Patient.gravite p); congruence.
  - intros h1 h2 p H. rewrite !priorite_selon_depasse, H.
    destruct (depasse_360 h1 p), (depasse_360 h2 p); split; congruence.
  - intros h1 h2 s H. unfold calculer_file_priorite. do 2 f_equal.
    apply decorer_ext. intros i r Hi. rewrite !priorite_selon_depasse.
    destruct (Patient.gravite (tas s r)) eqn:G; try reflexivity.
    rewrite (H i r Hi G). reflexivity.
Qed.

(** ** The orchestration cycle *)

Lemma StatutPersonnel_eqb_eq (a b : StatutPersonnel) :
  StatutPersonnel_eqb a b = true <-> a = b.
Proof. destruct a, b; cbn; split; congruence. Qed.

Lemma minutes_pos (k : Z) : 0 < k -> 0 < minutes k.
Proof. unfold minutes. lia. Qed.

Lemma surveiller_sans_infirmiere (maintenant : Instant)
  (infs : list Personnel.t) (l : list SalleAttente.t) :
  premier_disponible infs = None ->
  surveiller maintenant infs l = (infs, l, []).
Proof.
  intro H. induction l as [|s l IH]; cbn; [reflexivity|].
  rewrite H, IH. destruct (_ <=? _); reflexivity.
Qed.

(** Room surveillance touches only the nurses and the rooms' last
    surveillance time. *)
Lemma surveiller_patients (maintenant : Instant) (l : list SalleAttente.t) :
  forall infs infs' l' acts,
  surveiller maintenant infs l = (infs', l', acts) ->
  map SalleAttente.patients l' = map SalleAttente.patients l
  /\ Forall (fun a => exists n z, a = ActInspection n z) acts.
Proof.
  induction l as [|s l IH]; intros infs infs' l' acts H; cbn in H.
  - injection H as <- <- <-. split; [reflexivity | constructor].
  - destruct (_ <=? _).
    + destruct (premier_disponible infs) as [inf|].
      * destruct (surveiller maintenant _ l) as [[i2 l2] a2] eqn:E.
        injection H as <- <- <-. apply IH in E as [E1 E2]. cbn.
        split; [congruence | constructor; eauto].
      * destruct (surveiller maintenant _ l) as [[i2 l2] a2] eqn:E.
        injection H as <- <- <-. apply IH in E as [E1 E2]. cbn.
        split; [congruence | assumption].
    + destruct (surveiller maintenant _ l) as [[i2 l2] a2] eqn:E.
      injection H as <- <- <-. apply IH in E as [E1 E2]. cbn.
      split; [congruence | assumption].
Qed.

Lemma surveillance_salles_cadre (maintenant : Instant) (s : AgentOrchestration) :
  let s' := fst (surveillance_salles maintenant s) in
  rag s' = rag s /\ docteur s' = docteur s
  /\ aides_soignants s' = aides_soignants s /\ unites s' = unites s
  /\ patients_en_attente s' = patients_en_attente s
  /\ patients_consultes s' = patients_consultes s
  /\ patients_transferes s' = patients_transferes s
  /\ violations s' = violations s /\ tas s' = tas s
  /\ map SalleAttente.patients (salles s') = map SalleAttente.patients (salles s)
  /\ Forall (fun a => exists n z, a = ActInspection n z)
       (snd (surveillance_salles maintenant s)).
Proof.
  unfold surveillance_salles.
  destruct (surveiller maintenant (infirmieres s) (salles s)) as [[i l] a] eqn:E.
  apply surveiller_patients in E as [E1 E2]. cbn. tauto.
Qed.

Section ProprietesCycle.

Variable lower : string -> string.

(** C2 (amended): when the doctor's consultation is over and no aide is
    available once the staff has been released, the cycle leaves the doctor
    untouched: it stays OCCUPE and keeps its patient; the patient's status
    does not change, the patient is not put back in the waiting list, and
    the awaiting-transport action is emitted. *)
Theorem cycle_sans_aide (horloge : nat -> Instant) (maintenant fin : Instant)
  (s : AgentOrchestration) (r : Ref) :
  Personnel.statut (docteur s) = OCCUPE ->
  Personnel.fin_activite (docteur s) = Some fin ->
  fin <= maintenant ->
  Personnel.patient_en_charge (docteur s) = Some r ->
  premier_disponible (aides_soignants (gestion_personnel maintenant s)) = None ->
  exists s' acts,
    cycle_orchestration lower horloge (Some maintenant) s
    = Ok (s', ActAttenteTransport (Patient.id (tas s r)) :: acts)
    /\ Forall (fun a => exists n z, a = ActInspection n z) acts
    /\ docteur s' = docteur s
    /\ Personnel.statut (docteur s') = OCCUPE
    /\ Personnel.patient_en_charge (docteur s') = Some r
    /\ tas s' = tas s
    /\ patients_en_attente s' = patients_en_attente s.
Proof.
  intros Hst Hfin Hle Hpat Haide.
  unfold cycle_orchestration, fin_consultation.
  rewrite Haide.
  change (docteur (gestion_personnel maintenant s)) with (docteur s).
  change (tas (gestion_personnel maintenant s)) with (tas s).
  rewrite Hst, Hfin, Hpat. cbn [StatutPersonnel_eqb].
  apply Z.leb_le in Hle. rewrite Hle.
  pose proof (surveillance_salles_cadre maintenant (gestion_personnel maintenant s)) as C.
  destruct (surveillance_salles maintenant (gestion_personnel maintenant s)) as [s3 a3].
  cbn [fst snd] in C. destruct C as (_ & Cd & _ & _ & Ca & _ & _ & _ & Ct & _ & Cact).
  unfold nouvelle_consultation, est_disponible.
  rewrite Cd. change (docteur (gestion_personnel maintenant s)) with (docteur s).
  rewrite Hst. cbn [StatutPersonnel_eqb].
  exists s3, a3. rewrite app_nil_r. cbn [app].
  repeat split; try assumption; try congruence.
  - rewrite Cd. exact Hst.
  - rewrite Cd. exact Hpat.
Qed.

End ProprietesCycle.

(** C2, as stated, is false: with no aide available the doctor is not
    freed; it stays OCCUPE and keeps its patient. *)
Lemma docteur_garde_patient_sans_aide :
  match cycle_orchestration ascii_lower (horloge_fixe 0) (Some (minutes 10))
          etat_sans_aide with
  | Ok (s', acts) =>
      Personnel.statut (docteur s') = OCCUPE
      /\ Personnel.statut (docteur s') <> DISPONIBLE
      /\ Personnel.patient_en_charge (docteur s') = Some 0%nat
      /\ acts = [ActAttenteTransport "P1"]
  | Leve _ => False
  end.
Proof. vm_compute. repeat split; discriminate. Qed.

Lemma cycle_sans_aide_temoin :
  exists s' acts,
    cycle_orchestration ascii_lower (horloge_fixe 0) (Some (minutes 10))
      etat_sans_aide
    = Ok (s', ActAttenteTransport (Patient.id (tas etat_sans_aide 0%nat)) :: acts)
    /\ Forall (fun a => exists n z, a = ActInspection n z) acts
    /\ docteur s' = docteur etat_sans_aide
    /\ Personnel.statut (docteur s') = OCCUPE
    /\ Personnel.patient_en_charge (docteur s') = Some 0%nat
    /\ tas s' = tas etat_sans_aide
    /\ patients_en_attente s' = patients_en_attente etat_sans_aide.
Proof.
  apply (cycle_sans_aide ascii_lower (horloge_fixe 0) (minutes 10) (minutes 5)
           etat_sans_aide 0%nat); try reflexivity.
  vm_compute. discriminate.
Defined.

(** The consultation the cycle starts lasts 5 minutes, whatever the
    priority rules and the patient's severity. *)
Lemma nouvelle_consultation_cinq_minutes (horloge : nat -> Instant)
  (maintenant : Instant) (s : AgentOrchestration) (r : Ref) :
  est_disponible (docteur s) = true ->
  selectionner_prochain_patient horloge s = Some r ->
  let s' := fst (nouvelle_consultation horloge maintenant s) in
  Personnel.statut (docteur s') = OCCUPE
  /\ Personnel.patient_en_charge (docteur s') = Some r
  /\ Personnel.fin_activite (docteur s') = Some (maintenant + minutes 5).
Proof.
  intros Hd Hr. unfold nouvelle_consultation. rewrite Hd, Hr. cbn [fst].
  destruct (contient _ _ _); [destruct (list_remove _ _ _)|]; cbn; auto.
Qed.

(** C3, at the failing input: the rules give a ROUGE patient 15 minutes
    and [demarrer_consultation] applies them, but the cycle keeps the doctor
    busy for 5 minutes. *)
Theorem cycle_consultation_duree_fixe :
  duree_consultation (rag etat_rouge) ROUGE = 15
  /\ match cycle_orchestration ascii_lower (horloge_fixe 0) (Some (minutes 60))
             etat_rouge with
     | Ok (s', acts) =>
         acts = [ActConsultation "R1"]
         /\ Personnel.statut (docteur s') = OCCUPE
         /\ Personnel.patient_en_charge (docteur s') = Some 0%nat
         /\ Personnel.fin_activite (docteur s') = Some (minutes 60 + minutes 5)
         /\ Personnel.fin_activite (docteur s') <> Some (minutes 60 + minutes 15)
     | Leve _ => False
     end
  /\ match demarrer_consultation (minutes 60) 0%nat etat_rouge with
     | Ok (s', ConsultationDemarree _ duree_min fin_prevue) =>
         duree_min = 15
         /\ fin_prevue = minutes 60 + minutes 15
         /\ Personnel.fin_activite (docteur s') = Some fin_prevue
     | _ => False
     end.
Proof. vm_compute. repeat split; discriminate. Qed.

(** ** Transfer *)

(** C8: a transfer to a full unit fails (unit full) and leaves the
    occupancy unchanged; to an unknown unit name it fails (unit not found);
    in every failure the agent's state is unchanged (occupancies,
    transferred patients, rooms, heap), only the event log receives the
    UNITE_SATUREE entry in the full-unit case. *)
Theorem transferer_patient_echec (r : Ref) (unite_nom : string)
  (s : AgentOrchestration) :
  (trouver_unite unite_nom (unites s) = None ->
     transferer_patient r unite_nom s = (s, UniteIntrouvable unite_nom))
  /\ (forall u, trouver_unite unite_nom (unites s) = Some u ->
        Unite.capacite u <= Unite.patients_actuels u ->
        transferer_patient r unite_nom s
        = (log (UNITE_SATUREE unite_nom (Patient.id (tas s r))) s,
           UnitePleine unite_nom))
  /\ (transfert_success (snd (transferer_patient r unite_nom s)) = false ->
        let s' := fst (transferer_patient r unite_nom s) in
        (s' = s \/ s' = log (UNITE_SATUREE unite_nom (Patient.id (tas s r))) s)
        /\ unites s' = unites s
        /\ patients_transferes s' = patients_transferes s
        /\ salles s' = salles s
        /\ tas s' = tas s
        /\ patients_en_attente s' = patients_en_attente s
        /\ patients_consultes s' = patients_consultes s
        /\ docteur s' = docteur s
        /\ infirmieres s' = infirmieres s
        /\ aides_soignants s' = aides_soignants s
        /\ violations s' = violations s
        /\ RAGSysteme.niveaux (rag s') = RAGSysteme.niveaux (rag s)
        /\ RAGSysteme.regles_speciales (rag s') = RAGSysteme.regles_speciales (rag s)).
Proof.
  unfold transferer_patient. split; [|split].
  - intros ->. reflexivity.
  - intros u -> H. unfold Unite.a_de_la_place.
    apply Z.ltb_ge in H. rewrite H. reflexivity.
  - destruct (trouver_unite unite_nom (unites s)) as [u|].
    + destruct (Unite.a_de_la_place u); cbn [negb].
      * destruct (retirer_des_salles _ _ _). cbn. discriminate.
      * intros _. cbn. tauto.
    + intros _. cbn. tauto.
Qed.

(** The unit [trouver_unite] finds is the first one of that name. *)
Lemma trouver_unite_premiere (unite_nom : string) (us : list Unite.t) (u : Unite.t) :
  trouver_unite unite_nom us = Some u <->
  exists us1 us2, us = us1 ++ u :: us2 /\ Unite.nom u = unite_nom
    /\ Forall (fun v => Unite.nom v <> unite_nom) us1.
Proof.
  unfold trouver_unite. split.
  - induction us as [|v us IH]; cbn; [discriminate|].
    destruct (String.eqb_spec (Unite.nom v) unite_nom) as [E|E].
    + intros [= ->]. exists [], us. repeat split; auto.
    + intro H. destruct (IH H) as (us1 & us2 & -> & Hn & F).
      exists (v :: us1), us2. repeat split; auto.
  - intros (us1 & us2 & -> & Hn & F).
    induction F as [|v us1 Hv F IH]; cbn.
    + rewrite <- Hn, String.eqb_refl. reflexivity.
    + apply String.eqb_neq in Hv. rewrite Hv. exact IH.
Qed.

Section ProprietesSuggestion.

Variable lower : string -> string.

Lemma correspond_iff (u : Unite.t) (patho : string) :
  correspond lower u patho = true <->
  exists sp, In sp (Unite.specialites u) /\ lower patho = lower sp.
Proof.
  unfold correspond. rewrite existsb_exists. split.
  - intros (x & Hx & E). apply in_map_iff in Hx as (sp & <- & Hsp).
    apply String.eqb_eq in E. eauto.
  - intros (sp & Hsp & E). exists (lower sp). split.
    + apply in_map, Hsp.
    + apply String.eqb_eq, E.
Qed.

Lemma find_aucun {A : Type} (f : A -> bool) (l : list A) :
  (forall x, In x l -> f x = false) -> find f l = None.
Proof.
  induction l as [|x l IH]; cbn; intro H; [reflexivity|].
  rewrite (H x (or_introl eq_refl)). apply IH. intros y Hy. apply H. now right.
Qed.

Lemma chercher_specialite_aucune (maladies : list string) (us : list Unite.t) :
  (forall u m, In u us -> In m maladies -> correspond lower u m = false) ->
  chercher_specialite lower maladies us = None.
Proof.
  induction us as [|u us IH]; cbn; intro H; [reflexivity|].
  rewrite find_aucun.
  - apply IH. intros v m Hv. apply H. now right.
  - intros m. apply H. now left.
Qed.

Lemma chercher_specialite_premiere (maladies : list string)
  (us1 us2 : list Unite.t) (u : Unite.t) (m : string) :
  (forall v x, In v us1 -> In x maladies -> correspond lower v x = false) ->
  In m maladies -> correspond lower u m = true ->
  exists patho, chercher_specialite lower maladies (us1 ++ u :: us2) = Some (u, patho)
    /\ In patho maladies /\ correspond lower u patho = true.
Proof.
  intros H Hm Hc. induction us1 as [|v us1 IH]; cbn.
  - destruct (find (correspond lower u) maladies) as [patho|] eqn:E.
    + apply find_some in E. eauto.
    + eapply find_none in E; eauto. congruence.
  - rewrite find_aucun.
    + apply IH. intros w x Hw. apply H. now right.
    + intros x. apply H. now left.
Qed.

Lemma chercher_specialite_capacite (maladies : list string) (us us' : list Unite.t) :
  memes_specialites us us' ->
  option_map (fun '(u, patho) => (Unite.nom u, patho))
    (chercher_specialite lower maladies us)
  = option_map (fun '(u, patho) => (Unite.nom u, patho))
      (chercher_specialite lower maladies us').
Proof.
  induction 1 as [|u u' us us' [Hn Hs] F IH]; cbn; [reflexivity|].
  assert (Ec : correspond lower u = correspond lower u')
    by (unfold correspond; rewrite Hs; reflexivity).
  rewrite Ec.
  destruct (find (correspond lower u') maladies); cbn; [congruence | exact IH].
Qed.

(** C9: for a ROUGE patient the suggestion scans the units in order and
    returns the first one with a specialty equal, up to case, to one of the
    patient's conditions, with priority IMMEDIATE; if no unit matches, it
    returns the critical-care unit of the special rules, priority IMMEDIATE;
    unit capacities and occupancies play no part. *)
Theorem suggerer_unite_rouge (p : Patient.t) (s : AgentOrchestration) :
  Patient.gravite p = ROUGE ->
  let sugg := _suggerer_unite_transfert lower p s in
  (forall u patho, correspond lower u patho = true <->
     exists sp, In sp (Unite.specialites u) /\ lower patho = lower sp)
  /\ (forall us1 u us2 m,
        unites s = us1 ++ u :: us2 ->
        (forall v x, In v us1 -> In x (Patient.type_maladie p) ->
                     correspond lower v x = false) ->
        In m (Patient.type_maladie p) -> correspond lower u m = true ->
        unite sugg = Unite.nom u /\ priorite sugg = IMMEDIATE)
  /\ (forall ro,
        (forall u m, In u (unites s) -> In m (Patient.type_maladie p) ->
                     correspond lower u m = false) ->
        RAGSysteme.rouge (RAGSysteme.regles_speciales (rag s)) = Some ro ->
        unite sugg = RAGSysteme.transfert_prioritaire ro
        /\ priorite sugg = IMMEDIATE)
  /\ (forall s', rag s' = rag s -> memes_specialites (unites s) (unites s') ->
        unite (_suggerer_unite_transfert lower p s') = unite sugg
        /\ priorite (_suggerer_unite_transfert lower p s') = priorite sugg).
Proof.
  intros G. cbv zeta. unfold _suggerer_unite_transfert, suggestion_commune.
  rewrite G. split; [|split; [|split]].
  - apply correspond_iff.
  - intros us1 u us2 m E H Hm Hc. rewrite E.
    destruct (chercher_specialite_premiere _ us1 us2 u m H Hm Hc) as (patho & -> & _).
    cbn. auto.
  - intros ro H E. rewrite (chercher_specialite_aucune _ _ H).
    unfold RAGSysteme.get_regles_speciales. rewrite E. cbn. auto.
  - intros s' Er F. rewrite Er.
    pose proof (chercher_specialite_capacite (Patient.type_maladie p) _ _ F) as C.
    destruct (chercher_specialite lower (Patient.type_maladie p) (unites s))
      as [[u m]|];
    destruct (chercher_specialite lower (Patient.type_maladie p) (unites s'))
      as [[u' m']|]; cbn in C; try discriminate.
    + injection C as C1 C2. cbn. auto.
    + destruct (RAGSysteme.rouge _); cbn; auto.
Qed.

End ProprietesSuggestion.

(** A ROUGE patient with condition "cardiaque": the unit whose specialty
    is "Cardiaque" is suggested, priority IMMEDIATE, although it is full. *)
Lemma suggerer_unite_rouge_temoin :
  unite (_suggerer_unite_transfert ascii_lower (tas_rouge 0%nat) etat_cardiaque)
  = "CARDIOLOGIE"
  /\ priorite (_suggerer_unite_transfert ascii_lower (tas_rouge 0%nat) etat_cardiaque)
     = IMMEDIATE.
Proof.
  refine (proj1 (proj2 (suggerer_unite_rouge ascii_lower (tas_rouge 0%nat)
                          etat_cardiaque eq_refl))
            [Unite.mk "ORTHOPÉDIE" 5 0 ["fracture"; "entorse"]]
            (Unite.mk "CARDIOLOGIE" 1 1 ["Cardiaque"]) [] "cardiaque"
            eq_refl _ _ eq_refl).
  - intros v x [<-|[]] [<-|[]]. reflexivity.
  - left. reflexivity.
Defined.

Lemma selectionner_In (horloge : nat -> Instant) (s : AgentOrchestration) (x : Ref) :
  selectionner_prochain_patient horloge s = Some x ->
  In x (patients_en_attente s).
Proof.
  unfold selectionner_prochain_patient.
  destruct (calculer_file_priorite horloge s) as [|y l] eqn:E; [discriminate|].
  intros [= ->].
  pose proof (calculer_file_priorite_perm horloge s) as P.
  apply (Permutation_in _ P). rewrite E. now left.
Qed.

Lemma selectionner_file_vide (horloge : nat -> Instant) (s : AgentOrchestration) :
  selectionner_prochain_patient horloge s = None <-> patients_en_attente s = [].
Proof.
  unfold selectionner_prochain_patient.
  pose proof (calculer_file_priorite_perm horloge s) as P.
  destruct (calculer_file_priorite horloge s) as [|y l].
  - apply Permutation_nil in P. rewrite P. tauto.
  - split; [discriminate|]. intro E. rewrite E in P.
    apply Permutation_sym, Permutation_nil in P. discriminate.
Qed.

(** Starting a consultation touches only the doctor, the waiting list and
    the chosen patient, who comes from the waiting list. *)
Lemma nouvelle_consultation_cadre (horloge : nat -> Instant)
  (maintenant : Instant) (s : AgentOrchestration) :
  let s' := fst (nouvelle_consultation horloge maintenant s) in
  rag s' = rag s /\ salles s' = salles s
  /\ infirmieres s' = infirmieres s
  /\ aides_soignants s' = aides_soignants s /\ unites s' = unites s
  /\ patients_consultes s' = patients_consultes s
  /\ patients_transferes s' = patients_transferes s
  /\ violations s' = violations s
  /\ (forall x, ~ In x (patients_en_attente s) -> tas s' x = tas s x).
Proof.
  unfold nouvelle_consultation.
  destruct (est_disponible (docteur s)); [|cbn; tauto].
  destruct (selectionner_prochain_patient horloge s) as [r|] eqn:E; [|cbn; tauto].
  apply selectionner_In in E.
  assert (T : forall x, ~ In x (patients_en_attente s) ->
                maj (tas s) r (Patient.set_statut EN_CONSULTATION (tas s r)) x
                = tas s x).
  { intros x Hx. unfold maj. destruct (Nat.eqb_spec x r); congruence. }
  cbn [fst]. destruct (contient _ _ _); [destruct (list_remove _ _ _)|];
    cbn; repeat split; auto.
Qed.

Section ProprietesTransport.

Variable lower : string -> string.

Lemma suggerer_cadre (p : Patient.t) (s s' : AgentOrchestration) :
  rag s' = rag s -> unites s' = unites s ->
  _suggerer_unite_transfert lower p s' = _suggerer_unite_transfert lower p s.
Proof.
  intros Er Eu. unfold _suggerer_unite_transfert, suggestion_commune.
  rewrite Er, Eu. reflexivity.
Qed.

(** The end of consultation when an aide is free and the suggested unit
    is full. *)
Lemma fin_consultation_unite_pleine (maintenant fin : Instant)
  (s : AgentOrchestration) (r : Ref) (aide : Personnel.t) (u : Unite.t) :
  Personnel.statut (docteur s) = OCCUPE ->
  Personnel.fin_activite (docteur s) = Some fin ->
  fin <= maintenant ->
  Personnel.patient_en_charge (docteur s) = Some r ->
  premier_disponible (aides_soignants s) = Some aide ->
  trouver_unite (unite (_suggerer_unite_transfert lower (tas s r) s)) (unites s)
  = Some u ->
  Unite.capacite u <= Unite.patients_actuels u ->
  let d := docteur s in
  let nom_unite := unite (_suggerer_unite_transfert lower (tas s r) s) in
  fin_consultation lower maintenant s
  = Ok (log (UNITE_SATUREE nom_unite (Patient.id (tas s r)))
          (set_tas (maj (tas s) r (Patient.set_statut TRANSFERE (tas s r)))
             (set_aides_soignants
                (modifier_premier_disponible
                   (fun a => Personnel.mk (Personnel.id a) (Personnel.nom a)
                               (Personnel.type a) OCCUPE (Some r)
                               (Some (maintenant + minutes 15)))
                   (aides_soignants s))
                (set_docteur
                   (Personnel.mk (Personnel.id d) (Personnel.nom d)
                      (Personnel.type d) DISPONIBLE None (Some fin)) s))),
        [ActTransport (Personnel.nom aide) (Patient.id (tas s r)) nom_unite]).
Proof.
  intros Hst Hfin Hle Hpat Haide Hu Hplein. cbv zeta.
  unfold fin_consultation.
  rewrite Haide, Hst, Hfin, Hpat. cbn [StatutPersonnel_eqb].
  apply Z.leb_le in Hle. rewrite Hle.
  cbv zeta.
  repeat match goal with
  | |- context [_suggerer_unite_transfert lower ?p ?s1] =>
      lazymatch s1 with
      | s => fail
      | _ => change (_suggerer_unite_transfert lower p s1)
               with (_suggerer_unite_transfert lower (tas s r) s)
      end
  end.
  unfold transferer_patient. cbn [unites set_tas set_aides_soignants set_docteur].
  rewrite Hu. unfold Unite.a_de_la_place.
  apply Z.ltb_ge in Hplein. rewrite Hplein. cbn.
  unfold maj. rewrite Nat.eqb_refl. reflexivity.
Qed.

(** C10: when the consultation ends, an aide is available and the
    suggested unit is full, the result of the transfer is ignored: the
    patient becomes TRANSFERE and the aide is OCCUPE for 15 minutes with it,
    while unit occupancies and the transferred list do not change and the
    patient stays in its waiting room. *)
Theorem cycle_unite_pleine (horloge : nat -> Instant) (maintenant fin : Instant)
  (s : AgentOrchestration) (r : Ref) (aide : Personnel.t) (u : Unite.t) :
  Personnel.statut (docteur s) = OCCUPE ->
  Personnel.fin_activite (docteur s) = Some fin ->
  fin <= maintenant ->
  Personnel.patient_en_charge (docteur s) = Some r ->
  premier_disponible (aides_soignants (gestion_personnel maintenant s)) = Some aide ->
  trouver_unite (unite (_suggerer_unite_transfert lower (tas s r) s)) (unites s)
  = Some u ->
  Unite.capacite u <= Unite.patients_actuels u ->
  ~ In r (patients_en_attente s) ->
  exists s' acts,
    cycle_orchestration lower horloge (Some maintenant) s
    = Ok (s', ActTransport (Personnel.nom aide) (Patient.id (tas s r))
                (unite (_suggerer_unite_transfert lower (tas s r) s)) :: acts)
    /\ Patient.statut (tas s' r) = TRANSFERE
    /\ aides_soignants s'
       = modifier_premier_disponible
           (fun a => Personnel.mk (Personnel.id a) (Personnel.nom a)
                       (Personnel.type a) OCCUPE (Some r)
                       (Some (maintenant + minutes 15)))
           (aides_soignants (gestion_personnel maintenant s))
    /\ unites s' = unites s
    /\ patients_transferes s' = patients_transferes s
    /\ map SalleAttente.patients (salles s') = map SalleAttente.patients (salles s)
    /\ Patient.salle (tas s' r) = Patient.salle (tas s r).
Proof.
  intros Hst Hfin Hle Hpat Haide Hu Hplein Hr.
  unfold cycle_orchestration.
  rewrite (fin_consultation_unite_pleine maintenant fin
             (gestion_personnel maintenant s) r aide u); try assumption.
  match goal with
  | |- context [surveillance_salles maintenant ?s4] =>
      pose proof (surveillance_salles_cadre maintenant s4) as C;
      destruct (surveillance_salles maintenant s4) as [s5 a5]
  end.
  cbn [fst snd] in C.
  destruct C as (_ & _ & Ca & Cu & Cw & _ & Ct & _ & Ctas & Csal & _).
  pose proof (nouvelle_consultation_cadre (fun i => horloge (S i)) maintenant s5) as N.
  destruct (nouvelle_consultation (fun i => horloge (S i)) maintenant s5) as [s6 a6].
  cbn [fst] in N. destruct N as (_ & Ns & _ & Na & Nu & _ & Nt & _ & Ntas).
  rewrite Cw in Ntas. cbn in Ntas. specialize (Ntas r Hr).
  rewrite Ctas in Ntas. cbn in Ntas.
  exists s6. eexists. split; [cbn; reflexivity|].
  rewrite Ntas, Na, Ca, Nu, Cu, Nt, Ct, Ns, Csal. cbn.
  unfold maj. rewrite Nat.eqb_refl. cbn. auto 10.
Qed.

End ProprietesTransport.

Lemma cycle_unite_pleine_temoin :
  exists s' acts,
    cycle_orchestration ascii_lower (horloge_fixe 0) (Some (minutes 10))
      etat_unite_pleine
    = Ok (s', ActTransport "Aide A" "R1" "CARDIOLOGIE" :: acts)
    /\ Patient.statut (tas s' 0%nat) = TRANSFERE
    /\ aides_soignants s'
       = [Personnel.mk "aide_1" "Aide A" "FIXE" OCCUPE (Some 0%nat)
            (Some (minutes 10 + minutes 15))]
    /\ unites s' = [Unite.mk "CARDIOLOGIE" 1 1 ["Cardiaque"]]
    /\ patients_transferes s' = []
    /\ map SalleAttente.patients (salles s') = [[0%nat]]
    /\ Patient.salle (tas s' 0%nat) = Some 1.
Proof.
  apply (cycle_unite_pleine ascii_lower (horloge_fixe 0) (minutes 10) (minutes 5)
           etat_unite_pleine 0%nat (personnel_ex "aide_1" "Aide A")
           (Unite.mk "CARDIOLOGIE" 1 1 ["Cardiaque"])); try reflexivity.
  - vm_compute. discriminate.
  - intros [].
Defined.

(** ** Admission *)

Lemma a_de_la_place_non_pleine (sa : SalleAttente.t) :
  SalleAttente.a_de_la_place sa = true -> SalleAttente.est_pleine sa = false.
Proof.
  unfold SalleAttente.a_de_la_place, SalleAttente.est_pleine.
  rewrite Z.ltb_lt, Z.leb_gt. auto.
Qed.

Lemma placer_None (tas : Tas) (r : Ref) (l : list SalleAttente.t) :
  placer tas r l = None <-> sans_place l.
Proof.
  unfold sans_place. induction l as [|sa l IH]; cbn.
  - split; [constructor | reflexivity].
  - destruct (SalleAttente.a_de_la_place sa) eqn:E.
    + destruct (SalleAttente.ajouter_patient sa tas r) as [[? ?] ?].
      split; [discriminate|]. intro F. inversion F; congruence.
    + destruct (placer tas r l) as [[[? ?] ?]|].
      * split; [discriminate|]. intro F. inversion F; subst.
        apply IH in H2. discriminate.
      * split; [|reflexivity]. intros _. constructor; [exact E | now apply IH].
Qed.

(** The patient goes to the first room that has a free place. *)
Lemma placer_Some (tas : Tas) (r : Ref) (l l' : list SalleAttente.t)
  (tas' : Tas) (n : Z) :
  placer tas r l = Some (l', tas', n) ->
  exists l1 sa l2,
    l = l1 ++ sa :: l2 /\ sans_place l1
    /\ SalleAttente.a_de_la_place sa = true
    /\ n = SalleAttente.numero sa
    /\ l' = l1 ++ SalleAttente.mk (SalleAttente.numero sa) (SalleAttente.capacite sa)
                    (SalleAttente.patients sa ++ [r])
                    (SalleAttente.derniere_surveillance sa) :: l2
    /\ tas' = maj tas r (Patient.set_salle (Some n) (tas r)).
Proof.
  revert l'. induction l as [|sa l IH]; intros l' H; cbn in H; [discriminate|].
  destruct (SalleAttente.a_de_la_place sa) eqn:E.
  - unfold SalleAttente.ajouter_patient in H.
    rewrite (a_de_la_place_non_pleine _ E) in H. injection H as <- <- <-.
    exists [], sa, l. repeat split; auto. constructor.
  - destruct (placer tas r l) as [[[l0 t0] n0]|]; [|discriminate].
    injection H as <- <- <-.
    destruct (IH l0 eq_refl) as (l1 & sb & l2 & -> & F & Eb & -> & -> & ->).
    exists (sa :: l1), sb, l2. repeat split; auto. constructor; assumption.
Qed.

Lemma somme_app (l1 l2 : list Z) : somme (l1 ++ l2) = somme l1 + somme l2.
Proof. unfold somme. induction l1 as [|x l1 IH]; cbn; [reflexivity | lia]. Qed.

Lemma sans_place_complet (l : list SalleAttente.t) :
  salles_bornees l -> sans_place l ->
  somme (map SalleAttente.len_patients l) = somme (map SalleAttente.capacite l).
Proof.
  induction 1 as [|sa l Hsa B IH]; intro F; [reflexivity|].
  inversion F as [|? ? E F']; subst. cbn.
  unfold SalleAttente.a_de_la_place in E. apply Z.ltb_ge in E.
  specialize (IH F'). unfold somme in IH. lia.
Qed.

Lemma salles_bornees_somme (l : list SalleAttente.t) :
  salles_bornees l ->
  somme (map SalleAttente.len_patients l) <= somme (map SalleAttente.capacite l).
Proof.
  induction 1 as [|sa l Hsa B IH]; cbn; [lia|]. unfold somme in IH. lia.
Qed.

(** A successful admission takes one more place, and no room exceeds its
    capacity. *)
Lemma placer_occupation (tas : Tas) (r : Ref) (l l' : list SalleAttente.t)
  (tas' : Tas) (n : Z) :
  placer tas r l = Some (l', tas', n) ->
  map SalleAttente.capacite l' = map SalleAttente.capacite l
  /\ somme (map SalleAttente.len_patients l')
     = somme (map SalleAttente.len_patients l) + 1
  /\ (salles_bornees l -> salles_bornees l').
Proof.
  intro H. apply placer_Some in H as (l1 & sa & l2 & -> & F & E & -> & -> & ->).
  rewrite !map_app, !somme_app. cbn.
  unfold SalleAttente.len_patients at 2. cbn.
  rewrite length_app, Nat2Z.inj_add. cbn.
  fold (SalleAttente.len_patients sa).
  repeat split; [lia|]. unfold salles_bornees. rewrite !Forall_app.
  intros [B1 B2]. split; [exact B1|].
  inversion B2 as [|? ? Hsa B2']; subst. constructor; [|exact B2'].
  unfold SalleAttente.a_de_la_place in E. apply Z.ltb_lt in E.
  unfold SalleAttente.len_patients in *. cbn.
  rewrite length_app, Nat2Z.inj_add. cbn. lia.
Qed.

Lemma accueillir_patient_salles (horloge : Instant) (r : Ref)
  (s : AgentOrchestration) :
  salles (fst (accueillir_patient horloge r s))
  = match placer (tas s) r (salles s) with
    | Some (l, _, _) => l
    | None => salles s
    end
  /\ accueil_success (snd (accueillir_patient horloge r s))
     = match placer (tas s) r (salles s) with
       | Some _ => true
       | None => false
       end.
Proof.
  unfold accueillir_patient.
  destruct (placer (tas s) r (salles s)) as [[[l t] n]|]; cbn; auto.
Qed.

(** On rooms within their capacity, a sequence of admissions succeeds as
    long as places remain, and no further. *)
Lemma accueillir_en_serie_compte (l : list (Instant * Ref)) :
  forall s, salles_bornees (salles s) ->
  let res := snd (accueillir_en_serie l s) in
  nombre_succes res
  = Z.min (Z.of_nat (List.length l)) (capacite_totale s - occupation_actuelle s)
  /\ nombre_succes res + nombre_echecs res = Z.of_nat (List.length l).
Proof.
  unfold nombre_succes, nombre_echecs, capacite_totale, occupation_actuelle.
  induction l as [|[h r] l IH]; intros s B; cbn [accueillir_en_serie].
  - cbn. apply salles_bornees_somme in B. lia.
  - destruct (accueillir_patient_salles h r s) as [Es Er].
    destruct (accueillir_patient h r s) as [s1 res1]. cbn [fst snd] in Es, Er.
    specialize (IH s1).
    destruct (accueillir_en_serie l s1) as [s2 ress]. cbn [fst snd] in *.
    cbn [filter]. rewrite Er.
    destruct (placer (tas s) r (salles s)) as [[[l' t'] n']|] eqn:P.
    + apply placer_occupation in P as (Pc & Po & Pb).
      rewrite Es, Pc, Po in IH. destruct (IH (Pb B)) as [I1 I2].
      apply salles_bornees_somme in B.
      cbn [List.length negb]. lia.
    + apply placer_None in P.
      rewrite Es in IH. destruct (IH B) as [I1 I2].
      pose proof (sans_place_complet _ B P).
      cbn [List.length negb]. lia.
Qed.

Lemma salles_vides_bornees (s : AgentOrchestration) :
  salles_vides s ->
  salles_bornees (salles s) /\ occupation_actuelle s = 0.
Proof.
  unfold salles_vides, salles_bornees, occupation_actuelle.
  induction 1 as [|sa l [Hp Hc] F [IH1 IH2]].
  - split; [constructor | reflexivity].
  - assert (L : SalleAttente.len_patients sa = 0)
      by (unfold SalleAttente.len_patients; rewrite Hp; reflexivity).
    split.
    + constructor; [rewrite L; exact Hc | exact IH1].
    + change (somme (map SalleAttente.len_patients (sa :: l)))
        with (SalleAttente.len_patients sa + somme (map SalleAttente.len_patients l)).
      rewrite L, IH2. reflexivity.
Qed.

(** C7, as stated, is false: admission does not write the status; a
    patient submitted with status TRANSFERE is admitted and queued with that
    status. *)
Lemma accueil_ne_marque_pas_en_attente :
  snd (accueillir_patient 0 0%nat etat_readmission) = Accueilli 1
  /\ patients_en_attente (fst (accueillir_patient 0 0%nat etat_readmission))
     = [0%nat]
  /\ Patient.statut (tas (fst (accueillir_patient 0 0%nat etat_readmission)) 0%nat)
     = TRANSFERE
  /\ Patient.statut (tas (fst (accueillir_patient 0 0%nat etat_readmission)) 0%nat)
     <> EN_ATTENTE.
Proof. vm_compute. repeat split; discriminate. Qed.

(** C7 (amended): admission scans the rooms in order and puts the patient
    in the first one that has a free place; the patient joins the waiting
    list and its status is not written (EN_ATTENTE for a patient submitted
    with this status). With no free room, admission fails (success false)
    without queueing the patient or touching the rooms. Hence C+1 admissions
    into empty rooms of total capacity C give C successes and 1 failure,
    whatever the order of submission. *)
Theorem accueillir_patient_spec (horloge : Instant) (r : Ref)
  (s : AgentOrchestration) :
  let s' := fst (accueillir_patient horloge r s) in
  match snd (accueillir_patient horloge r s) with
  | Accueilli n =>
      exists l1 sa l2,
        salles s = l1 ++ sa :: l2 /\ sans_place l1
        /\ SalleAttente.a_de_la_place sa = true
        /\ n = SalleAttente.numero sa
        /\ salles s'
           = l1 ++ SalleAttente.mk (SalleAttente.numero sa)
                     (SalleAttente.capacite sa)
                     (SalleAttente.patients sa ++ [r])
                     (SalleAttente.derniere_surveillance sa) :: l2
        /\ patients_en_attente s' = patients_en_attente s ++ [r]
        /\ Patient.salle (tas s' r) = Some n
        /\ Patient.statut (tas s' r) = Patient.statut (tas s r)
        /\ (Patient.statut (tas s r) = EN_ATTENTE ->
            Patient.statut (tas s' r) = EN_ATTENTE)
  | AucuneSalle _ _ =>
      sans_place (salles s)
      /\ accueil_success (snd (accueillir_patient horloge r s)) = false
      /\ salles s' = salles s
      /\ patients_en_attente s' = patients_en_attente s
      /\ tas s' = tas s
      /\ docteur s' = docteur s
  end
  /\ (forall l : list (Instant * Ref),
        salles_vides s ->
        Z.of_nat (List.length l) = capacite_totale s + 1 ->
        nombre_succes (snd (accueillir_en_serie l s)) = capacite_totale s
        /\ nombre_echecs (snd (accueillir_en_serie l s)) = 1).
Proof.
  cbv zeta. split.
  - unfold accueillir_patient.
    destruct (placer (tas s) r (salles s)) as [[[l t] n]|] eqn:P; cbn.
    + apply placer_Some in P as (l1 & sa & l2 & E & F & Ea & -> & -> & ->).
      exists l1, sa, l2. unfold maj. rewrite Nat.eqb_refl. cbn.
      repeat split; auto.
    + apply placer_None in P. repeat split; auto.
  - intros l V L. apply salles_vides_bornees in V as [B O].
    destruct (accueillir_en_serie_compte l s B) as [C1 C2].
    rewrite O in C1. lia.
Qed.

(** Four admissions into three places: three successes, in room order,
    then one failure. *)
Example accueillir_en_serie_exemple :
  snd (accueillir_en_serie [(0, 0%nat); (1, 1%nat); (2, 0%nat); (3, 1%nat)]
         etat_trois_places)
  = [Accueilli 1; Accueilli 2; Accueilli 2; AucuneSalle 3 3].
Proof. reflexivity. Qed.

(** ** A cycle repeated at the same instant *)

(** C4, as stated, is false: for want of an aide the doctor stays OCCUPE
    after the end of its consultation, and a second cycle at the same
    instant emits the awaiting-transport action again. *)
Lemma cycle_repete_attente_transport :
  match cycle_orchestration ascii_lower (horloge_fixe 0) (Some (minutes 10))
          etat_sans_aide with
  | Ok (s1, a1) =>
      match cycle_orchestration ascii_lower (horloge_fixe 0) (Some (minutes 10))
              s1 with
      | Ok (s2, a2) =>
          a1 = [ActAttenteTransport "P1"]
          /\ a2 = [ActAttenteTransport "P1"] /\ a2 <> []
      | Leve _ => False
      end
  | Leve _ => False
  end.
Proof. vm_compute. repeat split; discriminate. Qed.

Lemma liberer_en_cours (maintenant : Instant) (p : Personnel.t) :
  en_cours maintenant (liberer maintenant p).
Proof.
  unfold en_cours, liberer.
  destruct (activite_finie maintenant p) eqn:E; [reflexivity | exact E].
Qed.

Lemma map_liberer_en_cours (maintenant : Instant) (l : list Personnel.t) :
  Forall (en_cours maintenant) (map (liberer maintenant) l).
Proof.
  induction l; cbn; constructor; auto using liberer_en_cours.
Qed.

Lemma map_liberer_id (maintenant : Instant) (l : list Personnel.t) :
  Forall (en_cours maintenant) l -> map (liberer maintenant) l = l.
Proof.
  induction 1 as [|p l Hp F IH]; cbn; [reflexivity|].
  rewrite IH. unfold liberer. rewrite Hp. reflexivity.
Qed.

Lemma modifier_en_cours (maintenant : Instant)
  (f : Personnel.t -> Personnel.t) (l : list Personnel.t) :
  (forall p, en_cours maintenant (f p)) ->
  Forall (en_cours maintenant) l ->
  Forall (en_cours maintenant) (modifier_premier_disponible f l).
Proof.
  intros Hf. induction 1 as [|p l Hp F IH]; cbn; [constructor|].
  destruct (est_disponible p); constructor; auto.
Qed.

Lemma occupe_en_cours (maintenant d : Instant) (ident n ty : string)
  (pc : option Ref) :
  0 < d ->
  en_cours maintenant
    (Personnel.mk ident n ty OCCUPE pc (Some (maintenant + d))).
Proof.
  intro H. unfold en_cours, activite_finie. cbn.
  apply Z.leb_gt. lia.
Qed.

Lemma surveiller_en_cours (maintenant : Instant) (l : list SalleAttente.t) :
  forall infs infs' l' acts,
  surveiller maintenant infs l = (infs', l', acts) ->
  Forall (en_cours maintenant) infs -> Forall (en_cours maintenant) infs'.
Proof.
  induction l as [|s l IH]; intros infs infs' l' acts H F; cbn in H.
  - injection H as <- <- <-. exact F.
  - destruct (_ <=? _).
    + destruct (premier_disponible infs) as [inf|].
      * destruct (surveiller maintenant _ l) as [[i2 l2] a2] eqn:E.
        injection H as <- <- <-. eapply IH; [exact E|].
        apply modifier_en_cours; [|exact F].
        intro p. apply occupe_en_cours, minutes_pos. lia.
      * destruct (surveiller maintenant _ l) as [[i2 l2] a2] eqn:E.
        injection H as <- <- <-. eapply IH; eauto.
    + destruct (surveiller maintenant _ l) as [[i2 l2] a2] eqn:E.
      injection H as <- <- <-. eapply IH; eauto.
Qed.

(** A second surveillance pass at the same instant changes nothing. *)
Lemma surveiller_point_fixe (maintenant : Instant) (l : list SalleAttente.t) :
  forall infs infs' l' acts,
  surveiller maintenant infs l = (infs', l', acts) ->
  surveiller maintenant infs' l' = (infs', l', []).
Proof.
  induction l as [|s l IH]; intros infs infs' l' acts H; cbn in H.
  - injection H as <- <- <-. reflexivity.
  - destruct (minutes 15 <=? maintenant - SalleAttente.derniere_surveillance s) eqn:Es.
    + destruct (premier_disponible infs) as [inf|] eqn:Ei.
      * destruct (surveiller maintenant _ l) as [[i2 l2] a2] eqn:E.
        injection H as <- <- <-. apply IH in E. cbn.
        replace (minutes 15 <=? maintenant - maintenant) with false
          by (symmetry; apply Z.leb_gt; pose proof (minutes_pos 15); lia).
        rewrite E. reflexivity.
      * rewrite (surveiller_sans_infirmiere _ _ _ Ei) in H.
        injection H as <- <- <-. cbn. rewrite Es, Ei.
        rewrite (surveiller_sans_infirmiere _ _ _ Ei). reflexivity.
    + destruct (surveiller maintenant _ l) as [[i2 l2] a2] eqn:E.
      injection H as <- <- <-. apply IH in E. cbn. rewrite Es, E. reflexivity.
Qed.

(** A transfer touches neither the staff nor the waiting list. *)
Lemma transferer_patient_cadre (r : Ref) (unite_nom : string)
  (s : AgentOrchestration) :
  let s' := fst (transferer_patient r unite_nom s) in
  docteur s' = docteur s /\ infirmieres s' = infirmieres s
  /\ aides_soignants s' = aides_soignants s
  /\ patients_en_attente s' = patients_en_attente s.
Proof.
  unfold transferer_patient.
  destruct (trouver_unite unite_nom (unites s)) as [u|]; [|cbn; tauto].
  destruct (negb (Unite.a_de_la_place u)); [cbn; tauto|].
  destruct (retirer_des_salles _ _ _). cbn. tauto.
Qed.

Lemma premier_disponible_statut (l : list Personnel.t) (p : Personnel.t) :
  premier_disponible l = Some p -> Personnel.statut p = DISPONIBLE.
Proof.
  intro H. apply find_some in H as [_ H].
  apply StatutPersonnel_eqb_eq, H.
Qed.

Section ProprietesRepos.

Variable lower : string -> string.

(** What the end-of-consultation step leaves behind. *)
Lemma fin_consultation_regle (maintenant : Instant)
  (s s2 : AgentOrchestration) (a2 : list Action) :
  fin_consultation lower maintenant s = Ok (s2, a2) ->
  infirmieres s2 = infirmieres s
  /\ patients_en_attente s2 = patients_en_attente s
  /\ (Forall (en_cours maintenant) (aides_soignants s) ->
      Forall (en_cours maintenant) (aides_soignants s2))
  /\ docteur_regle maintenant s2.
Proof.
  unfold fin_consultation, docteur_regle.
  destruct (StatutPersonnel_eqb (Personnel.statut (docteur s)) OCCUPE) eqn:Est.
  2:{ intros [= <- <-]. repeat split; auto.
      intro H. rewrite H in Est. discriminate. }
  destruct (Personnel.fin_activite (docteur s)) as [fin|] eqn:Efin; [|discriminate].
  destruct (fin <=? maintenant) eqn:Ele.
  2:{ intros [= <- <-]. repeat split; auto.
      intros _. exists fin. split; [exact Efin|].
      apply Z.leb_gt in Ele. lia. }
  destruct (premier_disponible (aides_soignants s)) as [aide|] eqn:Ea;
    destruct (Personnel.patient_en_charge (docteur s)) as [r|] eqn:Ep;
    try discriminate.
  - intros [= <- <-].
    match goal with
    | |- context [transferer_patient r ?n ?s3] =>
        destruct (transferer_patient_cadre r n s3) as (Td & Ti & Ta & Tw)
    end.
    rewrite Td, Ti, Ta, Tw. cbn. repeat split; auto.
    + intro F. apply modifier_en_cours; [|exact F].
      intro p. apply occupe_en_cours, minutes_pos. lia.
    + discriminate.
  - intros [= <- <-]. repeat split; auto.
    intros _. exists fin. split; [exact Efin|]. intros _. split; eauto.
Qed.

Lemma nouvelle_consultation_regle (horloge : nat -> Instant)
  (maintenant : Instant) (s : AgentOrchestration) :
  let s' := fst (nouvelle_consultation horloge maintenant s) in
  (docteur_regle maintenant s -> docteur_regle maintenant s')
  /\ (est_disponible (docteur s') = true -> patients_en_attente s' = []).
Proof.
  unfold nouvelle_consultation.
  destruct (est_disponible (docteur s)) eqn:Ed.
  2:{ cbn. split; [auto|]. congruence. }
  destruct (selectionner_prochain_patient horloge s) as [r|] eqn:Es.
  - cbn [fst]. unfold docteur_regle, est_disponible.
    destruct (contient _ _ _); [destruct (list_remove _ _ _)|]; cbn;
      (split; [|discriminate]); intros _ _;
      exists (maintenant + minutes 5); (split; [reflexivity|]);
      pose proof (minutes_pos 5); lia.
  - cbn. split; [auto|]. intros _. apply (selectionner_file_vide horloge), Es.
Qed.

(** After a cycle at instant [maintenant], nothing is left to process at
    that instant. *)
Lemma cycle_met_au_repos (horloge : nat -> Instant) (maintenant : Instant)
  (s s1 : AgentOrchestration) (a1 : list Action) :
  cycle_orchestration lower horloge (Some maintenant) s = Ok (s1, a1) ->
  au_repos maintenant s1.
Proof.
  unfold cycle_orchestration.
  destruct (fin_consultation lower maintenant (gestion_personnel maintenant s))
    as [[s2 a2]|e] eqn:E2; [|discriminate].
  apply fin_consultation_regle in E2 as (Fi & _ & Fa & Fd).
  cbn in Fi, Fa. specialize (Fa (map_liberer_en_cours _ _)).
  pose proof (surveillance_salles_cadre maintenant s2) as C.
  unfold surveillance_salles in *.
  destruct (surveiller maintenant (infirmieres s2) (salles s2))
    as [[i3 l3] a3] eqn:E3.
  cbn [fst snd] in C. destruct C as (_ & Cd & Ca & _).
  pose proof (surveiller_point_fixe _ _ _ _ _ _ E3) as P3.
  pose proof (surveiller_en_cours _ _ _ _ _ _ E3) as F3.
  rewrite Fi in F3. specialize (F3 (map_liberer_en_cours _ _)).
  set (s3 := set_salles l3 (set_infirmieres i3 s2)) in *.
  pose proof (nouvelle_consultation_cadre (fun i => horloge (S i)) maintenant s3) as N.
  pose proof (nouvelle_consultation_regle (fun i => horloge (S i)) maintenant s3) as R.
  destruct (nouvelle_consultation (fun i => horloge (S i)) maintenant s3) as [s4 a4].
  cbn [fst] in N, R. destruct N as (_ & Ns & Ni & Na & _).
  destruct R as [Rd Rw].
  intros [= <- <-]. unfold au_repos.
  assert (D3 : docteur_regle maintenant s3).
  { unfold docteur_regle in *. rewrite Cd, Ca. exact Fd. }
  specialize (Rd D3). unfold docteur_regle in Rd. rewrite Na in Rd.
  rewrite Ni, Na, Ns. cbn. repeat split; auto.
  unfold docteur_regle. rewrite Na. exact Rd.
Qed.

Lemma fin_consultation_au_repos (maintenant : Instant) (s : AgentOrchestration) :
  docteur_regle maintenant s ->
  fin_consultation lower maintenant s = Ok (s, rappel_transport maintenant s).
Proof.
  unfold docteur_regle, fin_consultation, rappel_transport, activite_finie.
  intro D.
  destruct (Personnel.statut (docteur s)) eqn:Est; cbn [StatutPersonnel_eqb andb];
    try reflexivity.
  destruct (D eq_refl) as (f & -> & H).
  destruct (f <=? maintenant) eqn:Ele; [|reflexivity].
  apply Z.leb_le in Ele. destruct (H Ele) as [[r ->] ->]. reflexivity.
Qed.

Lemma nouvelle_consultation_au_repos (horloge : nat -> Instant)
  (maintenant : Instant) (s : AgentOrchestration) :
  (est_disponible (docteur s) = true -> patients_en_attente s = []) ->
  nouvelle_consultation horloge maintenant s = (s, []).
Proof.
  intro W. unfold nouvelle_consultation.
  destruct (est_disponible (docteur s)); [|reflexivity].
  rewrite (proj2 (selectionner_file_vide horloge s) (W eq_refl)). reflexivity.
Qed.

(** On a state at rest the cycle changes nothing and emits only the
    awaiting-transport reminder. *)
Lemma cycle_au_repos (horloge : nat -> Instant) (maintenant : Instant)
  (s : AgentOrchestration) :
  au_repos maintenant s ->
  cycle_orchestration lower horloge (Some maintenant) s
  = Ok (s, rappel_transport maintenant s).
Proof.
  intros (Fi & Fa & D & P & W).
  unfold cycle_orchestration, gestion_personnel.
  rewrite (map_liberer_id _ _ Fi), (map_liberer_id _ _ Fa).
  assert (E : set_aides_soignants (aides_soignants s)
                (set_infirmieres (infirmieres s) s) = s)
    by (destruct s; reflexivity).
  rewrite E, (fin_consultation_au_repos _ _ D).
  unfold surveillance_salles. rewrite P.
  assert (E' : set_salles (salles s) (set_infirmieres (infirmieres s) s) = s)
    by (destruct s; reflexivity).
  rewrite E', (nouvelle_consultation_au_repos _ _ _ W).
  rewrite !app_nil_r. reflexivity.
Qed.

(** C4 (amended): after a first cycle at instant [maintenant], a second
    cycle at the same instant leaves the state unchanged; it returns no
    action, unless the doctor stayed OCCUPE past the end of its consultation
    for want of an aide: it then emits the single awaiting-transport action
    again. *)
Theorem cycle_idempotent (horloge horloge' : nat -> Instant)
  (maintenant : Instant) (s s1 : AgentOrchestration) (a1 : list Action) :
  cycle_orchestration lower horloge (Some maintenant) s = Ok (s1, a1) ->
  cycle_orchestration lower horloge' (Some maintenant) s1
  = Ok (s1, rappel_transport maintenant s1)
  /\ (activite_finie maintenant (docteur s1) = false ->
      cycle_orchestration lower horloge' (Some maintenant) s1 = Ok (s1, []))
  /\ (activite_finie maintenant (docteur s1) = true ->
      exists r, Personnel.patient_en_charge (docteur s1) = Some r
        /\ premier_disponible (aides_soignants s1) = None
        /\ rappel_transport maintenant s1
           = [ActAttenteTransport (Patient.id (tas s1 r))]).
Proof.
  intro H. apply cycle_met_au_repos in H.
  pose proof (cycle_au_repos horloge' maintenant s1 H) as E.
  split; [exact E|]. split.
  - intro N. rewrite E. unfold rappel_transport. rewrite N. reflexivity.
  - intro F. destruct H as (_ & _ & D & _).
    unfold rappel_transport. rewrite F.
    unfold activite_finie in F. apply andb_true_iff in F as [F1 F2].
    apply StatutPersonnel_eqb_eq in F1.
    destruct (D F1) as (f & Ef & Hf). rewrite Ef in F2.
    apply Z.leb_le in F2. destruct (Hf F2) as [[r Er] Ea].
    exists r. rewrite Er. auto.
Qed.

End ProprietesRepos.

(** A first cycle takes the ROUGE patient into consultation; the second
    one, at the same instant, does nothing. *)
Lemma cycle_idempotent_temoin :
  match cycle_orchestration ascii_lower (horloge_fixe 0) (Some (minutes 60))
          etat_rouge with
  | Ok (s1, _) =>
      cycle_orchestration ascii_lower (horloge_fixe 7) (Some (minutes 60)) s1
      = Ok (s1, [])
  | Leve _ => False
  end.
Proof.
  destruct (cycle_orchestration ascii_lower (horloge_fixe 0) (Some (minutes 60))
              etat_rouge) as [[s1 a1]|e] eqn:E.
  - refine (proj1 (proj2 (cycle_idempotent ascii_lower (horloge_fixe 0)
                            (horloge_fixe 7) (minutes 60) etat_rouge s1 a1 E)) _).
    vm_compute in E. injection E as <- _. reflexivity.
  - vm_compute in E. discriminate.
Defined.

(** * Further properties *)

(** ** Lists of patient references *)

Lemma Patient_eqb_id (a b : Patient.t) :
  Patient.eqb a b = true -> Patient.id a = Patient.id b.
Proof.
  unfold Patient.eqb. rewrite !andb_true_iff.
  intros [[[[[[[H _] _] _] _] _] _] _]. apply String.eqb_eq, H.
Qed.

Lemma meme_patient_refl (tas : Tas) (r : Ref) : meme_patient tas r r = true.
Proof. unfold meme_patient. rewrite Nat.eqb_refl. reflexivity. Qed.

Lemma meme_patient_id (tas : Tas) (x r : Ref) :
  meme_patient tas x r = true -> Patient.id (tas x) = Patient.id (tas r).
Proof.
  unfold meme_patient. rewrite orb_true_iff. intros [H|H].
  - apply Nat.eqb_eq in H. subst. reflexivity.
  - apply Patient_eqb_id, H.
Qed.

Lemma contient_In (tas : Tas) (r : Ref) (l : list Ref) :
  In r l -> contient tas r l = true.
Proof.
  intro H. unfold contient. apply existsb_exists.
  exists r. split; [exact H | apply meme_patient_refl].
Qed.

(** [l.remove(x)] takes out the first element equal to [x], and only it. *)
Lemma list_remove_Some (tas : Tas) (r : Ref) (l l' : list Ref) :
  list_remove tas r l = Some l' <->
  exists l1 x l2, l = l1 ++ x :: l2 /\ l' = l1 ++ l2
    /\ meme_patient tas x r = true
    /\ Forall (fun y => meme_patient tas y r = false) l1.
Proof.
  split.
  - revert l'. induction l as [|y l IH]; intros l' H; cbn in H; [discriminate|].
    destruct (meme_patient tas y r) eqn:E.
    + injection H as <-. exists [], y, l. repeat split; auto.
    + destruct (list_remove tas r l) as [l0|]; [|discriminate].
      injection H as <-.
      destruct (IH l0 eq_refl) as (l1 & x & l2 & -> & -> & Hx & F).
      exists (y :: l1), x, l2. repeat split; auto.
  - intros (l1 & x & l2 & -> & -> & Hx & F).
    induction F as [|y l1 Hy F IH]; cbn.
    + rewrite Hx. reflexivity.
    + rewrite Hy, IH. reflexivity.
Qed.

Lemma list_remove_None (tas : Tas) (r : Ref) (l : list Ref) :
  list_remove tas r l = None <-> contient tas r l = false.
Proof.
  unfold contient. induction l as [|y l IH]; cbn; [tauto|].
  destruct (meme_patient tas y r); cbn.
  - split; discriminate.
  - destruct (list_remove tas r l); rewrite <- IH; split; congruence.
Qed.

Lemma list_remove_length (tas : Tas) (r : Ref) (l l' : list Ref) :
  list_remove tas r l = Some l' -> List.length l = S (List.length l').
Proof.
  intro H. apply list_remove_Some in H as (l1 & x & l2 & -> & -> & _).
  rewrite !length_app. cbn. lia.
Qed.

Lemma contient_remove (tas : Tas) (r : Ref) (l : list Ref) :
  contient tas r l = true -> exists l', list_remove tas r l = Some l'.
Proof.
  intro H. destruct (list_remove tas r l) as [l'|] eqn:E; [eauto|].
  apply list_remove_None in E. congruence.
Qed.

(** ** SalleAttente *)

(** X13: a full room refuses the patient and nothing changes; a room with a
    free place takes the patient at the end of its list and records the room
    number on the patient; removing that patient again restores the room and
    clears the patient's room reference, when no patient of the room has the
    newcomer's id; removing a patient the room does not hold does nothing. *)
Theorem salle_ajouter_retirer (sa : SalleAttente.t) (tas : Tas) (r : Ref) :
  SalleAttente.est_pleine sa = negb (SalleAttente.a_de_la_place sa)
  /\ (SalleAttente.est_pleine sa = true ->
      SalleAttente.ajouter_patient sa tas r = (sa, tas, false))
  /\ (SalleAttente.est_pleine sa = false ->
      let '(sa1, tas1, ok) := SalleAttente.ajouter_patient sa tas r in
      ok = true
      /\ SalleAttente.patients sa1 = SalleAttente.patients sa ++ [r]
      /\ Patient.salle (tas1 r) = Some (SalleAttente.numero sa)
      /\ (forall x, x <> r -> tas1 x = tas x)
      /\ ((forall x, In x (SalleAttente.patients sa) ->
             Patient.id (tas x) <> Patient.id (tas r)) ->
          let '(sa2, tas2) := SalleAttente.retirer_patient sa1 tas1 r in
          sa2 = sa /\ Patient.salle (tas2 r) = None
          /\ (forall x, x <> r -> tas2 x = tas x)))
  /\ (contient tas r (SalleAttente.patients sa) = false ->
      SalleAttente.retirer_patient sa tas r = (sa, tas)).
Proof.
  split; [|split; [|split]].
  - unfold SalleAttente.est_pleine, SalleAttente.a_de_la_place.
    destruct (Z.ltb_spec (SalleAttente.len_patients sa) (SalleAttente.capacite sa));
      cbn; [apply Z.leb_gt | apply Z.leb_le]; assumption.
  - intro H. unfold SalleAttente.ajouter_patient. rewrite H. reflexivity.
  - intro H. unfold SalleAttente.ajouter_patient. rewrite H.
    assert (T : forall x, x <> r ->
                maj tas r (Patient.set_salle (Some (SalleAttente.numero sa)) (tas r)) x
                = tas x).
    { intros x Hx. unfold maj. destruct (Nat.eqb_spec x r); congruence. }
    repeat split; auto.
    + unfold maj. rewrite Nat.eqb_refl. reflexivity.
    + intro Hid. unfold SalleAttente.retirer_patient. cbn [SalleAttente.patients].
      rewrite contient_In by (apply in_or_app; right; now left).
      assert (R : list_remove
                    (maj tas r (Patient.set_salle (Some (SalleAttente.numero sa)) (tas r)))
                    r (SalleAttente.patients sa ++ [r])
                  = Some (SalleAttente.patients sa)).
      { apply list_remove_Some. exists (SalleAttente.patients sa), r, [].
        rewrite app_nil_r. repeat split; [apply meme_patient_refl|].
        apply Forall_forall. intros x Hx.
        destruct (meme_patient _ x r) eqn:E; [|reflexivity].
        apply meme_patient_id in E. exfalso. apply (Hid x Hx).
        assert (x <> r) by (intros ->; apply (Hid r Hx); reflexivity).
        rewrite T in E by assumption. rewrite E.
        unfold maj. rewrite Nat.eqb_refl. reflexivity. }
      rewrite R. cbn. repeat split.
      * destruct sa; reflexivity.
      * unfold maj. rewrite Nat.eqb_refl. reflexivity.
      * intros x Hx. unfold maj. destruct (Nat.eqb_spec x r); congruence.
  - intro H. unfold SalleAttente.retirer_patient. rewrite H. reflexivity.
Qed.

(** ** Transfer *)

Lemma tas_detache_refl (r : Ref) (tas : Tas) : tas_detache r tas tas.
Proof. split; auto. Qed.

Lemma tas_detache_trans (r : Ref) (t1 t2 t3 : Tas) :
  tas_detache r t1 t2 -> tas_detache r t2 t3 -> tas_detache r t1 t3.
Proof.
  intros [A1 B1] [A2 B2]. split.
  - intros x Hx. rewrite A2, A1 by assumption. reflexivity.
  - destruct B2 as [->| ->]; [exact B1|].
    destruct B1 as [->| ->]; [right|right]; reflexivity.
Qed.

Lemma tas_detache_champs (r : Ref) (tas tas' : Tas) :
  tas_detache r tas tas' ->
  forall x, Patient.id (tas' x) = Patient.id (tas x)
            /\ Patient.statut (tas' x) = Patient.statut (tas x)
            /\ Patient.gravite (tas' x) = Patient.gravite (tas x)
            /\ Patient.heure_arrivee (tas' x) = Patient.heure_arrivee (tas x)
            /\ Patient.type_maladie (tas' x) = Patient.type_maladie (tas x).
Proof.
  intros [A B] x. destruct (Nat.eq_dec x r) as [->|Hx].
  - destruct B as [->| ->]; cbn; auto.
  - rewrite A by assumption. auto.
Qed.

Lemma retirer_patient_spec (sa : SalleAttente.t) (tas : Tas) (r : Ref) :
  let '(sa', tas') := SalleAttente.retirer_patient sa tas r in
  SalleAttente.numero sa' = SalleAttente.numero sa
  /\ SalleAttente.capacite sa' = SalleAttente.capacite sa
  /\ SalleAttente.derniere_surveillance sa' = SalleAttente.derniere_surveillance sa
  /\ ((contient tas r (SalleAttente.patients sa) = false /\ sa' = sa /\ tas' = tas)
      \/ (contient tas r (SalleAttente.patients sa) = true
          /\ list_remove tas r (SalleAttente.patients sa)
             = Some (SalleAttente.patients sa')
          /\ tas' = maj tas r (Patient.set_salle None (tas r)))).
Proof.
  unfold SalleAttente.retirer_patient.
  destruct (contient tas r (SalleAttente.patients sa)) eqn:E.
  - destruct (contient_remove _ _ _ E) as [l' R]. rewrite R. cbn. auto 10.
  - auto 10.
Qed.

Lemma maj_detache (r : Ref) (tas : Tas) :
  tas_detache r tas (maj tas r (Patient.set_salle None (tas r))).
Proof.
  split.
  - intros x Hx. unfold maj. destruct (Nat.eqb_spec x r); congruence.
  - right. unfold maj. rewrite Nat.eqb_refl. reflexivity.
Qed.

(** The loop that detaches a patient from the rooms. *)
Lemma retirer_des_salles_spec (r : Ref) (l : list SalleAttente.t) :
  forall tas l' tas',
  retirer_des_salles tas r l = (l', tas') ->
  salles_allegees l l'
  /\ tas_detache r tas tas'
  /\ Forall2 (fun sa sa' =>
                In r (SalleAttente.patients sa) ->
                SalleAttente.len_patients sa' = SalleAttente.len_patients sa - 1)
       l l'
  /\ (Exists (fun sa => In r (SalleAttente.patients sa)) l ->
      Patient.salle (tas' r) = None).
Proof.
  induction l as [|sa l IH]; intros tas l' tas' H; cbn in H.
  - injection H as <- <-. repeat split; try constructor; auto.
    intro E. inversion E.
  - assert (S : exists sa1 tas1,
               (if contient tas r (SalleAttente.patients sa)
                then SalleAttente.retirer_patient sa tas r else (sa, tas))
               = (sa1, tas1)
               /\ SalleAttente.numero sa1 = SalleAttente.numero sa
               /\ SalleAttente.capacite sa1 = SalleAttente.capacite sa
               /\ SalleAttente.derniere_surveillance sa1
                  = SalleAttente.derniere_surveillance sa
               /\ SalleAttente.len_patients sa - 1 <= SalleAttente.len_patients sa1
                  <= SalleAttente.len_patients sa
               /\ tas_detache r tas tas1
               /\ (In r (SalleAttente.patients sa) ->
                   SalleAttente.len_patients sa1 = SalleAttente.len_patients sa - 1
                   /\ Patient.salle (tas1 r) = None)).
    { pose proof (retirer_patient_spec sa tas r) as R.
      destruct (SalleAttente.retirer_patient sa tas r) as [sa1 tas1].
      destruct R as (R1 & R2 & R3 & [(C & -> & ->)|(C & Rm & ->)]).
      - rewrite C. exists sa, tas.
        assert (NI : ~ In r (SalleAttente.patients sa))
          by (intro Hin; apply (contient_In tas) in Hin; congruence).
        repeat split; auto using tas_detache_refl; try lia; exfalso; auto.
      - rewrite C. eexists _, _. split; [reflexivity|].
        pose proof (list_remove_length _ _ _ _ Rm) as L.
        assert (Len : SalleAttente.len_patients sa1
                      = SalleAttente.len_patients sa - 1)
          by (unfold SalleAttente.len_patients; rewrite L; lia).
        assert (Sal : Patient.salle
                        (maj tas r (Patient.set_salle None (tas r)) r) = None)
          by (unfold maj; rewrite Nat.eqb_refl; reflexivity).
        destruct (maj_detache r tas) as [M1 M2].
        repeat split; auto; lia. }
    destruct S as (sa1 & tas1 & E & N1 & N2 & N3 & N4 & D1 & I1).
    rewrite E in H.
    destruct (retirer_des_salles tas1 r l) as [l2 tas2] eqn:E2.
    injection H as <- <-.
    destruct (IH _ _ _ E2) as (A & D2 & F & X).
    repeat split.
    + constructor; auto.
    + intros x Hx. destruct D1 as [D1 _], D2 as [D2 _].
      rewrite D2, D1 by assumption. reflexivity.
    + destruct (tas_detache_trans _ _ _ _ D1 D2) as [_ B]. exact B.
    + constructor; [|exact F]. intro Hin. apply I1, Hin.
    + intro Ex. inversion Ex as [? ? Hin|? ? Hex]; subst.
      * destruct (I1 Hin) as [_ Hs]. destruct D2 as [_ [->| ->]]; [exact Hs|reflexivity].
      * apply X, Hex.
Qed.

Lemma accepter_dans_spec (unite_nom : string) (us : list Unite.t) (u : Unite.t) :
  trouver_unite unite_nom us = Some u ->
  exists us1 us2,
    us = us1 ++ u :: us2
    /\ Forall (fun v => Unite.nom v <> unite_nom) us1
    /\ accepter_dans unite_nom us
       = us1 ++ fst (Unite.accepter_patient u) :: us2.
Proof.
  intro H. apply trouver_unite_premiere in H as (us1 & us2 & -> & Hn & F).
  exists us1, us2. repeat split; auto.
  induction F as [|v us1 Hv F IH]; cbn.
  - rewrite Hn, String.eqb_refl. reflexivity.
  - apply String.eqb_neq in Hv. rewrite Hv, IH. reflexivity.
Qed.

(** What a transfer does to the heap, whatever its outcome. *)
Lemma transferer_patient_tas (r : Ref) (unite_nom : string)
  (s : AgentOrchestration) :
  tas_detache r (tas s) (tas (fst (transferer_patient r unite_nom s))).
Proof.
  unfold transferer_patient.
  destruct (trouver_unite unite_nom (unites s)) as [u|];
    [|apply tas_detache_refl].
  destruct (negb (Unite.a_de_la_place u)); [apply tas_detache_refl|].
  cbn [tas salles set_patients_transferes set_unites].
  destruct (retirer_des_salles (tas s) r (salles s)) as [l t] eqn:E.
  apply retirer_des_salles_spec in E as (_ & D & _). exact D.
Qed.


(** X3: a transfer to a unit that has a free place succeeds: the first unit
    of that name counts one more patient, the patient joins the transferred
    list and the log receives PATIENT_TRANSFERE; the transfer does not write
    the patient's status and leaves the waiting list, the consulted list and
    the staff untouched. *)
Theorem transferer_patient_reussi (r : Ref) (unite_nom : string)
  (s : AgentOrchestration) (u : Unite.t) :
  trouver_unite unite_nom (unites s) = Some u ->
  Unite.patients_actuels u < Unite.capacite u ->
  let s' := fst (transferer_patient r unite_nom s) in
  snd (transferer_patient r unite_nom s)
  = TransfertReussi (Patient.id (tas s r)) unite_nom
  /\ (exists us1 us2,
        unites s = us1 ++ u :: us2
        /\ Forall (fun v => Unite.nom v <> unite_nom) us1
        /\ unites s'
           = us1 ++ Unite.mk (Unite.nom u) (Unite.capacite u)
                      (Unite.patients_actuels u + 1) (Unite.specialites u) :: us2)
  /\ patients_transferes s' = patients_transferes s ++ [r]
  /\ RAGSysteme.journal (rag s')
     = RAGSysteme.journal (rag s)
       ++ [PATIENT_TRANSFERE (Patient.id (tas s r)) unite_nom]
  /\ Patient.statut (tas s' r) = Patient.statut (tas s r)
  /\ patients_en_attente s' = patients_en_attente s
  /\ patients_consultes s' = patients_consultes s
  /\ docteur s' = docteur s
  /\ infirmieres s' = infirmieres s
  /\ aides_soignants s' = aides_soignants s.
Proof.
  intros Hu Hp. cbv zeta.
  pose proof (transferer_patient_tas r unite_nom s) as D.
  apply tas_detache_champs with (x := r) in D. destruct D as (Did & Dst & _).
  revert Did Dst. unfold transferer_patient. rewrite Hu.
  assert (P : Unite.a_de_la_place u = true) by (apply Z.ltb_lt, Hp).
  rewrite P. cbn [negb].
  destruct (accepter_dans_spec _ _ _ Hu) as (us1 & us2 & E1 & F & E2).
  unfold Unite.accepter_patient in E2. rewrite P in E2. cbn [fst] in E2.
  cbn [tas salles set_patients_transferes set_unites patients_transferes unites].
  destruct (retirer_des_salles (tas s) r (salles s)) as [l t].
  cbn. intros Did Dst. rewrite Did. repeat split; auto.
  exists us1, us2. auto.
Qed.

Lemma transferer_patient_reussi_temoin :
  patients_transferes (fst (transferer_patient 0%nat "CARDIOLOGIE" etat_unite_libre))
  = [0%nat].
Proof.
  exact (proj1 (proj2 (proj2
           (transferer_patient_reussi 0%nat "CARDIOLOGIE" etat_unite_libre
              (Unite.mk "CARDIOLOGIE" 2 1 ["Cardiaque"]) eq_refl eq_refl)))).
Defined.




(** ** Invariants of the agent *)

Lemma salles_allegees_refl (l : list SalleAttente.t) : salles_allegees l l.
Proof. induction l; constructor; auto. repeat split; lia. Qed.

Lemma salles_reduites_refl (l : list SalleAttente.t) : salles_reduites l l.
Proof. induction l; constructor; auto. repeat split; lia. Qed.

Lemma salles_allegees_reduites (l l' : list SalleAttente.t) :
  salles_allegees l l' -> salles_reduites l l'.
Proof.
  induction 1 as [|sa sa' l l' (H1 & H2 & H3 & H4) F IH]; constructor; auto.
  repeat split; auto; lia.
Qed.

Lemma salles_reduites_trans (l1 l2 l3 : list SalleAttente.t) :
  salles_reduites l1 l2 -> salles_reduites l2 l3 -> salles_reduites l1 l3.
Proof.
  intro H. revert l3. induction H as [|a b l1 l2 (A1 & A2 & A3) F IH];
    intros l3 H'; inversion H' as [|? c ? l3' (B1 & B2 & B3) F']; subst.
  - constructor.
  - constructor; [|apply IH, F'].
    repeat split; try congruence; lia.
Qed.

Lemma salles_reduites_bornees (l l' : list SalleAttente.t) :
  salles_reduites l l' -> salles_bornees l -> salles_bornees l'.
Proof.
  unfold salles_bornees.
  induction 1 as [|sa sa' l l' (H1 & H2 & H3) F IH]; intro B; [constructor|].
  inversion B; subst. constructor; [lia | auto].
Qed.

Lemma unites_conservees_refl (us : list Unite.t) : unites_conservees us us.
Proof. induction us; constructor; auto. repeat split; lia. Qed.

Lemma unites_conservees_trans (l1 l2 l3 : list Unite.t) :
  unites_conservees l1 l2 -> unites_conservees l2 l3 -> unites_conservees l1 l3.
Proof.
  intro H. revert l3. induction H as [|a b l1 l2 (A1 & A2 & A3 & A4) F IH];
    intros l3 H'; inversion H' as [|? c ? l3' (B1 & B2 & B3 & B4) F']; subst.
  - constructor.
  - constructor; [|apply IH, F'].
    repeat split; try congruence; lia.
Qed.

Lemma unites_conservees_app (a b a' b' : list Unite.t) :
  unites_conservees a a' -> unites_conservees b b' ->
  unites_conservees (a ++ b) (a' ++ b').
Proof. apply Forall2_app. Qed.

(** What a transfer does to rooms and units, whatever its outcome. *)
Lemma transferer_patient_invariants (r : Ref) (unite_nom : string)
  (s : AgentOrchestration) :
  let s' := fst (transferer_patient r unite_nom s) in
  salles_allegees (salles s) (salles s')
  /\ unites_conservees (unites s) (unites s')
  /\ (unites_bornees (unites s) -> unites_bornees (unites s')).
Proof.
  cbv zeta. unfold transferer_patient.
  destruct (trouver_unite unite_nom (unites s)) as [u|] eqn:Hu;
    [|cbn; auto using salles_allegees_refl, unites_conservees_refl].
  destruct (Unite.a_de_la_place u) eqn:P; cbn [negb];
    [|cbn; auto using salles_allegees_refl, unites_conservees_refl].
  destruct (accepter_dans_spec _ _ _ Hu) as (us1 & us2 & E1 & F & E2).
  unfold Unite.accepter_patient in E2. rewrite P in E2. cbn [fst] in E2.
  cbn [tas salles set_patients_transferes set_unites].
  destruct (retirer_des_salles (tas s) r (salles s)) as [l t] eqn:E.
  apply retirer_des_salles_spec in E as (A & _).
  cbn. rewrite E2, E1. split; [exact A|]. split.
  - apply unites_conservees_app; [apply unites_conservees_refl|].
    constructor; [|apply unites_conservees_refl]. cbn. repeat split; lia.
  - unfold unites_bornees. rewrite !Forall_app. intros [B1 B2]. split; [exact B1|].
    inversion B2; subst. constructor; [|assumption].
    cbn. unfold Unite.a_de_la_place in P. apply Z.ltb_lt in P. lia.
Qed.

Lemma unites_conservees_bornees_transfert (r : Ref) (unite_nom : string)
  (s : AgentOrchestration) :
  unites_bornees (unites s) ->
  unites_bornees (unites (fst (transferer_patient r unite_nom s))).
Proof. apply transferer_patient_invariants. Qed.

(** Surveillance keeps every room's number, capacity and patients. *)
Lemma surveiller_salles (maintenant : Instant) (l : list SalleAttente.t) :
  forall infs infs' l' acts,
  surveiller maintenant infs l = (infs', l', acts) ->
  salles_reduites l l'.
Proof.
  induction l as [|s l IH]; intros infs infs' l' acts H; cbn in H.
  - injection H as <- <- <-. constructor.
  - destruct (_ <=? _).
    + destruct (premier_disponible infs) as [inf|].
      * destruct (surveiller maintenant _ l) as [[i2 l2] a2] eqn:E.
        injection H as <- <- <-. apply IH in E.
        constructor; [|exact E]. cbn. repeat split.
        unfold SalleAttente.len_patients. cbn. lia.
      * destruct (surveiller maintenant _ l) as [[i2 l2] a2] eqn:E.
        injection H as <- <- <-. apply IH in E.
        constructor; [|exact E]. repeat split; lia.
    + destruct (surveiller maintenant _ l) as [[i2 l2] a2] eqn:E.
      injection H as <- <- <-. apply IH in E.
      constructor; [|exact E]. repeat split; lia.
Qed.

Section ProprietesEtapes.

Variable lower : string -> string.

(** The three ways step 2 of the cycle can end normally: nothing is due;
    the consultation is over and no aide is available; the consultation is
    over and the patient is handed to an aide and transferred. *)
Lemma fin_consultation_cas (maintenant : Instant)
  (s s2 : AgentOrchestration) (a2 : list Action) :
  fin_consultation lower maintenant s = Ok (s2, a2) ->
  (s2 = s /\ a2 = [] /\ activite_finie maintenant (docteur s) = false)
  \/ (exists r,
        s2 = s /\ a2 = [ActAttenteTransport (Patient.id (tas s r))]
        /\ activite_finie maintenant (docteur s) = true
        /\ Personnel.patient_en_charge (docteur s) = Some r
        /\ premier_disponible (aides_soignants s) = None)
  \/ (exists r aide,
        activite_finie maintenant (docteur s) = true
        /\ Personnel.patient_en_charge (docteur s) = Some r
        /\ premier_disponible (aides_soignants s) = Some aide
        /\ s2 = fst (transferer_patient r
                       (unite (_suggerer_unite_transfert lower (tas s r) s))
                       (prise_en_charge maintenant r s))
        /\ a2 = [ActTransport (Personnel.nom aide) (Patient.id (tas s r))
                   (unite (_suggerer_unite_transfert lower (tas s r) s))]).
Proof.
  unfold fin_consultation, activite_finie.
  destruct (StatutPersonnel_eqb (Personnel.statut (docteur s)) OCCUPE);
    cbn [andb]; [|intros [= <- <-]; auto].
  destruct (Personnel.fin_activite (docteur s)) as [fin|] eqn:Efin; [|discriminate].
  destruct (fin <=? maintenant); [|intros [= <- <-]; auto].
  destruct (premier_disponible (aides_soignants s)) as [aide|];
    destruct (Personnel.patient_en_charge (docteur s)) as [r|];
    try discriminate.
  - intros [= <- <-]. right. right. exists r, aide. rewrite <- Efin.
    cbv zeta.
    repeat match goal with
    | |- context [_suggerer_unite_transfert lower ?p ?s1] =>
        lazymatch s1 with
        | s => fail
        | _ => change (_suggerer_unite_transfert lower p s1)
                 with (_suggerer_unite_transfert lower (tas s r) s)
        end
    end.
    split; [reflexivity|]. split; [reflexivity|]. split; [reflexivity|].
    split; [reflexivity|].
    pose proof (transferer_patient_tas r
                  (unite (_suggerer_unite_transfert lower (tas s r) s))
                  (prise_en_charge maintenant r s)) as D.
    apply tas_detache_champs with (x := r) in D. destruct D as (D & _).
    cbn in D. unfold maj in D. rewrite Nat.eqb_refl in D. cbn in D.
    rewrite <- D. reflexivity.
  - intros [= <- <-]. right. left. exists r. auto.
Qed.

Lemma cycle_etapes (horloge : nat -> Instant) (temps_virtuel : option Instant)
  (s s' : AgentOrchestration) (a : list Action) :
  cycle_orchestration lower horloge temps_virtuel s = Ok (s', a) ->
  let maintenant :=
    match temps_virtuel with Some t => t | None => horloge 0%nat end in
  exists s2 a2,
    fin_consultation lower maintenant (gestion_personnel maintenant s) = Ok (s2, a2)
    /\ s' = fst (nouvelle_consultation (fun i => horloge (S i)) maintenant
                   (fst (surveillance_salles maintenant s2)))
    /\ a = a2 ++ snd (surveillance_salles maintenant s2)
              ++ snd (nouvelle_consultation (fun i => horloge (S i)) maintenant
                        (fst (surveillance_salles maintenant s2))).
Proof.
  unfold cycle_orchestration. cbv zeta.
  destruct (fin_consultation lower _ _) as [[s2 a2]|e]; [|discriminate].
  destruct (surveillance_salles _ s2) as [s3 a3] eqn:E3.
  destruct (nouvelle_consultation _ _ s3) as [s4 a4] eqn:E4.
  intros [= <- <-]. exists s2, a2. rewrite E3. cbn [fst snd]. rewrite E4.
  repeat split.
Qed.

Lemma surveillance_salles_reduites (maintenant : Instant) (s : AgentOrchestration) :
  salles_reduites (salles s) (salles (fst (surveillance_salles maintenant s))).
Proof.
  unfold surveillance_salles.
  destruct (surveiller maintenant (infirmieres s) (salles s)) as [[i l] a] eqn:E.
  apply surveiller_salles in E. exact E.
Qed.

(** What a cycle does to rooms and units. *)
Lemma cycle_salles_unites (horloge : nat -> Instant)
  (temps_virtuel : option Instant) (s s' : AgentOrchestration) (a : list Action) :
  cycle_orchestration lower horloge temps_virtuel s = Ok (s', a) ->
  salles_reduites (salles s) (salles s')
  /\ unites_conservees (unites s) (unites s')
  /\ (unites_bornees (unites s) -> unites_bornees (unites s')).
Proof.
  intro H. apply cycle_etapes in H as (s2 & a2 & E2 & -> & _).
  set (maintenant := match temps_virtuel with Some t => t | None => horloge 0%nat end) in *.
  assert (F : salles_allegees (salles s) (salles s2)
              /\ unites_conservees (unites s) (unites s2)
              /\ (unites_bornees (unites s) -> unites_bornees (unites s2))).
  { apply fin_consultation_cas in E2
      as [(-> & _)|[(r & -> & _)|(r & aide & _ & _ & _ & -> & _)]];
      try (cbn; auto using salles_allegees_refl, unites_conservees_refl).
    apply (transferer_patient_invariants r _
             (prise_en_charge maintenant r (gestion_personnel maintenant s))). }
  destruct F as (F1 & F2 & F3).
  pose proof (surveillance_salles_reduites maintenant s2) as S1.
  destruct (surveillance_salles_cadre maintenant s2) as (_ & _ & _ & Su & _).
  destruct (nouvelle_consultation_cadre (fun i => horloge (S i)) maintenant
              (fst (surveillance_salles maintenant s2)))
    as (_ & Ns & _ & _ & Nu & _).
  rewrite Ns, Nu, Su. repeat split; auto.
  eapply salles_reduites_trans; [apply salles_allegees_reduites, F1 | exact S1].
Qed.

End ProprietesEtapes.

Lemma salles_reduites_maps (l l' : list SalleAttente.t) :
  salles_reduites l l' ->
  map SalleAttente.numero l' = map SalleAttente.numero l
  /\ map SalleAttente.capacite l' = map SalleAttente.capacite l.
Proof.
  induction 1 as [|sa sa' l l' (H1 & H2 & H3) F [IH1 IH2]]; cbn; [auto|].
  rewrite H1, H2, IH1, IH2. auto.
Qed.

Lemma accueillir_patient_invariants (horloge : Instant) (r : Ref)
  (s : AgentOrchestration) :
  let s' := fst (accueillir_patient horloge r s) in
  map SalleAttente.numero (salles s') = map SalleAttente.numero (salles s)
  /\ map SalleAttente.capacite (salles s') = map SalleAttente.capacite (salles s)
  /\ (salles_bornees (salles s) -> salles_bornees (salles s'))
  /\ unites s' = unites s.
Proof.
  cbv zeta. unfold accueillir_patient.
  destruct (placer (tas s) r (salles s)) as [[[l t] n]|] eqn:P; cbn; [|auto].
  pose proof (placer_occupation _ _ _ _ _ _ P) as (Pc & _ & Pb).
  apply placer_Some in P as (l1 & sa & l2 & E & _ & _ & _ & -> & _).
  rewrite E in *. rewrite !map_app. cbn. auto.
Qed.

Lemma demarrer_consultation_cadre (horloge : Instant) (r : Ref)
  (s s' : AgentOrchestration) (x : ResultatConsultation) :
  demarrer_consultation horloge r s = Ok (s', x) ->
  salles s' = salles s /\ unites s' = unites s
  /\ infirmieres s' = infirmieres s /\ aides_soignants s' = aides_soignants s
  /\ patients_transferes s' = patients_transferes s
  /\ patients_consultes s' = patients_consultes s
  /\ violations s' = violations s.
Proof.
  unfold demarrer_consultation.
  destruct (negb _); [intros [= <- <-]; auto 10|].
  cbn. destruct (list_remove _ _ _); [|discriminate].
  intros [= <- <-]. cbn. auto 10.
Qed.

Section ProprietesSuites.

Variable lower : string -> string.

Lemma appliquer_invariants (op : Operation) (s s' : AgentOrchestration) :
  appliquer lower op s = Ok s' ->
  map SalleAttente.numero (salles s') = map SalleAttente.numero (salles s)
  /\ map SalleAttente.capacite (salles s') = map SalleAttente.capacite (salles s)
  /\ (salles_bornees (salles s) -> salles_bornees (salles s'))
  /\ unites_conservees (unites s) (unites s')
  /\ (unites_bornees (unites s) -> unites_bornees (unites s')).
Proof.
  destruct op as [h r|h r|r n|h tv]; cbn.
  - intros [= <-].
    destruct (accueillir_patient_invariants h r s) as (A1 & A2 & A3 & A4).
    rewrite A4. auto using unites_conservees_refl.
  - destruct (demarrer_consultation h r s) as [[s1 x]|e] eqn:E; [|discriminate].
    intros [= <-]. apply demarrer_consultation_cadre in E as (-> & -> & _).
    auto using unites_conservees_refl.
  - intros [= <-].
    destruct (transferer_patient_invariants r n s) as (T1 & T2 & T3).
    apply salles_allegees_reduites in T1.
    destruct (salles_reduites_maps _ _ T1).
    repeat split; auto. apply salles_reduites_bornees, T1.
  - destruct (cycle_orchestration lower h tv s) as [[s1 a]|e] eqn:E; [|discriminate].
    intros [= <-]. apply cycle_salles_unites in E as (C1 & C2 & C3).
    destruct (salles_reduites_maps _ _ C1).
    repeat split; auto. apply salles_reduites_bornees, C1.
Qed.

Lemma executer_invariants (ops : list Operation) :
  forall s s', executer lower ops s = Ok s' ->
  map SalleAttente.numero (salles s') = map SalleAttente.numero (salles s)
  /\ map SalleAttente.capacite (salles s') = map SalleAttente.capacite (salles s)
  /\ (salles_bornees (salles s) -> salles_bornees (salles s'))
  /\ unites_conservees (unites s) (unites s')
  /\ (unites_bornees (unites s) -> unites_bornees (unites s')).
Proof.
  induction ops as [|op ops IH]; intros s s' H; cbn in H.
  - injection H as <-. auto using unites_conservees_refl.
  - destruct (appliquer lower op s) as [s1|e] eqn:E; [|discriminate].
    apply appliquer_invariants in E as (A1 & A2 & A3 & A4 & A5).
    apply IH in H as (B1 & B2 & B3 & B4 & B5).
    rewrite B1, B2, A1, A2. repeat split; auto.
    eapply unites_conservees_trans; eauto.
Qed.

(** X1: no sequence of admissions, consultation starts, transfers and cycles
    takes a waiting room above its capacity, and none changes the number or
    the capacity of a room. *)
Theorem executer_salles_bornees (ops : list Operation)
  (s s' : AgentOrchestration) :
  salles_bornees (salles s) ->
  executer lower ops s = Ok s' ->
  salles_bornees (salles s')
  /\ map SalleAttente.numero (salles s') = map SalleAttente.numero (salles s)
  /\ map SalleAttente.capacite (salles s') = map SalleAttente.capacite (salles s).
Proof.
  intros B H. apply executer_invariants in H as (H1 & H2 & H3 & _). auto.
Qed.

(** X2: no sequence of admissions, consultation starts, transfers and cycles
    takes a transfer unit above its capacity; units keep their name,
    capacity and specialties, and their occupancy never decreases. *)
Theorem executer_unites_bornees (ops : list Operation)
  (s s' : AgentOrchestration) :
  unites_bornees (unites s) ->
  executer lower ops s = Ok s' ->
  unites_bornees (unites s') /\ unites_conservees (unites s) (unites s').
Proof.
  intros B H. apply executer_invariants in H as (_ & _ & _ & H4 & H5). auto.
Qed.

End ProprietesSuites.

Lemma executer_salles_bornees_temoin :
  match executer ascii_lower operations_ex etat_unite_libre with
  | Ok s' => salles_bornees (salles s')
  | Leve _ => False
  end.
Proof.
  destruct (executer ascii_lower operations_ex etat_unite_libre) as [s'|e] eqn:E.
  - refine (proj1 (executer_salles_bornees ascii_lower operations_ex
                     etat_unite_libre s' _ E)).
    repeat constructor. vm_compute. discriminate.
  - vm_compute in E. discriminate.
Defined.

Lemma executer_unites_bornees_temoin :
  match executer ascii_lower operations_ex etat_unite_libre with
  | Ok s' => unites_bornees (unites s')
  | Leve _ => False
  end.
Proof.
  destruct (executer ascii_lower operations_ex etat_unite_libre) as [s'|e] eqn:E.
  - refine (proj1 (executer_unites_bornees ascii_lower operations_ex
                     etat_unite_libre s' _ E)).
    repeat constructor. vm_compute. discriminate.
  - vm_compute in E. discriminate.
Defined.

(** ** Consultation *)

(** X6: the consultation length read from the rules is decided by the first
    level listed for the patient's severity; it is 5 minutes when the rules
    have no levels, when no level names the severity, and when that first
    level gives no length. *)
Theorem duree_consultation_spec (rg : RAGSysteme.t) (g : Gravite) :
  (RAGSysteme.niveaux rg = None -> duree_consultation rg g = 5)
  /\ (forall l, RAGSysteme.niveaux rg = Some l ->
        Forall (fun n => RAGSysteme.niveau_gravite n <> Gravite_value g) l ->
        duree_consultation rg g = 5)
  /\ (forall l1 n l2,
        RAGSysteme.niveaux rg = Some (l1 ++ n :: l2) ->
        Forall (fun m => RAGSysteme.niveau_gravite m <> Gravite_value g) l1 ->
        RAGSysteme.niveau_gravite n = Gravite_value g ->
        duree_consultation rg g
        = match RAGSysteme.temps_consultation_max n with
          | Some d => d
          | None => 5
          end).
Proof.
  unfold duree_consultation. split; [|split].
  - intros ->. reflexivity.
  - intros l -> F. induction F as [|n l Hn F IH]; cbn; [reflexivity|].
    apply String.eqb_neq in Hn. rewrite Hn. exact IH.
  - intros l1 n l2 -> F Hn. induction F as [|m l1 Hm F IH]; cbn.
    + rewrite Hn, String.eqb_refl. reflexivity.
    + apply String.eqb_neq in Hm. rewrite Hm. exact IH.
Qed.

(** X5: [demarrer_consultation] refuses, changing nothing, when the doctor
    is not DISPONIBLE; otherwise, for a patient of the waiting list, it puts
    the doctor OCCUPE with that patient until the clock reading plus the
    length the rules give its severity, marks the patient EN_CONSULTATION,
    takes one entry with the patient's id out of the waiting list and logs
    the start; for a patient whose id is not in the waiting list it raises
    ValueError. *)
Theorem demarrer_consultation_spec (horloge : Instant) (r : Ref)
  (s : AgentOrchestration) :
  let d := docteur s in
  let duree := duree_consultation (rag s) (Patient.gravite (tas s r)) in
  (Personnel.statut d <> DISPONIBLE ->
   demarrer_consultation horloge r s
   = Ok (s, DocteurOccupe (Personnel.fin_activite d)))
  /\ (Personnel.statut d = DISPONIBLE ->
      In r (patients_en_attente s) ->
      exists s' l1 x l2,
        demarrer_consultation horloge r s
        = Ok (s', ConsultationDemarree (Patient.id (tas s r)) duree
                    (horloge + minutes duree))
        /\ docteur s'
           = Personnel.mk (Personnel.id d) (Personnel.nom d) (Personnel.type d)
               OCCUPE (Some r) (Some (horloge + minutes duree))
        /\ tas s' r = Patient.set_statut EN_CONSULTATION (tas s r)
        /\ (forall y, y <> r -> tas s' y = tas s y)
        /\ patients_en_attente s = l1 ++ x :: l2
        /\ patients_en_attente s' = l1 ++ l2
        /\ Patient.id (tas s x) = Patient.id (tas s r)
        /\ ~ In r l1
        /\ RAGSysteme.journal (rag s')
           = RAGSysteme.journal (rag s)
             ++ [CONSULTATION_DEMARREE (Patient.id (tas s r)) duree])
  /\ (Personnel.statut d = DISPONIBLE ->
      (forall x, In x (patients_en_attente s) ->
                 Patient.id (tas s x) <> Patient.id (tas s r)) ->
      demarrer_consultation horloge r s = Leve ValueError).
Proof.
  cbv zeta. unfold demarrer_consultation.
  set (t2 := maj (tas s) r (Patient.set_statut EN_CONSULTATION (tas s r))).
  assert (Tid : forall y, Patient.id (t2 y) = Patient.id (tas s y)).
  { intro y. unfold t2, maj. destruct (Nat.eqb_spec y r) as [->|]; reflexivity. }
  split; [|split].
  - intro H. destruct (Personnel.statut (docteur s)); try reflexivity.
    contradiction.
  - intros -> Hin. cbn [StatutPersonnel_eqb negb].
    cbn [tas patients_en_attente set_tas set_docteur].
    fold t2.
    destruct (contient_remove t2 r _ (contient_In t2 r _ Hin)) as [l R].
    rewrite R.
    apply list_remove_Some in R as (l1 & x & l2 & E1 & E2 & Hx & F).
    cbn [tas set_patients_en_attente set_tas set_docteur log set_rag].
    rewrite !Tid.
    eexists _, l1, x, l2. split; [reflexivity|].
    cbn [tas docteur rag patients_en_attente set_patients_en_attente set_tas
         set_docteur log set_rag RAGSysteme.enregistrer_log RAGSysteme.journal].
    assert (T2r : t2 r = Patient.set_statut EN_CONSULTATION (tas s r))
      by (unfold t2, maj; rewrite Nat.eqb_refl; reflexivity).
    repeat split; auto.
    + intros y Hy. unfold t2, maj. destruct (Nat.eqb_spec y r); congruence.
    + apply meme_patient_id in Hx. rewrite !Tid in Hx. exact Hx.
    + intro Hr. rewrite Forall_forall in F. specialize (F r Hr).
      rewrite meme_patient_refl in F. discriminate.
  - intros -> Hid. cbn [StatutPersonnel_eqb negb].
    cbn [tas patients_en_attente set_tas set_docteur]. fold t2.
    assert (N : list_remove t2 r (patients_en_attente s) = None).
    { apply list_remove_None. unfold contient.
      destruct (existsb _ _) eqn:E; [|reflexivity].
      apply existsb_exists in E as (x & Hx & Hm).
      apply meme_patient_id in Hm. rewrite !Tid in Hm.
      exfalso. apply (Hid x Hx Hm). }
    rewrite N. reflexivity.
Qed.

(** ** When the cycle raises *)

Section ProprietesExceptions.

Variable lower : string -> string.


End ProprietesExceptions.

(** ** Selecting the next patient *)

Lemma cle_le_refl (a : Cle) : cle_le a a.
Proof. apply cle_le_iff. lia. Qed.

Lemma sorted_tete_minimale (d rest : list (Cle * Ref)) (x : Cle * Ref) :
  sorted d = x :: rest ->
  In x d /\ forall y, In y d -> cle_le (fst x) (fst y).
Proof.
  intro E. pose proof (sorted_perm d) as P. pose proof (sorted_ordonne d) as S.
  rewrite E in P, S. split.
  - apply (Permutation_in _ P). now left.
  - intros y Hy. apply (Permutation_in _ (Permutation_sym P)) in Hy.
    inversion S as [|? ? _ F]; subst. rewrite Forall_forall in F.
    destruct Hy as [<-|Hy]; [apply cle_le_refl | apply F, Hy].
Qed.

Lemma filter_tete {A : Type} (f : A -> bool) (l t : list A) (x : A) :
  filter f l = x :: t ->
  exists l1 l2, l = l1 ++ x :: l2 /\ Forall (fun y => f y = false) l1.
Proof.
  induction l as [|y l IH]; cbn; [discriminate|].
  destruct (f y) eqn:E.
  - intros [= -> <-]. exists [], l. split; [reflexivity | constructor].
  - intro H. destruct (IH H) as (l1 & l2 & -> & F).
    exists (y :: l1), l2. split; [reflexivity | constructor; assumption].
Qed.

Lemma decorer_length (horloge : nat -> Instant) (tas : Tas) (l : list Ref) :
  List.length (decorer horloge tas l) = List.length l.
Proof.
  rewrite <- (decorer_snd horloge tas l) at 2. rewrite length_map. reflexivity.
Qed.

(** The decorated list, position by position. *)
Lemma decorer_nth_inv (horloge : nat -> Instant) (tas : Tas) (l : list Ref)
  (i : nat) (k : Cle) (r : Ref) :
  nth_error (decorer horloge tas l) i = Some (k, r) ->
  nth_error l i = Some r /\ k = cle_patient (horloge i) (tas r).
Proof.
  intro H.
  assert (Hr : nth_error l i = Some r).
  { rewrite <- (decorer_snd horloge tas l), nth_error_map, H. reflexivity. }
  split; [exact Hr|].
  rewrite (decorer_nth tas l horloge i r Hr) in H. injection H as <-. reflexivity.
Qed.

(** X9: the patient selected for consultation has the least key (effective
    priority, then arrival time) of the waiting list, and is the first of the
    list with that key; nobody is selected only when the list is empty; when
    a ROUGE patient waits, the selected patient is ROUGE. *)
Theorem selectionner_prochain_patient_spec (horloge : nat -> Instant)
  (s : AgentOrchestration) :
  (selectionner_prochain_patient horloge s = None <-> patients_en_attente s = [])
  /\ (forall r, selectionner_prochain_patient horloge s = Some r ->
        exists i,
          nth_error (patients_en_attente s) i = Some r
          /\ (forall j x, nth_error (patients_en_attente s) j = Some x ->
                cle_le (cle_patient (horloge i) (tas s r))
                       (cle_patient (horloge j) (tas s x)))
          /\ (forall j x, (j < i)%nat ->
                nth_error (patients_en_attente s) j = Some x ->
                cle_patient (horloge j) (tas s x)
                <> cle_patient (horloge i) (tas s r))
          /\ ((exists x, In x (patients_en_attente s)
                         /\ Patient.gravite (tas s x) = ROUGE) ->
              Patient.gravite (tas s r) = ROUGE)).
Proof.
  split; [apply selectionner_file_vide|].
  intros r. unfold selectionner_prochain_patient, calculer_file_priorite.
  set (d := decorer horloge (tas s) (patients_en_attente s)).
  destruct (sorted d) as [|[k r'] rest] eqn:E; [discriminate|].
  cbn [map snd]. intros [= ->].
  destruct (sorted_tete_minimale _ _ _ E) as [Hin Hmin].
  pose proof (sorted_stable k d) as St. rewrite E in St.
  unfold de_clef in St. cbn [filter fst] in St. rewrite cle_eqb_refl in St.
  symmetry in St. apply filter_tete in St as (l1 & l2 & Ed & F).
  assert (Hi : nth_error d (List.length l1) = Some (k, r)).
  { rewrite Ed, nth_error_app2, Nat.sub_diag by lia. reflexivity. }
  apply decorer_nth_inv in Hi as [Hr Hk].
  assert (Hmin' : forall j x, nth_error (patients_en_attente s) j = Some x ->
                    cle_le k (cle_patient (horloge j) (tas s x))).
  { intros j x Hx.
    pose proof (decorer_nth (tas s) _ horloge j x Hx) as Hd.
    apply nth_error_In in Hd. apply (Hmin _ Hd). }
  exists (List.length l1). rewrite <- Hk. repeat split; auto.
  - intros j x Hj Hx Heq.
    pose proof (decorer_nth (tas s) _ horloge j x Hx) as Hd. fold d in Hd.
    rewrite Ed, nth_error_app1 in Hd by exact Hj.
    apply nth_error_In in Hd. rewrite Forall_forall in F.
    specialize (F _ Hd). cbn in F. fold (cle_patient (horloge j) (tas s x)) in F.
    rewrite Heq, cle_eqb_refl in F. discriminate.
  - intros (x & Hx & Gx).
    apply In_nth_error in Hx as [j Hj]. specialize (Hmin' j x Hj).
    rewrite Hk in Hmin'. apply cle_le_iff in Hmin'. cbn [cle_patient fst snd] in Hmin'.
    rewrite !priorite_selon_depasse, Gx in Hmin'.
    destruct (Patient.gravite (tas s r)); [reflexivity| | |];
      try destruct (depasse_360 _ _); lia.
Qed.

(** ** Starting a consultation in the cycle *)

Lemma selectionner_ext (horloge : nat -> Instant) (s s' : AgentOrchestration) :
  tas s' = tas s -> patients_en_attente s' = patients_en_attente s ->
  selectionner_prochain_patient horloge s' = selectionner_prochain_patient horloge s.
Proof.
  intros Et Ew. unfold selectionner_prochain_patient, calculer_file_priorite.
  rewrite Et, Ew. reflexivity.
Qed.

(** Step 4 of the cycle when it starts a consultation. *)
Lemma nouvelle_consultation_demarre (horloge : nat -> Instant)
  (maintenant : Instant) (s : AgentOrchestration) (r : Ref) :
  est_disponible (docteur s) = true ->
  selectionner_prochain_patient horloge s = Some r ->
  let d := docteur s in
  exists s' l1 x l2,
    nouvelle_consultation horloge maintenant s
    = (s', [ActConsultation (Patient.id (tas s r))])
    /\ docteur s'
       = Personnel.mk (Personnel.id d) (Personnel.nom d) (Personnel.type d)
           OCCUPE (Some r) (Some (maintenant + minutes 5))
    /\ tas s' r = Patient.set_statut EN_CONSULTATION (tas s r)
    /\ (forall y, y <> r -> tas s' y = tas s y)
    /\ patients_en_attente s = l1 ++ x :: l2
    /\ patients_en_attente s' = l1 ++ l2
    /\ Patient.id (tas s x) = Patient.id (tas s r)
    /\ ~ In r l1.
Proof.
  intros Hd Hr. cbv zeta. unfold nouvelle_consultation. rewrite Hd, Hr.
  set (t2 := maj (tas s) r (Patient.set_statut EN_CONSULTATION (tas s r))).
  assert (Tid : forall y, Patient.id (t2 y) = Patient.id (tas s y)).
  { intro y. unfold t2, maj. destruct (Nat.eqb_spec y r) as [->|]; reflexivity. }
  assert (T2r : t2 r = Patient.set_statut EN_CONSULTATION (tas s r))
    by (unfold t2, maj; rewrite Nat.eqb_refl; reflexivity).
  cbn [tas patients_en_attente set_tas set_docteur]. fold t2.
  pose proof (selectionner_In _ _ _ Hr) as Hin.
  rewrite (contient_In t2 r _ Hin).
  destruct (contient_remove t2 r _ (contient_In t2 r _ Hin)) as [l R].
  rewrite R.
  apply list_remove_Some in R as (l1 & x & l2 & E1 & E2 & Hx & F).
  cbn [tas set_patients_en_attente set_tas set_docteur]. rewrite Tid.
  eexists _, l1, x, l2. split; [reflexivity|].
  cbn [tas docteur patients_en_attente set_patients_en_attente set_tas set_docteur].
  repeat split; auto.
  - intros y Hy. unfold t2, maj. destruct (Nat.eqb_spec y r); congruence.
  - apply meme_patient_id in Hx. rewrite !Tid in Hx. exact Hx.
  - intro Hr'. rewrite Forall_forall in F. specialize (F r Hr').
    rewrite meme_patient_refl in F. discriminate.
Qed.

Section ProprietesDemarrage.

Variable lower : string -> string.

(** X10: when the doctor is DISPONIBLE and somebody waits, a cycle takes the
    selected patient into consultation: the doctor is OCCUPE with that
    patient until now plus 5 minutes, the patient is EN_CONSULTATION, one
    entry with its id leaves the waiting list and the consultation action
    closes the action list, after inspection actions only; no other patient
    is touched. *)
Theorem cycle_demarre_consultation (horloge : nat -> Instant)
  (temps_virtuel : option Instant) (s : AgentOrchestration) (r : Ref) :
  est_disponible (docteur s) = true ->
  selectionner_prochain_patient (fun i => horloge (S i)) s = Some r ->
  let maintenant :=
    match temps_virtuel with Some t => t | None => horloge 0%nat end in
  let d := docteur s in
  exists s' acts l1 x l2,
    cycle_orchestration lower horloge temps_virtuel s
    = Ok (s', acts ++ [ActConsultation (Patient.id (tas s r))])
    /\ Forall (fun a => exists n z, a = ActInspection n z) acts
    /\ docteur s'
       = Personnel.mk (Personnel.id d) (Personnel.nom d) (Personnel.type d)
           OCCUPE (Some r) (Some (maintenant + minutes 5))
    /\ tas s' r = Patient.set_statut EN_CONSULTATION (tas s r)
    /\ (forall y, y <> r -> tas s' y = tas s y)
    /\ patients_en_attente s = l1 ++ x :: l2
    /\ patients_en_attente s' = l1 ++ l2
    /\ Patient.id (tas s x) = Patient.id (tas s r)
    /\ ~ In r l1.
Proof.
  intros Hd Hr. cbv zeta.
  set (maintenant := match temps_virtuel with Some t => t | None => horloge 0%nat end).
  unfold cycle_orchestration. fold maintenant.
  assert (Est : Personnel.statut (docteur s) = DISPONIBLE)
    by (apply StatutPersonnel_eqb_eq, Hd).
  unfold fin_consultation.
  change (docteur (gestion_personnel maintenant s)) with (docteur s).
  rewrite Est. cbn [StatutPersonnel_eqb].
  pose proof (surveillance_salles_cadre maintenant (gestion_personnel maintenant s)) as C.
  destruct (surveillance_salles maintenant (gestion_personnel maintenant s)) as [s3 a3].
  cbn [fst snd] in C.
  destruct C as (_ & Cd & _ & _ & Cw & _ & _ & _ & Ct & _ & Cact).
  cbn in Cd, Cw, Ct.
  rewrite <- (selectionner_ext _ s s3 Ct Cw) in Hr.
  rewrite <- Cd in Hd.
  destruct (nouvelle_consultation_demarre (fun i => horloge (S i)) maintenant
              s3 r Hd Hr) as (s4 & l1 & x & l2 & E & Nd & Nr & Ny & W1 & W2 & Hid & Hn).
  rewrite E. rewrite Ct, Cd in *. rewrite Cw in W1.
  exists s4, a3, l1, x, l2. cbn [app]. repeat split; auto.
Qed.

End ProprietesDemarrage.

Lemma cycle_demarre_consultation_temoin :
  exists s' acts l1 x l2,
    cycle_orchestration ascii_lower (horloge_fixe (minutes 361))
      (Some (minutes 200)) etat_360
    = Ok (s', acts ++ [ActConsultation "V1"])
    /\ Forall (fun a => exists n z, a = ActInspection n z) acts
    /\ docteur s'
       = Personnel.mk "docteur_1" "Dr. Urgences" "FIXE" OCCUPE (Some 1%nat)
           (Some (minutes 200 + minutes 5))
    /\ tas s' 1%nat = Patient.set_statut EN_CONSULTATION (tas etat_360 1%nat)
    /\ (forall y, y <> 1%nat -> tas s' y = tas etat_360 y)
    /\ patients_en_attente etat_360 = l1 ++ x :: l2
    /\ patients_en_attente s' = l1 ++ l2
    /\ Patient.id (tas etat_360 x) = Patient.id (tas etat_360 1%nat)
    /\ ~ In 1%nat l1.
Proof.
  exact (cycle_demarre_consultation ascii_lower (horloge_fixe (minutes 361))
           (Some (minutes 200)) etat_360 1%nat eq_refl eq_refl).
Defined.

(** ** Handing a patient to an aide in the cycle *)

Lemma maj_autre (tas : Tas) (r x : Ref) (p : Patient.t) :
  x <> r -> maj tas r p x = tas x.
Proof. intro H. unfold maj. destruct (Nat.eqb_spec x r); congruence. Qed.

Lemma maj_meme (tas : Tas) (r : Ref) (p : Patient.t) : maj tas r p r = p.
Proof. unfold maj. rewrite Nat.eqb_refl. reflexivity. Qed.



Section ProprietesTransfertCycle.

Variable lower : string -> string.

(** Step 2 of the cycle when an aide is available. *)
Lemma fin_consultation_transport (maintenant fin : Instant)
  (s : AgentOrchestration) (r : Ref) (aide : Personnel.t) :
  Personnel.statut (docteur s) = OCCUPE ->
  Personnel.fin_activite (docteur s) = Some fin ->
  fin <= maintenant ->
  Personnel.patient_en_charge (docteur s) = Some r ->
  premier_disponible (aides_soignants s) = Some aide ->
  let unite_nom := unite (_suggerer_unite_transfert lower (tas s r) s) in
  fin_consultation lower maintenant s
  = Ok (fst (transferer_patient r unite_nom (prise_en_charge maintenant r s)),
        [ActTransport (Personnel.nom aide) (Patient.id (tas s r)) unite_nom]).
Proof.
  intros Hst Hfin Hle Hpat Haide. cbv zeta.
  assert (Hfinie : activite_finie maintenant (docteur s) = true).
  { unfold activite_finie. rewrite Hst, Hfin. cbn. apply Z.leb_le, Hle. }
  destruct (fin_consultation lower maintenant s) as [[s2 a2]|e] eqn:E.
  - apply fin_consultation_cas in E
      as [(_ & _ & N)|[(r' & _ & _ & _ & _ & N)|(r' & aide' & _ & Hp & Ha & -> & ->)]];
      congruence.
  - unfold fin_consultation in E.
    rewrite Hst, Hfin, Hpat, Haide in E. cbn [StatutPersonnel_eqb] in E.
    apply Z.leb_le in Hle. rewrite Hle in E. discriminate.
Qed.

(** The state a cycle leaves when step 2 hands the patient to an aide,
    relative to the state [s2] that step 2 produces. *)
Lemma cycle_transport (horloge : nat -> Instant) (maintenant fin : Instant)
  (s : AgentOrchestration) (r : Ref) (aide : Personnel.t) :
  Personnel.statut (docteur s) = OCCUPE ->
  Personnel.fin_activite (docteur s) = Some fin ->
  fin <= maintenant ->
  Personnel.patient_en_charge (docteur s) = Some r ->
  premier_disponible (aides_soignants (gestion_personnel maintenant s)) = Some aide ->
  ~ In r (patients_en_attente s) ->
  let unite_nom := unite (_suggerer_unite_transfert lower (tas s r) s) in
  let s2 := fst (transferer_patient r unite_nom
                   (prise_en_charge maintenant r (gestion_personnel maintenant s))) in
  exists s' acts,
    cycle_orchestration lower horloge (Some maintenant) s
    = Ok (s', ActTransport (Personnel.nom aide) (Patient.id (tas s r)) unite_nom
              :: acts)
    /\ rag s' = rag s2 /\ unites s' = unites s2
    /\ patients_transferes s' = patients_transferes s2
    /\ aides_soignants s' = aides_soignants s2
    /\ map SalleAttente.patients (salles s') = map SalleAttente.patients (salles s2)
    /\ tas s' r = tas s2 r.
Proof.
  intros Hst Hfin Hle Hpat Haide Hr. cbv zeta.
  unfold cycle_orchestration.
  rewrite (fin_consultation_transport maintenant fin
             (gestion_personnel maintenant s) r aide); try assumption.
  change (tas (gestion_personnel maintenant s)) with (tas s).
  rewrite (suggerer_cadre lower (tas s r) s (gestion_personnel maintenant s)
             eq_refl eq_refl).
  set (s2 := fst (transferer_patient r _ _)).
  pose proof (surveillance_salles_cadre maintenant s2) as C.
  destruct (surveillance_salles maintenant s2) as [s5 a5].
  cbn [fst snd] in C.
  destruct C as (Cr & _ & Ca & Cu & Cw & _ & Ct & _ & Ctas & Csal & _).
  pose proof (nouvelle_consultation_cadre (fun i => horloge (S i)) maintenant s5) as N.
  destruct (nouvelle_consultation (fun i => horloge (S i)) maintenant s5) as [s6 a6].
  cbn [fst] in N. destruct N as (Nr & Ns & _ & Na & Nu & _ & Nt & _ & Ntas).
  assert (W2 : patients_en_attente s2 = patients_en_attente s).
  { unfold s2.
    match goal with
    | |- patients_en_attente (fst (transferer_patient r ?n ?s3)) = _ =>
        destruct (transferer_patient_cadre r n s3) as (_ & _ & _ & ->)
    end.
    reflexivity. }
  rewrite Cw, W2 in Ntas. specialize (Ntas r Hr).
  exists s6. eexists. split; [cbn; reflexivity|].
  rewrite Nr, Cr, Nu, Cu, Nt, Ct, Na, Ca, Ns, Csal, Ntas, Ctas. auto 10.
Qed.


(** X12: when the consultation ends, an aide is available and the suggested
    destination is not the name of a transfer unit (as with the "home"
    destination of the GRIS rule), the failed transfer goes unnoticed: the
    patient is TRANSFERE and the aide is OCCUPE with it, but no unit and no
    list records the patient, nothing is logged, and the patient keeps its
    place in its waiting room. *)
Theorem cycle_unite_introuvable (horloge : nat -> Instant)
  (maintenant fin : Instant) (s : AgentOrchestration) (r : Ref)
  (aide : Personnel.t) :
  Personnel.statut (docteur s) = OCCUPE ->
  Personnel.fin_activite (docteur s) = Some fin ->
  fin <= maintenant ->
  Personnel.patient_en_charge (docteur s) = Some r ->
  premier_disponible (aides_soignants (gestion_personnel maintenant s)) = Some aide ->
  ~ In r (patients_en_attente s) ->
  let unite_nom := unite (_suggerer_unite_transfert lower (tas s r) s) in
  trouver_unite unite_nom (unites s) = None ->
  exists s' acts,
    cycle_orchestration lower horloge (Some maintenant) s
    = Ok (s', ActTransport (Personnel.nom aide) (Patient.id (tas s r)) unite_nom
              :: acts)
    /\ Patient.statut (tas s' r) = TRANSFERE
    /\ Patient.salle (tas s' r) = Patient.salle (tas s r)
    /\ map SalleAttente.patients (salles s') = map SalleAttente.patients (salles s)
    /\ unites s' = unites s
    /\ patients_transferes s' = patients_transferes s
    /\ rag s' = rag s
    /\ aides_soignants s'
       = modifier_premier_disponible
           (fun a => Personnel.mk (Personnel.id a) (Personnel.nom a)
                       (Personnel.type a) OCCUPE (Some r)
                       (Some (maintenant + minutes 15)))
           (aides_soignants (gestion_personnel maintenant s))
    /\ (forall g, Patient.gravite (tas s r) = GRIS ->
          RAGSysteme.gris (RAGSysteme.regles_speciales (rag s)) = Some g ->
          unite_nom = RAGSysteme.transfert g).
Proof.
  intros Hst Hfin Hle Hpat Haide Hr unite_nom Hu.
  destruct (cycle_transport horloge maintenant fin s r aide Hst Hfin Hle Hpat
              Haide Hr)
    as (s' & acts & E & Er & Eu & Et & Ea & Es & Etas).
  fold unite_nom in E, Er, Eu, Et, Ea, Es, Etas.
  set (s1 := prise_en_charge maintenant r (gestion_personnel maintenant s)) in *.
  assert (T : transferer_patient r unite_nom s1 = (s1, UniteIntrouvable unite_nom)).
  { unfold transferer_patient.
    change (unites s1) with (unites s). rewrite Hu. reflexivity. }
  rewrite T in *. cbn [fst] in *.
  exists s', acts. split; [exact E|].
  rewrite Etas, Er, Eu, Et, Ea, Es.
  cbn [tas s1 prise_en_charge set_tas]. rewrite maj_meme.
  repeat split; auto.
  intros g Hg Hgris. unfold unite_nom, _suggerer_unite_transfert,
    RAGSysteme.get_regles_speciales. rewrite Hg, Hgris. reflexivity.
Qed.

End ProprietesTransfertCycle.


Lemma cycle_unite_introuvable_temoin :
  exists s' acts,
    cycle_orchestration ascii_lower (horloge_fixe 0) (Some (minutes 10)) etat_gris
    = Ok (s', ActTransport "Aide A" "G1" "MAISON" :: acts)
    /\ Patient.statut (tas s' 0%nat) = TRANSFERE
    /\ Patient.salle (tas s' 0%nat) = Some 1
    /\ map SalleAttente.patients (salles s') = [[0%nat]]
    /\ unites s' = [Unite.mk "CARDIOLOGIE" 2 1 ["Cardiaque"]]
    /\ patients_transferes s' = []
    /\ rag s' = rag_ex
    /\ aides_soignants s'
       = [Personnel.mk "aide_1" "Aide A" "FIXE" OCCUPE (Some 0%nat)
            (Some (minutes 10 + minutes 15))]
    /\ (forall g, Patient.gravite (tas etat_gris 0%nat) = GRIS ->
          RAGSysteme.gris (RAGSysteme.regles_speciales (rag etat_gris)) = Some g ->
          "MAISON" = RAGSysteme.transfert g).
Proof.
  apply (cycle_unite_introuvable ascii_lower (horloge_fixe 0) (minutes 10)
           (minutes 5) etat_gris 0%nat (personnel_ex "aide_1" "Aide A"));
    try reflexivity.
  - vm_compute. discriminate.
  - intros [].
Defined.

(** ** Admissions in a row *)

Lemma accueillir_patient_effets (horloge : Instant) (r : Ref)
  (s : AgentOrchestration) :
  let s' := fst (accueillir_patient horloge r s) in
  match placer (tas s) r (salles s) with
  | Some (l, _, _) =>
      accueil_success (snd (accueillir_patient horloge r s)) = true
      /\ salles s' = l
      /\ patients_en_attente s' = patients_en_attente s ++ [r]
      /\ violations s' = violations s
  | None =>
      accueil_success (snd (accueillir_patient horloge r s)) = false
      /\ salles s' = salles s
      /\ patients_en_attente s' = patients_en_attente s
      /\ violations s'
         = violations s
           ++ [mkViolation "SALLE_PLEINE" horloge (Patient.id (tas s r))]
  end.
Proof.
  cbv zeta. unfold accueillir_patient.
  destruct (placer (tas s) r (salles s)) as [[[l t] n]|]; cbn; auto.
Qed.

(** X14: on rooms within their capacity, a sequence of admissions succeeds
    exactly as long as places remain: the successes come first, as many as
    the free places allow, and every later admission fails; the admitted
    patients join the waiting list in order, and each failure records one
    violation. *)
Theorem accueillir_en_serie_spec (l : list (Instant * Ref)) :
  forall s, salles_bornees (salles s) ->
  let s' := fst (accueillir_en_serie l s) in
  exists succes echecs,
    snd (accueillir_en_serie l s) = succes ++ echecs
    /\ Forall (fun res => accueil_success res = true) succes
    /\ Forall (fun res => accueil_success res = false) echecs
    /\ Z.of_nat (List.length succes)
       = Z.min (Z.of_nat (List.length l))
               (capacite_totale s - occupation_actuelle s)
    /\ patients_en_attente s'
       = patients_en_attente s ++ map snd (firstn (List.length succes) l)
    /\ List.length (violations s')
       = (List.length (violations s) + List.length echecs)%nat
    /\ occupation_actuelle s'
       = occupation_actuelle s + Z.of_nat (List.length succes)
    /\ salles_bornees (salles s').
Proof.
  unfold capacite_totale, occupation_actuelle.
  induction l as [|[h r] l IH]; intros s B; cbn [accueillir_en_serie].
  - exists [], []. cbn. rewrite app_nil_r.
    apply salles_bornees_somme in B as B'.
    repeat split; auto; lia.
  - pose proof (accueillir_patient_effets h r s) as A.
    destruct (accueillir_patient h r s) as [s1 res1]. cbn [fst snd] in A.
    specialize (IH s1).
    destruct (accueillir_en_serie l s1) as [s2 ress]. cbn [fst snd] in *.
    destruct (placer (tas s) r (salles s)) as [[[l' t'] n']|] eqn:P.
    + destruct A as (A1 & A2 & A3 & A4).
      apply placer_occupation in P as (Pc & Po & Pb).
      rewrite A2 in IH. specialize (IH (Pb B)).
      destruct IH as (su & ec & E & Fs & Fe & L & W & V & O & B2).
      exists (res1 :: su), ec. rewrite E, W, V, O, A3, A4, Pc, Po in *.
      apply salles_bornees_somme in B.
      cbn [List.length firstn map snd app]. rewrite <- app_assoc.
      repeat split; auto; try lia.
    + destruct A as (A1 & A2 & A3 & A4).
      apply placer_None in P. pose proof (sans_place_complet _ B P) as Full.
      rewrite A2 in IH. specialize (IH B).
      destruct IH as (su & ec & E & Fs & Fe & L & W & V & O & B2).
      assert (su = []) as -> by (destruct su; [reflexivity | cbn in L; lia]).
      exists [], (res1 :: ec). rewrite E, W, V, O, A3, A4 in *.
      rewrite length_app. cbn. rewrite !app_nil_r.
      repeat split; auto; lia.
Qed.

Lemma accueillir_en_serie_spec_temoin :
  exists succes echecs,
    snd (accueillir_en_serie [(0, 0%nat); (1, 1%nat); (2, 0%nat); (3, 1%nat)]
           etat_trois_places)
    = succes ++ echecs
    /\ Forall (fun res => accueil_success res = true) succes
    /\ Forall (fun res => accueil_success res = false) echecs
    /\ Z.of_nat (List.length succes) = 3.
Proof.
  destruct (accueillir_en_serie_spec
              [(0, 0%nat); (1, 1%nat); (2, 0%nat); (3, 1%nat)] etat_trois_places)
    as (su & ec & E & Fs & Fe & L & _).
  - repeat constructor; vm_compute; discriminate.
  - exists su, ec. auto.
Defined.

(** ** Room inspections *)

Lemma premier_disponible_compter (l : list Personnel.t) :
  premier_disponible l = None <-> compter est_disponible l = 0%nat.
Proof.
  unfold premier_disponible, compter. induction l as [|p l IH]; cbn; [tauto|].
  destruct (est_disponible p); cbn; [split; discriminate | exact IH].
Qed.

Lemma modifier_compter (f : Personnel.t -> Personnel.t) (l : list Personnel.t)
  (p : Personnel.t) :
  (forall q, est_disponible (f q) = false) ->
  premier_disponible l = Some p ->
  S (compter est_disponible (modifier_premier_disponible f l))
  = compter est_disponible l.
Proof.
  intros Hf. unfold premier_disponible, compter.
  induction l as [|q l IH]; cbn; [discriminate|].
  destruct (est_disponible q) eqn:E; cbn.
  - intros _. rewrite Hf. reflexivity.
  - rewrite E. exact IH.
Qed.

Lemma modifier_identite (f : Personnel.t -> Personnel.t) (l : list Personnel.t) :
  (forall q, identite (f q) = identite q) ->
  map identite (modifier_premier_disponible f l) = map identite l.
Proof.
  intro Hf. induction l as [|q l IH]; cbn; [reflexivity|].
  destruct (est_disponible q); cbn; [rewrite Hf | rewrite IH]; reflexivity.
Qed.

Lemma compter_cons {A : Type} (f : A -> bool) (a : A) (l : list A) :
  compter f (a :: l) = if f a then S (compter f l) else compter f l.
Proof. unfold compter. cbn. destruct (f a); reflexivity. Qed.

(** The surveillance loop inspects the outdated rooms in order, one per
    available nurse, as long as both remain. *)
Lemma surveiller_compte (maintenant : Instant) (l : list SalleAttente.t) :
  forall infs infs' l' acts,
  surveiller maintenant infs l = (infs', l', acts) ->
  List.length acts
  = Nat.min (compter (a_surveiller maintenant) l) (compter est_disponible infs)
  /\ Forall (fun a => est_inspection a = true) acts
  /\ (compter est_disponible infs' + List.length acts)%nat
     = compter est_disponible infs
  /\ (compter (a_surveiller maintenant) l' + List.length acts)%nat
     = compter (a_surveiller maintenant) l
  /\ map identite infs' = map identite infs.
Proof.
  induction l as [|s l IH]; intros infs infs' l' acts H; cbn [surveiller] in H.
  - injection H as <- <- <-. cbn. repeat split; auto.
  - rewrite (compter_cons _ s l).
    change (minutes 15 <=? maintenant - SalleAttente.derniere_surveillance s)
      with (a_surveiller maintenant s) in H.
    destruct (a_surveiller maintenant s) eqn:Es.
    + destruct (premier_disponible infs) as [inf|] eqn:Ei.
      * destruct (surveiller maintenant _ l) as [[i2 l2] a2] eqn:E.
        injection H as <- <- <-.
        apply IH in E as (E1 & E2 & E3 & E4 & E5).
        pose proof (modifier_compter
                      (fun i => Personnel.mk (Personnel.id i) (Personnel.nom i)
                                  (Personnel.type i) OCCUPE
                                  (Personnel.patient_en_charge i)
                                  (Some (maintenant + minutes 5)))
                      infs inf (fun _ => eq_refl) Ei) as M.
        rewrite modifier_identite in E5 by reflexivity.
        rewrite compter_cons.
        assert (P : a_surveiller maintenant
                      (SalleAttente.mk (SalleAttente.numero s)
                         (SalleAttente.capacite s) (SalleAttente.patients s)
                         maintenant) = false).
        { unfold a_surveiller. cbn [SalleAttente.derniere_surveillance].
          apply Z.leb_gt. pose proof (minutes_pos 15). lia. }
        rewrite P. cbn [List.length].
        split; [lia|]. split; [constructor; [reflexivity | exact E2]|].
        split; [lia|]. split; [lia | exact E5].
      * destruct (surveiller maintenant infs l) as [[i2 l2] a2] eqn:E.
        injection H as <- <- <-.
        apply IH in E as (E1 & E2 & E3 & E4 & E5).
        apply premier_disponible_compter in Ei.
        rewrite compter_cons, Es.
        split; [lia|]. split; [exact E2|].
        split; [lia|]. split; [lia | exact E5].
    + destruct (surveiller maintenant infs l) as [[i2 l2] a2] eqn:E.
      injection H as <- <- <-.
      apply IH in E as (E1 & E2 & E3 & E4 & E5).
      rewrite compter_cons, Es. repeat split; auto.
Qed.



Lemma compter_Forall {A : Type} (f : A -> bool) (l : list A) :
  Forall (fun a => f a = true) l -> compter f l = List.length l.
Proof.
  unfold compter. induction 1 as [|a l H F IH]; cbn; [reflexivity|].
  rewrite H. cbn. rewrite IH. reflexivity.
Qed.


Section ProprietesInspections.

Variable lower : string -> string.


End ProprietesInspections.


(** ** What a cycle leaves alone *)

Lemma liberer_identite (maintenant : Instant) (l : list Personnel.t) :
  map identite (map (liberer maintenant) l) = map identite l.
Proof.
  rewrite map_map. apply map_ext. intro p. unfold liberer.
  destruct (activite_finie maintenant p); reflexivity.
Qed.

Lemma tas_detache_dossier (r : Ref) (tas tas' : Tas) :
  tas_detache r tas tas' -> forall x, dossier (tas' x) = dossier (tas x).
Proof.
  intros [A B] x. destruct (Nat.eq_dec x r) as [->|Hx].
  - destruct B as [->| ->]; reflexivity.
  - rewrite A by assumption. reflexivity.
Qed.

Lemma transferer_patient_reste (r : Ref) (unite_nom : string)
  (s : AgentOrchestration) :
  let s' := fst (transferer_patient r unite_nom s) in
  regles (rag s') = regles (rag s)
  /\ patients_consultes s' = patients_consultes s
  /\ violations s' = violations s.
Proof.
  unfold transferer_patient.
  destruct (trouver_unite unite_nom (unites s)) as [u|]; [|cbn; tauto].
  destruct (negb (Unite.a_de_la_place u)); [cbn; tauto|].
  destruct (retirer_des_salles _ _ _). cbn. tauto.
Qed.

Lemma nouvelle_consultation_reste (horloge : nat -> Instant)
  (maintenant : Instant) (s : AgentOrchestration) :
  let s' := fst (nouvelle_consultation horloge maintenant s) in
  identite (docteur s') = identite (docteur s)
  /\ forall x, dossier (tas s' x) = dossier (tas s x).
Proof.
  unfold nouvelle_consultation.
  destruct (est_disponible (docteur s)); [|cbn; tauto].
  destruct (selectionner_prochain_patient horloge s) as [r|]; [|cbn; tauto].
  assert (T : forall x,
            dossier (maj (tas s) r (Patient.set_statut EN_CONSULTATION (tas s r)) x)
            = dossier (tas s x)).
  { intro x. unfold maj. destruct (Nat.eqb_spec x r) as [->|]; reflexivity. }
  cbn [fst]. destruct (contient _ _ _); [destruct (list_remove _ _ _)|];
    cbn; split; auto.
Qed.

Section ProprietesCadre.

Variable lower : string -> string.

(** X8: whatever a cycle does, it keeps the staff (the doctor, the nurses
    and the aides keep their identifier, name and type, in the same order),
    the rules of the RAG system and every patient's record apart from status
    and room, hence every patient's priority; it never adds to the list of
    consulted patients nor to the violations, even when it ends a
    consultation. *)
Theorem cycle_orchestration_cadre (horloge : nat -> Instant)
  (temps_virtuel : option Instant) (s s' : AgentOrchestration)
  (acts : list Action) :
  cycle_orchestration lower horloge temps_virtuel s = Ok (s', acts) ->
  identite (docteur s') = identite (docteur s)
  /\ map identite (infirmieres s') = map identite (infirmieres s)
  /\ map identite (aides_soignants s') = map identite (aides_soignants s)
  /\ regles (rag s') = regles (rag s)
  /\ patients_consultes s' = patients_consultes s
  /\ violations s' = violations s
  /\ (forall x, dossier (tas s' x) = dossier (tas s x))
  /\ (forall h x, Patient.priorite_effective h (tas s' x)
                  = Patient.priorite_effective h (tas s x)).
Proof.
  intro H. apply cycle_etapes in H as (s2 & a2 & E2 & -> & _).
  set (maintenant := match temps_virtuel with Some t => t | None => horloge 0%nat end) in *.
  set (s1 := gestion_personnel maintenant s) in *.
  assert (F2 : identite (docteur s2) = identite (docteur s)
               /\ map identite (infirmieres s2) = map identite (infirmieres s)
               /\ map identite (aides_soignants s2) = map identite (aides_soignants s)
               /\ regles (rag s2) = regles (rag s)
               /\ patients_consultes s2 = patients_consultes s
               /\ violations s2 = violations s
               /\ (forall x, dossier (tas s2 x) = dossier (tas s x))).
  { assert (F1 : identite (docteur s1) = identite (docteur s)
                 /\ map identite (infirmieres s1) = map identite (infirmieres s)
                 /\ map identite (aides_soignants s1) = map identite (aides_soignants s)
                 /\ regles (rag s1) = regles (rag s)
                 /\ patients_consultes s1 = patients_consultes s
                 /\ violations s1 = violations s
                 /\ (forall x, dossier (tas s1 x) = dossier (tas s x))).
    { subst s1. unfold gestion_personnel. cbn. rewrite !liberer_identite.
      repeat split; reflexivity. }
    apply fin_consultation_cas in E2
      as [(-> & _)|[(r & -> & _)|(r & aide & _ & _ & _ & -> & _)]];
      try exact F1.
    destruct F1 as (D & I & A & R & C & V & T).
    set (u := unite (_suggerer_unite_transfert lower (tas s1 r) s1)).
    set (sp := prise_en_charge maintenant r s1).
    destruct (transferer_patient_cadre r u sp) as (Td & Ti & Ta & _).
    destruct (transferer_patient_reste r u sp) as (Tr & Tc & Tv).
    pose proof (tas_detache_dossier _ _ _ (transferer_patient_tas r u sp)) as Tt.
    rewrite Td, Ti, Ta, Tr, Tc, Tv. subst sp. unfold prise_en_charge.
    cbn [docteur infirmieres aides_soignants rag patients_consultes violations
         set_tas set_aides_soignants set_docteur].
    rewrite modifier_identite by reflexivity.
    repeat split; auto.
    intro x. rewrite Tt. unfold prise_en_charge.
    cbn [tas set_tas set_aides_soignants set_docteur]. unfold maj.
    destruct (Nat.eqb_spec x r) as [->|]; [rewrite <- T|]; auto. }
  destruct F2 as (D & I & A & R & C & V & T).
  set (s3 := fst (surveillance_salles maintenant s2)).
  assert (F3 : identite (docteur s3) = identite (docteur s)
               /\ map identite (infirmieres s3) = map identite (infirmieres s)
               /\ map identite (aides_soignants s3) = map identite (aides_soignants s)
               /\ regles (rag s3) = regles (rag s)
               /\ patients_consultes s3 = patients_consultes s
               /\ violations s3 = violations s
               /\ (forall x, dossier (tas s3 x) = dossier (tas s x))).
  { destruct (surveillance_salles_cadre maintenant s2)
      as (Sr & Sd & Sa & _ & _ & Sc & _ & Sv & St & _).
    fold s3 in Sr, Sd, Sa, Sc, Sv, St. rewrite Sr, Sd, Sa, Sc, Sv, St.
    repeat split; auto.
    subst s3. unfold surveillance_salles.
    destruct (surveiller maintenant (infirmieres s2) (salles s2))
      as [[i3 l3] a3] eqn:E3.
    apply surveiller_compte in E3 as (_ & _ & _ & _ & E5).
    cbn. rewrite E5. exact I. }
  destruct F3 as (D3 & I3 & A3 & R3 & C3 & V3 & T3).
  destruct (nouvelle_consultation_cadre (fun i => horloge (S i)) maintenant s3)
    as (Nr & _ & Ni & Na & _ & Nc & _ & Nv & _).
  destruct (nouvelle_consultation_reste (fun i => horloge (S i)) maintenant s3)
    as (Nd & Nt).
  rewrite Nr, Ni, Na, Nc, Nv, Nd.
  assert (Dx : forall x,
            dossier (tas (fst (nouvelle_consultation (fun i => horloge (S i))
                                 maintenant s3)) x) = dossier (tas s x))
    by (intro x; rewrite Nt; apply T3).
  repeat split; auto.
  intros h x. specialize (Dx x). unfold dossier in Dx.
  injection Dx as _ _ _ Eg _ Eh.
  unfold Patient.priorite_effective, Patient.temps_attente_minutes.
  rewrite Eg, Eh. reflexivity.
Qed.

End ProprietesCadre.

Lemma cycle_orchestration_cadre_temoin :
  match cycle_orchestration ascii_lower (horloge_fixe 0) (Some (minutes 10))
          etat_unite_libre with
  | Ok (s', _) => patients_consultes s' = patients_consultes etat_unite_libre
  | Leve _ => False
  end.
Proof.
  destruct (cycle_orchestration ascii_lower (horloge_fixe 0) (Some (minutes 10))
              etat_unite_libre) as [[s' acts]|e] eqn:E.
  - exact (proj1 (proj2 (proj2 (proj2 (proj2
             (cycle_orchestration_cadre ascii_lower (horloge_fixe 0)
                (Some (minutes 10)) etat_unite_libre s' acts E)))))).
  - vm_compute in E. discriminate.
Defined.

(** ** The agent as it is built *)

Lemma enumerate_fst {A : Type} (l : list A) :
  map fst (enumerate l) = seq 0 (List.length l).
Proof.
  unfold enumerate. generalize 0%nat.
  induction l as [|a l IH]; intro n; cbn; [reflexivity|].
  rewrite IH. reflexivity.
Qed.

Lemma enumerate_snd {A : Type} (l : list A) : map snd (enumerate l) = l.
Proof.
  unfold enumerate. generalize 0%nat.
  induction l as [|a l IH]; intro n; cbn; [reflexivity|].
  rewrite IH. reflexivity.
Qed.

Lemma str_nat_inj (a b : nat) : str_nat a = str_nat b -> a = b.
Proof.
  unfold str_nat. intro H.
  apply (f_equal NilEmpty.uint_of_string) in H.
  rewrite !NilEmpty.usu in H. injection H as H.
  apply (f_equal Nat.of_uint) in H.
  rewrite !Unsigned.of_to in H. exact H.
Qed.

Lemma append_inj (p a b : string) : (p ++ a = p ++ b)%string -> a = b.
Proof.
  induction p as [|c p IH]; cbn; [auto|].
  intro H. injection H as H. auto.
Qed.

Lemma creer_equipe_id (prefixe : string) (l : list Configuration.Membre) :
  map Personnel.id (creer_equipe prefixe l)
  = map (fun i => (prefixe ++ str_nat (S i))%string) (seq 0 (List.length l)).
Proof.
  unfold creer_equipe. rewrite <- enumerate_fst, !map_map. reflexivity.
Qed.

Lemma creer_equipe_NoDup (prefixe : string) (l : list Configuration.Membre) :
  NoDup (map Personnel.id (creer_equipe prefixe l)).
Proof.
  rewrite creer_equipe_id. apply Finite.Injective_map_NoDup; [|apply seq_NoDup].
  intros a b H. apply append_inj, str_nat_inj in H. congruence.
Qed.

Lemma creer_equipe_prefixe (prefixe : string) (l : list Configuration.Membre)
  (x : string) :
  In x (map Personnel.id (creer_equipe prefixe l)) ->
  exists n, x = (prefixe ++ str_nat n)%string.
Proof.
  rewrite creer_equipe_id. intro H. apply in_map_iff in H as (i & <- & _).
  exists (S i). reflexivity.
Qed.

Lemma creer_equipe_disponible (prefixe : string) (l : list Configuration.Membre) :
  Forall (fun p => est_disponible p = true) (creer_equipe prefixe l).
Proof.
  unfold creer_equipe. apply Forall_forall. intros p H.
  apply in_map_iff in H as (im & <- & _). reflexivity.
Qed.

Lemma creer_salles_champs (horloge : nat -> Instant)
  (l : list Configuration.Salle) :
  map SalleAttente.numero (creer_salles horloge l) = map Configuration.numero l
  /\ map SalleAttente.capacite (creer_salles horloge l)
     = map Configuration.capacite l
  /\ Forall (fun sa => SalleAttente.patients sa = []) (creer_salles horloge l).
Proof.
  unfold creer_salles. rewrite !map_map.
  rewrite <- (enumerate_snd l) at 2 4. rewrite !map_map.
  repeat split; auto.
  apply Forall_forall. intros sa H.
  apply in_map_iff in H as (ic & <- & _). reflexivity.
Qed.

Lemma salles_vides_somme (l : list SalleAttente.t) :
  Forall (fun sa => SalleAttente.patients sa = []) l ->
  somme (map SalleAttente.len_patients l) = 0.
Proof.
  induction 1 as [|sa l Hp F IH]; cbn; [reflexivity|].
  unfold SalleAttente.len_patients at 1. rewrite Hp.
  unfold somme in IH. rewrite IH. reflexivity.
Qed.

Lemma creer_salles_bornees (horloge : nat -> Instant)
  (l : list Configuration.Salle) :
  Forall (fun c => 0 <= Configuration.capacite c) l ->
  salles_bornees (creer_salles horloge l).
Proof.
  intro H. unfold salles_bornees, creer_salles. apply Forall_forall.
  intros sa Hs. apply in_map_iff in Hs as ([i c] & <- & Hc).
  assert (In c l) as Hl.
  { rewrite <- (enumerate_snd l). apply in_map_iff. exists (i, c). auto. }
  rewrite Forall_forall in H. apply H in Hl. cbn. exact Hl.
Qed.

Lemma creer_unites_bornees (l : list Configuration.UniteTransfert) :
  Forall (fun c => 0 <= capacite_configuree c) l ->
  unites_bornees (creer_unites l).
Proof.
  unfold unites_bornees, creer_unites. intro H.
  induction H as [|c l Hc H IH]; cbn; constructor; auto.
Qed.

Lemma agent__init__champs (horloge : nat -> Instant) (cfg : Configuration.t)
  (rg : RAGSysteme.t) (tas : Tas) (s : AgentOrchestration) :
  agent__init__ horloge cfg rg tas = Some s ->
  salles s
  = creer_salles horloge (liste_ou_vide (Configuration.salles_attente cfg))
  /\ docteur s
     = Personnel.mk "docteur_1" "Dr. Urgences" "FIXE" DISPONIBLE None None
  /\ infirmieres s
     = creer_equipe "infirmiere_" (liste_ou_vide (Configuration.infirmieres cfg))
  /\ aides_soignants s
     = creer_equipe "aide_" (liste_ou_vide (Configuration.aides_soignants cfg))
  /\ unites s = creer_unites (Configuration.unites_transfert cfg).
Proof.
  unfold agent__init__, _initialiser_depuis_rag.
  destruct (Configuration.docteur cfg); [|discriminate].
  intros [= <-]. cbn. auto.
Qed.

Lemma unites_conservees_capacite (us us' : list Unite.t) :
  unites_conservees us us' ->
  map Unite.nom us' = map Unite.nom us
  /\ map Unite.capacite us' = map Unite.capacite us.
Proof.
  induction 1 as [|u u' us us' H F [IH1 IH2]]; cbn; [auto|].
  destruct H as (H1 & H2 & _). rewrite H1, H2, IH1, IH2. auto.
Qed.

Section ProprietesConstruction.

Variable lower : string -> string.

(** X16: an agent built from a configuration whose room and unit capacities
    are not negative starts within its capacities and stays so: after any
    sequence of admissions, consultation starts, transfers and cycles, no
    room and no unit holds more than its capacity, and rooms and units still
    have the numbers, names and capacities of the configuration (a unit's
    capacity being "capacite_initiale", else "capacite", else 10). *)
Theorem agent__init__bornes (horloge : nat -> Instant) (cfg : Configuration.t)
  (rg : RAGSysteme.t) (tas : Tas) (ops : list Operation)
  (s s' : AgentOrchestration) :
  Forall (fun c => 0 <= Configuration.capacite c)
    (liste_ou_vide (Configuration.salles_attente cfg)) ->
  Forall (fun c => 0 <= capacite_configuree c)
    (Configuration.unites_transfert cfg) ->
  agent__init__ horloge cfg rg tas = Some s ->
  executer lower ops s = Ok s' ->
  salles_bornees (salles s') /\ unites_bornees (unites s')
  /\ occupation_actuelle s = 0
  /\ map SalleAttente.numero (salles s')
     = map Configuration.numero (liste_ou_vide (Configuration.salles_attente cfg))
  /\ map SalleAttente.capacite (salles s')
     = map Configuration.capacite
         (liste_ou_vide (Configuration.salles_attente cfg))
  /\ map Unite.nom (unites s')
     = map Configuration.unite_nom (Configuration.unites_transfert cfg)
  /\ map Unite.capacite (unites s')
     = map capacite_configuree (Configuration.unites_transfert cfg).
Proof.
  intros Hs Hu Hi He.
  apply agent__init__champs in Hi as (Es & _ & _ & _ & Eu).
  apply executer_invariants in He as (N & C & Bs & Uc & Bu).
  destruct (creer_salles_champs horloge
              (liste_ou_vide (Configuration.salles_attente cfg)))
    as (Cn & Cc & Cp).
  apply unites_conservees_capacite in Uc as [Un Uk].
  rewrite N, C, Un, Uk, Es, Eu, Cn, Cc in *.
  split; [apply Bs, creer_salles_bornees, Hs|].
  split; [apply Bu, creer_unites_bornees, Hu|].
  split.
  { unfold occupation_actuelle. rewrite Es. apply salles_vides_somme, Cp. }
  unfold creer_unites. rewrite !map_map. auto.
Qed.

End ProprietesConstruction.

Lemma agent__init__bornes_temoin :
  match agent__init__ (horloge_fixe 0) configuration_ex rag_ex tas_egalite with
  | Some s =>
      match executer ascii_lower operations_ex s with
      | Ok s' => salles_bornees (salles s') /\ unites_bornees (unites s')
      | Leve _ => False
      end
  | None => False
  end.
Proof.
  destruct (agent__init__ (horloge_fixe 0) configuration_ex rag_ex tas_egalite)
    as [s|] eqn:Ei; [|vm_compute in Ei; discriminate].
  destruct (executer ascii_lower operations_ex s) as [s'|e] eqn:Ee.
  - destruct (agent__init__bornes ascii_lower (horloge_fixe 0) configuration_ex
                rag_ex tas_egalite operations_ex s s') as (B1 & B2 & _); auto.
    + repeat constructor; vm_compute; discriminate.
    + repeat constructor; vm_compute; discriminate.
  - vm_compute in Ei. injection Ei as <-. vm_compute in Ee. discriminate.
Defined.

(** X17: every member of the staff of a newly built agent is available and
    the staff identifiers ("docteur_1", "infirmiere_1", "infirmiere_2", ...,
    "aide_1", ...) are pairwise distinct, however long the configured
    lists are. *)
Theorem agent__init__personnel (horloge : nat -> Instant)
  (cfg : Configuration.t) (rg : RAGSysteme.t) (tas : Tas)
  (s : AgentOrchestration) :
  agent__init__ horloge cfg rg tas = Some s ->
  let equipe := docteur s :: infirmieres s ++ aides_soignants s in
  NoDup (map Personnel.id equipe)
  /\ Forall (fun p => est_disponible p = true) equipe
  /\ List.length (infirmieres s)
     = List.length (liste_ou_vide (Configuration.infirmieres cfg))
  /\ List.length (aides_soignants s)
     = List.length (liste_ou_vide (Configuration.aides_soignants cfg)).
Proof.
  intro Hi. apply agent__init__champs in Hi as (_ & -> & -> & -> & _).
  cbv zeta. split; [|split; [|split]].
  - cbn [map Personnel.id]. rewrite map_app. constructor.
    + intro H. apply in_app_or in H as [H|H];
        apply creer_equipe_prefixe in H as (n & H); discriminate.
    + apply NoDup_app; try apply creer_equipe_NoDup.
      intros x H1 H2.
      apply creer_equipe_prefixe in H1 as (n & ->).
      apply creer_equipe_prefixe in H2 as (m & H). discriminate.
  - constructor; [reflexivity|].
    apply Forall_app. split; apply creer_equipe_disponible.
  - unfold creer_equipe, enumerate.
    rewrite length_map, length_combine, length_seq. lia.
  - unfold creer_equipe, enumerate.
    rewrite length_map, length_combine, length_seq. lia.
Qed.

Lemma agent__init__personnel_temoin :
  match agent__init__ (horloge_fixe 0) configuration_ex rag_ex tas_egalite with
  | Some s =>
      NoDup (map Personnel.id (docteur s :: infirmieres s ++ aides_soignants s))
  | None => False
  end.
Proof.
  destruct (agent__init__ (horloge_fixe 0) configuration_ex rag_ex tas_egalite)
    as [s|] eqn:Ei; [|vm_compute in Ei; discriminate].
  exact (proj1 (agent__init__personnel (horloge_fixe 0) configuration_ex rag_ex
                  tas_egalite s Ei)).
Defined.

(** ** Admissions in bulk *)

Lemma accueillir_patient_id (horloge : Instant) (r : Ref)
  (s : AgentOrchestration) (x : Ref) :
  Patient.id (tas (fst (accueillir_patient horloge r s)) x)
  = Patient.id (tas s x).
Proof.
  unfold accueillir_patient.
  destruct (placer (tas s) r (salles s)) as [[[l t] n]|] eqn:P; cbn; [|reflexivity].
  apply placer_Some in P as (l1 & sa & l2 & _ & _ & _ & _ & _ & ->).
  unfold maj. destruct (Nat.eqb_spec x r) as [->|]; reflexivity.
Qed.

(** The loop admits patients as long as places remain and refuses the rest. *)
Lemma boucle_masse_spec (tirages : nat -> Tirage) (n : nat) :
  forall i s, salles_bornees (salles s) ->
  let libre := capacite_totale s - occupation_actuelle s in
  let k := Z.to_nat (Z.min (Z.of_nat n) libre) in
  let ident := fun j => Patient.id (patient_masse j (tirages j)) in
  let s' := fst (fst (boucle_masse tirages i n s)) in
  snd (fst (boucle_masse tirages i n s)) = map ident (seq i k)
  /\ snd (boucle_masse tirages i n s) = map ident (seq (i + k) (n - k))
  /\ occupation_actuelle s' = occupation_actuelle s + Z.of_nat k
  /\ capacite_totale s' = capacite_totale s
  /\ salles_bornees (salles s').
Proof.
  unfold capacite_totale, occupation_actuelle.
  induction n as [|n IH]; intros i s B; cbv zeta.
  - cbn [boucle_masse fst snd].
    apply salles_bornees_somme in B as B'.
    replace (Z.to_nat _) with 0%nat by lia. cbn. repeat split; auto; lia.
  - cbn [boucle_masse].
    set (t := tirages i).
    set (s0 := set_tas (maj (tas s) (objet t) (patient_masse i t)) s).
    pose proof (accueillir_patient_effets (instant_accueil t) (objet t) s0) as A.
    pose proof (accueillir_patient_id (instant_accueil t) (objet t) s0 (objet t)) as I.
    destruct (accueillir_patient (instant_accueil t) (objet t) s0) as [s1 res].
    cbn [fst snd] in A, I.
    replace (Patient.id (tas s1 (objet t)))
      with (Patient.id (patient_masse i (tirages i)))
      by (rewrite I; subst s0; cbn [tas set_tas]; rewrite maj_meme; reflexivity).
    specialize (IH (S i) s1).
    destruct (boucle_masse tirages (S i) n s1) as [[s2 aj] re].
    change (salles s0) with (salles s) in A.
    destruct (placer (tas s0) (objet t) (salles s)) as [[[l' t'] n']|] eqn:P.
    + destruct A as (-> & A2 & _).
      apply placer_occupation in P as (Pc & Po & Pb).
      rewrite A2 in IH. specialize (IH (Pb B)). cbv zeta in IH.
      cbn [fst snd] in *. rewrite Pc, Po in IH.
      destruct IH as (E1 & E2 & E3 & E4 & E5).
      apply Pb, salles_bornees_somme in B as B'. rewrite Pc, Po in B'.
      set (c := somme (map SalleAttente.capacite (salles s))) in *.
      set (o := somme (map SalleAttente.len_patients (salles s))) in *.
      replace (Z.to_nat (Z.min (Z.of_nat (S n)) (c - o)))
        with (S (Z.to_nat (Z.min (Z.of_nat n) (c - (o + 1))))) by lia.
      set (k := Z.to_nat (Z.min (Z.of_nat n) (c - (o + 1)))) in *.
      cbn [seq map]. rewrite E1, E2, E3, E4.
      replace (i + S k)%nat with (S i + k)%nat by lia.
      replace (S n - S k)%nat with (n - k)%nat by lia.
      repeat split; auto; lia.
    + destruct A as (-> & A2 & _).
      apply placer_None in P. pose proof (sans_place_complet _ B P) as Full.
      rewrite A2 in IH. specialize (IH B). cbv zeta in IH.
      cbn [fst snd] in *.
      destruct IH as (E1 & E2 & E3 & E4 & E5).
      set (c := somme (map SalleAttente.capacite (salles s))) in *.
      set (o := somme (map SalleAttente.len_patients (salles s))) in *.
      replace (Z.to_nat (Z.min (Z.of_nat (S n)) (c - o))) with 0%nat by lia.
      replace (Z.to_nat (Z.min (Z.of_nat n) (c - o))) with 0%nat in * by lia.
      rewrite E1, E2, E3, E4. rewrite !Nat.add_0_r, !Nat.sub_0_r.
      cbn [seq map]. repeat split; auto.
Qed.

(** X18: on rooms within their capacity, [ajouter_patients_masse(nombre)]
    admits the first [min(nombre, free places)] generated patients and
    refuses all the others, whatever is drawn: the two lists of identifiers
    are "PMASSE001", "PMASSE002", ... in order, split at that index, the two
    counts add up to [nombre] and the occupancy grows by the number of
    admissions. *)
Theorem ajouter_patients_masse_spec (tirages : nat -> Tirage) (nombre : Z)
  (s : AgentOrchestration) :
  salles_bornees (salles s) ->
  0 <= nombre ->
  let s' := fst (ajouter_patients_masse tirages nombre s) in
  let res := snd (ajouter_patients_masse tirages nombre s) in
  let k := Z.min nombre (capacite_totale s - occupation_actuelle s) in
  let ident := fun j => ("PMASSE" ++ format_03d (S j))%string in
  total_generes res = nombre
  /\ ajoutes res = k
  /\ refuses res = nombre - k
  /\ patients_ajoutes res = map ident (seq 0 (Z.to_nat k))
  /\ patients_refuses res
     = map ident (seq (Z.to_nat k) (Z.to_nat (nombre - k)))
  /\ occupation_actuelle s' = occupation_actuelle s + k
  /\ salles_bornees (salles s').
Proof.
  intros B Hn. cbv zeta. unfold ajouter_patients_masse.
  pose proof (boucle_masse_spec tirages (Z.to_nat nombre) 0%nat s B) as H.
  cbv zeta in H.
  destruct (boucle_masse tirages 0 (Z.to_nat nombre) s) as [[s' aj] re].
  cbn [fst snd total_generes ajoutes refuses patients_ajoutes patients_refuses] in *.
  destruct H as (E1 & E2 & E3 & E4 & E5).
  pose proof (salles_bornees_somme _ B) as B'.
  fold (capacite_totale s) in B'. fold (occupation_actuelle s) in B'.
  rewrite Z2Nat.id in * by assumption.
  set (k := Z.min nombre (capacite_totale s - occupation_actuelle s)) in *.
  rewrite E1, E2, E3, !length_map, !length_seq.
  replace (Z.to_nat nombre - Z.to_nat k)%nat with (Z.to_nat (nombre - k)) by lia.
  repeat split; auto; lia.
Qed.

Lemma ajouter_patients_masse_spec_temoin :
  patients_refuses (snd (ajouter_patients_masse tirages_ex 5 etat_trois_places))
  = ["PMASSE004"; "PMASSE005"].
Proof.
  refine (proj1 (proj2 (proj2 (proj2 (proj2
            (ajouter_patients_masse_spec tirages_ex 5 etat_trois_places _ _)))))).
  - repeat constructor; vm_compute; discriminate.
  - lia.
Defined.

(** X19: on rooms within their capacity, [creer_scenario_saturation] fills
    the rooms exactly: it admits as many patients as there were free places,
    refuses exactly five, and leaves every room full. *)
Theorem creer_scenario_saturation_spec (tirages : nat -> Tirage)
  (s : AgentOrchestration) :
  salles_bornees (salles s) ->
  let s' := fst (creer_scenario_saturation tirages s) in
  let res := snd (creer_scenario_saturation tirages s) in
  scenario_patients_ajoutes res = capacite_totale s - occupation_actuelle s
  /\ scenario_patients_refuses res = 5
  /\ occupation_actuelle s' = capacite_totale s'
  /\ capacite_totale s' = capacite_totale s
  /\ Forall (fun sa => SalleAttente.est_pleine sa = true) (salles s').
Proof.
  intro B. cbv zeta. unfold creer_scenario_saturation, ajouter_patients_masse.
  pose proof (salles_bornees_somme _ B) as B'.
  fold (capacite_totale s) in B'. fold (occupation_actuelle s) in B'.
  set (libre := capacite_totale s - occupation_actuelle s) in *.
  pose proof (boucle_masse_spec tirages (Z.to_nat (libre + 5)) 0%nat s B) as H.
  cbv zeta in H. fold libre in H.
  destruct (boucle_masse tirages 0 (Z.to_nat (libre + 5)) s) as [[s' aj] re].
  cbn [fst snd scenario_patients_ajoutes scenario_patients_refuses
       ajoutes refuses] in *.
  destruct H as (E1 & E2 & E3 & E4 & E5).
  rewrite Z2Nat.id in * by lia.
  replace (Z.min (libre + 5) libre) with libre in * by lia.
  rewrite E1, E2, !length_map, !length_seq.
  assert (Full : occupation_actuelle s' = capacite_totale s') by lia.
  repeat split; auto; try lia.
  clear - E5 Full. unfold occupation_actuelle, capacite_totale in Full.
  induction E5 as [|sa l H F IH]; [constructor|].
  pose proof (salles_bornees_somme _ F) as B'.
  cbn [map] in Full. unfold somme in Full, B', IH. cbn [fold_right] in Full.
  constructor.
  - unfold SalleAttente.est_pleine. apply Z.leb_le. lia.
  - apply IH. lia.
Qed.

Lemma creer_scenario_saturation_spec_temoin :
  scenario_patients_refuses
    (snd (creer_scenario_saturation tirages_ex etat_trois_places)) = 5.
Proof.
  refine (proj1 (proj2
            (creer_scenario_saturation_spec tirages_ex etat_trois_places _))).
  repeat constructor; vm_compute; discriminate.
Defined.

(** ** Access to the rules *)

Lemma split_slash_non_vide (s : string) : split_slash s <> [].
Proof.
  destruct s as [|c s]; cbn; [discriminate|].
  destruct (Ascii.eqb c "/"); [discriminate|].
  destruct (split_slash s); discriminate.
Qed.

Lemma split_slash_app (p q : string) :
  split_slash (p ++ String "/" q) = split_slash p ++ split_slash q.
Proof.
  induction p as [|c p IH]; cbn; [reflexivity|].
  destruct (Ascii.eqb c "/"); rewrite IH; [reflexivity|].
  pose proof (split_slash_non_vide p).
  destruct (split_slash p); [contradiction | reflexivity].
Qed.



Lemma valeur_In (k : string) (d : list (string * JSON)) (v : JSON) :
  valeur k d = Some v -> In (k, v) d.
Proof.
  induction d as [|[k' v'] d IH]; cbn; [discriminate|].
  destruct (String.eqb_spec k' k) as [->|]; [intros [= ->]|]; auto.
Qed.

Lemma valeur_app_absent (k : string) (d1 d2 : list (string * JSON)) :
  ~ In k (map fst d1) -> valeur k (d1 ++ d2) = valeur k d2.
Proof.
  induction d1 as [|[k' v'] d1 IH]; cbn; [reflexivity|].
  intro H. destruct (String.eqb_spec k' k) as [->|]; [tauto | apply IH; tauto].
Qed.

Lemma premiere_section_Some (cle : string) (regles : list (string * JSON))
  (v : JSON) :
  premiere_section cle regles = Some v ->
  exists r1 f d r2,
    regles = r1 ++ (f, JDict d) :: r2
    /\ premiere_section cle r1 = None
    /\ valeur cle d = Some v.
Proof.
  induction regles as [|[f x] regles IH]; cbn; [discriminate|].
  assert (R : premiere_section cle regles = Some v ->
              premiere_section cle [(f, x)] = None ->
              exists r1 f' d r2,
                (f, x) :: regles = r1 ++ (f', JDict d) :: r2
                /\ premiere_section cle r1 = None /\ valeur cle d = Some v).
  { intros H N. apply IH in H as (r1 & f' & d & r2 & -> & H1 & H2).
    exists ((f, x) :: r1), f', d, r2. repeat split; auto.
    cbn in *. destruct x; auto. destruct (valeur cle d0); auto; discriminate. }
  destruct x; try (intro H; apply R; [exact H | reflexivity]).
  destruct (valeur cle d) as [w|] eqn:E.
  - intros [= ->]. exists [], f, d, regles. auto.
  - intro H. apply R; [exact H|]. cbn. rewrite E. reflexivity.
Qed.

Lemma premiere_section_None (cle : string) (regles : list (string * JSON)) :
  premiere_section cle regles = None ->
  forall f d, In (f, JDict d) regles -> valeur cle d = None.
Proof.
  induction regles as [|[f x] regles IH]; cbn; [contradiction|].
  intros H f' d' [E|I].
  - injection E as -> ->. destruct (valeur cle d'); [discriminate | reflexivity].
  - destruct x; try (eapply IH; eauto; fail).
    destruct (valeur cle d); [discriminate|]. eapply IH; eauto.
Qed.

Lemma get_section_fichier (f cle : string) (regles : list (string * JSON)) :
  sans_slash f -> sans_slash cle ->
  get_section (f ++ String "/" cle) regles
  = match valeur f regles with
    | Some (JDict d) =>
        match valeur cle d with Some v => v | None => JNull end
    | _ => JNull
    end.
Proof.
  intros Hf Hc. unfold get_section. rewrite split_slash_app, Hf, Hc. cbn.
  destruct (valeur f regles) as [[]|]; reflexivity.
Qed.


(** X21: an accessor such as [get_regles_priorite] returns the section of the
    first loaded file that is a dict holding the key, which is what
    [get_section("<file>/<key>")] returns for that file; when no file holds
    the key the accessor returns an empty dict and [get_section] returns
    [None] for every file. File names are distinct and, like the key, hold
    no '/'. *)
Theorem section_ou_vide_spec (cle : string) (regles : list (string * JSON)) :
  NoDup (map fst regles) ->
  Forall sans_slash (map fst regles) ->
  sans_slash cle ->
  (exists r1 f d r2,
     regles = r1 ++ (f, JDict d) :: r2
     /\ (forall f' d', In (f', JDict d') r1 -> valeur cle d' = None)
     /\ section_ou_vide cle regles = get_section (f ++ String "/" cle) regles
     /\ valeur cle d = Some (section_ou_vide cle regles))
  \/ (section_ou_vide cle regles = JDict []
      /\ forall f, In f (map fst regles) ->
                   get_section (f ++ String "/" cle) regles = JNull).
Proof.
  intros N S Hc. unfold section_ou_vide.
  destruct (premiere_section cle regles) as [v|] eqn:E.
  - left. apply premiere_section_Some in E as (r1 & f & d & r2 & -> & E1 & E2).
    exists r1, f, d, r2. split; [reflexivity|].
    split; [apply premiere_section_None, E1|].
    split; [|exact E2].
    rewrite map_app in N, S. cbn in N, S.
    apply NoDup_remove_2 in N. apply Forall_app in S as [_ S].
    apply Forall_cons_iff in S as [S _].
    rewrite get_section_fichier by assumption.
    rewrite valeur_app_absent by (intro H; apply N, in_or_app; auto).
    cbn. rewrite String.eqb_refl, E2. reflexivity.
  - right. split; [reflexivity|]. intros f I.
    rewrite Forall_forall in S.
    rewrite get_section_fichier by auto.
    destruct (valeur f regles) as [[]|] eqn:V; try reflexivity.
    apply valeur_In in V.
    rewrite (premiere_section_None _ _ E _ _ V). reflexivity.
Qed.

Lemma section_ou_vide_spec_temoin :
  get_regles_priorite regles_ex
  = get_section "regles_orchestration.json/regles_priorite" regles_ex.
Proof.
  destruct (section_ou_vide_spec "regles_priorite" regles_ex)
    as [(r1 & f & d & r2 & E & _ & H & _)|[H _]].
  - repeat constructor; cbn; intuition discriminate.
  - repeat constructor.
  - reflexivity.
  - reflexivity.
  - vm_compute in H. discriminate.
Defined.

(** X22: [get_unites_transfert] raises AttributeError exactly when the first
    loaded file that is a dict holding "unites_transfert" holds something
    other than a dict under that key; files loaded later are not looked at.
    Otherwise it returns that dict's "unites", or an empty list when the key
    "unites" or the section is missing. *)
Theorem get_unites_transfert_spec (regles : list (string * JSON)) :
  match get_unites_transfert regles with
  | Leve e =>
      e = AttributeError
      /\ exists r1 f d r2 v,
           regles = r1 ++ (f, JDict d) :: r2
           /\ premiere_section "unites_transfert" r1 = None
           /\ valeur "unites_transfert" d = Some v
           /\ forall d', v <> JDict d'
  | Ok u =>
      (premiere_section "unites_transfert" regles = None /\ u = JListe [])
      \/ exists r1 f d r2 d',
           regles = r1 ++ (f, JDict d) :: r2
           /\ premiere_section "unites_transfert" r1 = None
           /\ valeur "unites_transfert" d = Some (JDict d')
           /\ u = match valeur "unites" d' with
                  | Some v => v
                  | None => JListe []
                  end
  end.
Proof.
  unfold get_unites_transfert.
  destruct (premiere_section "unites_transfert" regles) as [v|] eqn:E;
    [|left; auto].
  apply premiere_section_Some in E as (r1 & f & d & r2 & -> & E1 & E2).
  destruct v;
    try (split; [reflexivity|]; eexists r1, f, d, r2, _;
         repeat split; eauto; discriminate).
  right. exists r1, f, d, r2, d0. auto.
Qed.

(** ** The log files *)

Lemma tranche_depuis_suffixe {A : Type} (debut : Z) (l : list A) :
  exists avant, l = avant ++ tranche_depuis debut l.
Proof.
  unfold tranche_depuis. eexists. symmetry. apply firstn_skipn.
Qed.

Lemma tranche_depuis_derniers {A : Type} (limit : Z) (l : list A) :
  0 < limit ->
  Z.of_nat (List.length (tranche_depuis (- limit) l))
  = Z.min limit (Z.of_nat (List.length l)).
Proof.
  intro H. unfold tranche_depuis.
  replace (- limit <? 0) with true by (symmetry; apply Z.ltb_lt; lia).
  rewrite length_skipn. lia.
Qed.

Section ProprietesJournal.

Variable strftime_date : Instant -> string.
Variable log_file : string -> string.

(** X23: [charger_logs] returns the [limit] most recent entries of the file
    (all of them when the file holds fewer) for [limit >= 1]; with
    [limit = 0] it returns every entry of the file, not none; with a
    negative [limit] it drops the [-limit] oldest entries; without a file
    it returns an empty list. *)
Theorem charger_logs_limit (maintenant : Instant) (date : option string)
  (limit : Z) (fs : Journal.Fichiers) :
  let d := match date with Some d => d | None => strftime_date maintenant end in
  let res := Journal.charger_logs strftime_date log_file maintenant date limit fs in
  match fs (log_file d) with
  | None => res = []
  | Some logs =>
      (exists avant, logs = avant ++ res)
      /\ (0 < limit ->
          Z.of_nat (List.length res) = Z.min limit (Z.of_nat (List.length logs)))
      /\ (limit = 0 -> res = logs)
      /\ (limit < 0 -> res = skipn (Z.to_nat (- limit)) logs)
  end.
Proof.
  cbv zeta. unfold Journal.charger_logs.
  destruct (fs (log_file _)) as [logs|]; [|reflexivity].
  split; [apply tranche_depuis_suffixe|].
  split; [apply tranche_depuis_derniers|].
  split.
  - intros ->. unfold tranche_depuis. cbn [Z.opp Z.ltb Z.compare].
    rewrite Z.min_l by lia. reflexivity.
  - intro H. unfold tranche_depuis.
    replace (- limit <? 0) with false by (symmetry; apply Z.ltb_ge; lia).
    destruct (Z.min_spec (- limit) (Z.of_nat (List.length logs)))
      as [[_ ->]|[L ->]]; [reflexivity|].
    rewrite Nat2Z.id, !skipn_all2; auto; lia.
Qed.

(** X24: an event written by [enregistrer_log] is the last entry
    [charger_logs] returns for the date of the writing, for any
    [limit >= 1]; with a [limit] above the size of the file the entries
    already there come back before it, in order. The entry carries the
    instant, the type and the data given, and an empty dict when no metrics
    are given. *)
Theorem enregistrer_puis_charger (maintenant apres : Instant)
  (type_evenement : string) (donnees : JSON)
  (metriques : option (list (string * JSON))) (limit : Z)
  (fs : Journal.Fichiers) :
  0 < limit ->
  let date := strftime_date maintenant in
  let fs' := fst (Journal.enregistrer_log strftime_date log_file maintenant
                    type_evenement donnees metriques fs) in
  let entree :=
    Journal.mkEntree maintenant type_evenement donnees
      (JDict (match metriques with Some m => m | None => [] end)) in
  let anciens := match fs (log_file date) with Some l => l | None => [] end in
  let res := Journal.charger_logs strftime_date log_file apres (Some date)
               limit fs' in
  (exists debut, res = debut ++ [entree])
  /\ (Z.of_nat (List.length anciens) < limit -> res = anciens ++ [entree])
  /\ snd (Journal.enregistrer_log strftime_date log_file maintenant
            type_evenement donnees metriques fs) = log_file date.
Proof.
  intro H. cbv zeta. unfold Journal.charger_logs, Journal.enregistrer_log.
  cbn [fst snd]. unfold Journal.ecrire. rewrite String.eqb_refl.
  set (anciens := match fs (log_file (strftime_date maintenant)) with
                  | Some l => l | None => [] end).
  set (e := Journal.mkEntree _ _ _ _).
  unfold tranche_depuis.
  replace (- limit <? 0) with true by (symmetry; apply Z.ltb_lt; lia).
  rewrite length_app. cbn [List.length].
  split; [|split; [|reflexivity]].
  - destruct (Z.max_spec (- limit + Z.of_nat (List.length anciens + 1)) 0)
      as [[L ->]|[L ->]].
    + exists anciens. reflexivity.
    + rewrite skipn_app.
      set (k := Z.to_nat (- limit + Z.of_nat (List.length anciens + 1))).
      replace (k - List.length anciens)%nat with 0%nat by lia.
      eexists. reflexivity.
  - intro L. rewrite Z.max_r by lia. reflexivity.
Qed.

End ProprietesJournal.

Lemma enregistrer_puis_charger_temoin :
  Journal.charger_logs date_ex log_file_ex 0 (Some "2024-01-01") 2
    (fst (Journal.enregistrer_log date_ex log_file_ex 4 "PATIENT_ACCUEILLI"
            (JDict [("patient_id", JChaine "P1")]) None fichiers_ex))
  = [entree_ex 3; entree_ex 4].
Proof.
  destruct (enregistrer_puis_charger date_ex log_file_ex 4 0 "PATIENT_ACCUEILLI"
              (JDict [("patient_id", JChaine "P1")]) None 2 fichiers_ex)
    as ((debut & E) & _); [lia|].
  reflexivity.
Defined.

(** ** The simulation tick *)

Lemma horloge_virtuelle_difference (mur mur' k n : Z) :
  mur / minutes 1440 = mur' / minutes 1440 ->
  horloge_virtuelle mur' (k + n) - horloge_virtuelle mur k
  = minutes n + (mur' mod minutes 1 - mur mod minutes 1).
Proof.
  unfold horloge_virtuelle, replace_8h, minutes. intro H.
  pose proof (Z.div_mod mur (1440 * 60000000) ltac:(lia)) as D.
  pose proof (Z.div_mod mur' (1440 * 60000000) ltac:(lia)) as D'.
  rewrite H in D. lia.
Qed.

(** X25: within one day, the virtual clocks of two ticks that are [n]
    simulated minutes apart differ by [n] minutes give or take the seconds
    of the wall clock, which [replace(hour=8, minute=0)] keeps: by more than
    [n - 1] and less than [n + 1] minutes. The virtual clock therefore
    increases from one tick to the next. *)
Theorem horloge_virtuelle_ecart (mur mur' k n : Z) :
  mur / minutes 1440 = mur' / minutes 1440 ->
  minutes (n - 1)
  < horloge_virtuelle mur' (k + n) - horloge_virtuelle mur k
  < minutes (n + 1).
Proof.
  intro H. rewrite (horloge_virtuelle_difference _ _ _ _ H).
  pose proof (Z.mod_pos_bound mur (minutes 1) (minutes_pos 1 ltac:(lia))).
  pose proof (Z.mod_pos_bound mur' (minutes 1) (minutes_pos 1 ltac:(lia))).
  unfold minutes in *. lia.
Qed.

Lemma horloge_virtuelle_ecart_temoin :
  minutes 4
  < horloge_virtuelle 59000000 (3 + 5) - horloge_virtuelle 12000000 3
  < minutes 6.
Proof.
  exact (horloge_virtuelle_ecart 12000000 59000000 3 5 eq_refl).
Defined.

Section ProprietesSimulation.

Variable lower : string -> string.

(** A tick made while the doctor's consultation is not over leaves the
    doctor alone and logs nothing but room inspections. *)
Lemma cycle_consultation_en_cours (horloge : nat -> Instant)
  (maintenant fin : Instant) (s : AgentOrchestration) :
  Personnel.statut (docteur s) = OCCUPE ->
  Personnel.fin_activite (docteur s) = Some fin ->
  maintenant < fin ->
  exists s' acts,
    cycle_orchestration lower horloge (Some maintenant) s = Ok (s', acts)
    /\ docteur s' = docteur s
    /\ compter est_inspection acts = List.length acts.
Proof.
  intros Hs Hf Hlt. unfold cycle_orchestration.
  assert (F : fin_consultation lower maintenant (gestion_personnel maintenant s)
              = Ok (gestion_personnel maintenant s, [])).
  { unfold fin_consultation. cbn [gestion_personnel docteur set_aides_soignants
                                   set_infirmieres].
    rewrite Hs, Hf. cbn [StatutPersonnel_eqb].
    replace (fin <=? maintenant) with false by (symmetry; apply Z.leb_gt; lia).
    reflexivity. }
  rewrite F.
  set (s1 := gestion_personnel maintenant s).
  destruct (surveillance_salles_cadre maintenant s1)
    as (_ & Sd & _ & _ & _ & _ & _ & _ & _ & _ & Sa).
  destruct (surveillance_salles maintenant s1) as [s3 a3]. cbn [fst snd] in Sd, Sa.
  assert (D3 : docteur s3 = docteur s) by (rewrite Sd; reflexivity).
  unfold nouvelle_consultation, est_disponible. rewrite D3, Hs.
  cbn [StatutPersonnel_eqb]. eexists _, _. split; [reflexivity|].
  split; [exact D3|]. cbn [app]. rewrite app_nil_r.
  apply compter_Forall. eapply Forall_impl; [|exact Sa].
  intros a (n & z & ->). reflexivity.
Qed.

(** X26: in the simulation a consultation keeps the doctor for five or six
    ticks. When the tick of simulated minute [k] gave the doctor a
    consultation (it ends 5 minutes after that tick's virtual clock), a tick
    of the same day at simulated minute [k + n] with [n <= 4] leaves the
    doctor with the patient and logs inspections only; with [n >= 6] the
    consultation is over for that tick, which logs, at its head and under
    the minute [k + n + 1], either the transport of the patient or the wait
    for a transport. *)
Theorem tick_simulation_consultation (horloge : nat -> Instant)
  (ss : Session) (mur k : Z) (r : Ref) :
  let d := docteur (agent ss) in
  let n := temps_simule ss - k in
  Personnel.statut d = OCCUPE ->
  Personnel.patient_en_charge d = Some r ->
  Personnel.fin_activite d = Some (horloge_virtuelle mur k + minutes 5) ->
  mur / minutes 1440 = horloge 0%nat / minutes 1440 ->
  (n <= 4 ->
   exists ss',
     tick_simulation lower horloge ss = Ok ss'
     /\ docteur (agent ss') = d
     /\ temps_simule ss' = temps_simule ss + 1
     /\ exists nouveaux,
          events_log ss' = events_log ss ++ nouveaux
          /\ Forall (fun e => fst e = temps_simule ss + 1
                              /\ est_inspection (snd e) = true) nouveaux)
  /\ (6 <= n ->
      exists ss' a suite,
        tick_simulation lower horloge ss = Ok ss'
        /\ events_log ss' = events_log ss ++ (temps_simule ss + 1, a) :: suite
        /\ (a = ActAttenteTransport (Patient.id (tas (agent ss) r))
            \/ exists aide unite_nom,
                 a = ActTransport aide (Patient.id (tas (agent ss) r)) unite_nom)).
Proof.
  cbv zeta. intros Hs Hp Hf Hj.
  pose proof (horloge_virtuelle_difference mur (horloge 0%nat) k
                (temps_simule ss - k) Hj) as E.
  replace (k + (temps_simule ss - k)) with (temps_simule ss) in E by lia.
  pose proof (Z.mod_pos_bound mur (minutes 1) (minutes_pos 1 ltac:(lia))) as M1.
  pose proof (Z.mod_pos_bound (horloge 0%nat) (minutes 1)
                (minutes_pos 1 ltac:(lia))) as M2.
  set (hv := horloge_virtuelle (horloge 0%nat) (temps_simule ss)) in *.
  split; intro Hn.
  - destruct (cycle_consultation_en_cours (fun i => horloge (S i)) hv
                (horloge_virtuelle mur k + minutes 5) (agent ss) Hs Hf)
      as (s' & acts & C & D & I).
    { unfold minutes in *. lia. }
    unfold tick_simulation. fold hv. rewrite C.
    eexists. split; [reflexivity|]. cbn [agent temps_simule events_log].
    split; [exact D|]. split; [reflexivity|].
    eexists. split; [reflexivity|].
    apply Forall_forall. intros e He. apply in_map_iff in He as (a & <- & Ha).
    split; [reflexivity|]. cbn [snd].
    clear - I Ha. unfold compter in I.
    induction acts as [|b acts IH]; [contradiction|]. cbn in I.
    pose proof (filter_length_le est_inspection acts) as L.
    destruct (est_inspection b) eqn:Eb; cbn in I.
    + destruct Ha as [->|Ha]; [exact Eb | apply IH; [lia | exact Ha]].
    + lia.
  - unfold tick_simulation. fold hv.
    destruct (cycle_orchestration lower (fun i => horloge (S i)) (Some hv)
                (agent ss)) as [[s' acts]|e] eqn:C.
    + apply cycle_etapes in C as (s2 & a2 & F & _ & ->). cbv zeta in F.
      apply fin_consultation_cas in F
        as [(_ & _ & A)|[(r' & _ & -> & _ & P & _)|(r' & aide & _ & P & _ & _ & ->)]].
      * exfalso. revert A. unfold activite_finie.
        cbn [gestion_personnel docteur set_aides_soignants set_infirmieres].
        rewrite Hs, Hf. cbn [StatutPersonnel_eqb andb].
        intro A. apply Z.leb_gt in A. unfold minutes in *. lia.
      * cbn [gestion_personnel docteur set_aides_soignants set_infirmieres] in P.
        rewrite Hp in P. injection P as <-.
        eexists _, _, _. split; [reflexivity|]. cbn [events_log app map].
        split; [reflexivity|]. left. reflexivity.
      * cbn [gestion_personnel docteur set_aides_soignants set_infirmieres] in P.
        rewrite Hp in P. injection P as <-.
        eexists _, _, _. split; [reflexivity|]. cbn [events_log app map].
        split; [reflexivity|]. right. eexists _, _. reflexivity.
    + exfalso. unfold cycle_orchestration in C.
      destruct (fin_consultation lower hv (gestion_personnel hv (agent ss)))
        as [[s2 a2]|e'] eqn:F.
      * destruct (surveillance_salles hv s2).
        destruct (nouvelle_consultation _ hv a). discriminate.
      * revert F. unfold fin_consultation.
        cbn [gestion_personnel docteur set_aides_soignants set_infirmieres].
        rewrite Hs, Hf, Hp. cbn [StatutPersonnel_eqb].
        destruct (_ <=? hv); [|discriminate].
        destruct (premier_disponible _); discriminate.
Qed.

End ProprietesSimulation.

Lemma tick_simulation_consultation_temoin :
  exists ss' a suite,
    tick_simulation ascii_lower (horloge_fixe 59000000) (session_ex 9) = Ok ss'
    /\ events_log ss' = (10, a) :: suite.
Proof.
  destruct (tick_simulation_consultation ascii_lower (horloge_fixe 59000000)
              (session_ex 9) 12000000 3 0%nat eq_refl eq_refl eq_refl eq_refl)
    as [_ H].
  destruct (H ltac:(vm_compute; discriminate)) as (ss' & a & suite & E1 & E2 & _).
  exists ss', a, suite. auto.
Defined.

(** ** The scenario of the 360-minute exception *)

Lemma accueillir_patient_dossier (horloge : Instant) (r : Ref)
  (s : AgentOrchestration) (x : Ref) :
  dossier (tas (fst (accueillir_patient horloge r s)) x) = dossier (tas s x).
Proof.
  unfold accueillir_patient.
  destruct (placer (tas s) r (salles s)) as [[[l t] n]|] eqn:P; cbn; [|reflexivity].
  apply placer_Some in P as (l1 & sa & l2 & _ & _ & _ & _ & _ & ->).
  unfold maj. destruct (Nat.eqb_spec x r) as [->|]; reflexivity.
Qed.

Lemma priorite_dossier (h : Instant) (p q : Patient.t) :
  dossier p = dossier q ->
  Patient.priorite_effective h p = Patient.priorite_effective h q.
Proof.
  unfold dossier. intros [= _ _ _ Eg _ Eh].
  unfold Patient.priorite_effective, Patient.temps_attente_minutes.
  rewrite Eg, Eh. reflexivity.
Qed.

Lemma priorite_vert_7h (h creation : Instant) (p : Patient.t) :
  Patient.gravite p = VERT ->
  Patient.heure_arrivee p = creation - minutes 420 ->
  creation <= h ->
  Patient.priorite_effective h p = 2.
Proof.
  intros Hg Ha Hc. rewrite priorite_selon_depasse, Hg.
  replace (depasse_360 h p) with true; [reflexivity|].
  symmetry. apply attente_depasse_360.
  unfold Patient.temps_attente_minutes, Qlt. rewrite Ha. cbn [Qnum Qden].
  unfold minutes. lia.
Qed.

Lemma priorite_gravite_jaune (h : Instant) (p : Patient.t) :
  Patient.gravite p = JAUNE -> Patient.priorite_effective h p = 3.
Proof. intro Hg. rewrite priorite_selon_depasse, Hg. reflexivity. Qed.

Lemma StronglySorted_milieu {A : Type} (R : A -> A -> Prop) (l1 l2 : list A)
  (x : A) :
  StronglySorted R (l1 ++ x :: l2) -> Forall (fun a => R a x) l1.
Proof.
  induction l1 as [|a l1 IH]; cbn; intro H; [constructor|].
  apply StronglySorted_inv in H as [H F].
  apply Forall_app in F as [_ F]. apply Forall_inv in F.
  constructor; auto.
Qed.

Lemma enumerate_nth {A B : Type} (g : nat * A -> B) (l : list A) (i : nat) :
  nth_error (map g (enumerate l)) i
  = match nth_error l i with Some x => Some (g (i, x)) | None => None end.
Proof.
  unfold enumerate.
  assert (G : forall (l : list A) (d i : nat),
            nth_error (map g (combine (seq d (List.length l)) l)) i
            = match nth_error l i with
              | Some x => Some (g ((d + i)%nat, x))
              | None => None
              end).
  { clear. induction l as [|a l IH]; intros d [|i]; cbn; try reflexivity.
    - rewrite Nat.add_0_r. reflexivity.
    - rewrite IH. replace (S d + i)%nat with (d + S i)%nat by lia. reflexivity. }
  apply G.
Qed.

Lemma accueillir_patient_admis (horloge : Instant) (r : Ref)
  (s : AgentOrchestration) :
  salles_bornees (salles s) ->
  1 <= capacite_totale s - occupation_actuelle s ->
  let s' := fst (accueillir_patient horloge r s) in
  patients_en_attente s' = patients_en_attente s ++ [r]
  /\ salles_bornees (salles s')
  /\ capacite_totale s' = capacite_totale s
  /\ occupation_actuelle s' = occupation_actuelle s + 1.
Proof.
  intros B L. cbv zeta.
  pose proof (accueillir_patient_effets horloge r s) as A. cbv zeta in A.
  unfold capacite_totale, occupation_actuelle in *.
  destruct (placer (tas s) r (salles s)) as [[[l t] n]|] eqn:P.
  - destruct A as (_ & -> & A3 & _).
    apply placer_occupation in P as (Pc & Po & Pb).
    rewrite Pc, Po. auto.
  - apply placer_None in P. pose proof (sans_place_complet _ B P). lia.
Qed.

(** X27: [creer_scenario_exception_360] always shows the exception, as long
    as the clock does not go back: the VERT patient created with 7 hours of
    wait has effective priority 2, the JAUNE patient has 3 and
    "exception_activee" is true, whatever the state of the agent. When the
    rooms have two free places, both patients are admitted and the entry of
    "VERT_7H" comes before the entry of "JAUNE_RECENT" in "file_priorite". *)
Theorem creer_scenario_exception_360_spec (l : Lectures360) (rv rj : Ref)
  (s : AgentOrchestration) :
  rv <> rj ->
  creation_vert l <= priorite_vert l ->
  creation_vert l <= exception_vert l ->
  let res := snd (creer_scenario_exception_360 l rv rj s) in
  vert_priorite_effective res = 2
  /\ jaune_priorite_effective res = 3
  /\ exception_activee res = true
  /\ (salles_bornees (salles s) ->
      2 <= capacite_totale s - occupation_actuelle s ->
      ~ In rv (patients_en_attente s) -> ~ In rj (patients_en_attente s) ->
      (forall i, creation_vert l <= lectures_file l i) ->
      exists i j pv,
        (i < j)%nat
        /\ nth_error (file_priorite res) i = Some ("VERT_7H", VERT, pv)
        /\ nth_error (file_priorite res) j = Some ("JAUNE_RECENT", JAUNE, 3)).
Proof.
  intros Hd Hp He. cbv zeta. unfold creer_scenario_exception_360.
  set (pv := Patient.mk "VERT_7H" _ _ _ _ _ _ _).
  set (pj := Patient.mk "JAUNE_RECENT" _ _ _ _ _ _ _).
  set (s0 := set_tas (maj (maj (tas s) rv pv) rj pj) s).
  set (s1 := fst (accueillir_patient (accueil_vert l) rv s0)).
  set (s2 := fst (accueillir_patient (accueil_jaune l) rj s1)).
  cbn [snd vert_priorite_effective jaune_priorite_effective exception_activee
       file_priorite].
  assert (D : forall x, dossier (tas s2 x) = dossier (tas s0 x)).
  { intro x. subst s2 s1. rewrite !accueillir_patient_dossier. reflexivity. }
  assert (Tv : tas s0 rv = pv).
  { subst s0. cbn [tas set_tas]. rewrite maj_autre by assumption.
    apply maj_meme. }
  assert (Tj : tas s0 rj = pj) by (subst s0; cbn [tas set_tas]; apply maj_meme).
  assert (Pv : forall h, creation_vert l <= h ->
                 Patient.priorite_effective h (tas s2 rv) = 2).
  { intros h Hh. rewrite (priorite_dossier h _ _ (D rv)), Tv.
    apply (priorite_vert_7h h (creation_vert l)); auto. }
  assert (Pj : forall h, Patient.priorite_effective h (tas s2 rj) = 3).
  { intro h. rewrite (priorite_dossier h _ _ (D rj)), Tj.
    apply priorite_gravite_jaune. reflexivity. }
  rewrite !Pv, !Pj by assumption.
  split; [reflexivity|]. split; [reflexivity|]. split; [reflexivity|].
  intros B L Nv Nj Hf.
  destruct (accueillir_patient_admis (accueil_vert l) rv s0 B)
    as (W1 & B1 & C1 & O1);
    [change (capacite_totale s0) with (capacite_totale s);
     change (occupation_actuelle s0) with (occupation_actuelle s); lia|].
  fold s1 in W1, B1, C1, O1.
  destruct (accueillir_patient_admis (accueil_jaune l) rj s1 B1)
    as (W2 & _); [change (capacite_totale s0) with (capacite_totale s) in C1;
                  change (occupation_actuelle s0) with (occupation_actuelle s) in O1;
                  lia|].
  fold s2 in W2. rewrite W1 in W2.
  change (patients_en_attente s0) with (patients_en_attente s) in W2.
  set (att := patients_en_attente s) in *.
  (* the keys of the two patients in the decorated list *)
  set (dec := decorer (lectures_file l) (tas s2) (patients_en_attente s2)).
  assert (Kv : forall k, In (k, rv) dec -> fst k = 2).
  { intros k Hk. apply In_nth_error in Hk as (i & Hk).
    apply decorer_nth_inv in Hk as (_ & ->). cbn [cle_patient fst].
    apply Pv, Hf. }
  assert (Kj : forall k, In (k, rj) dec -> fst k = 3).
  { intros k Hk. apply In_nth_error in Hk as (i & Hk).
    apply decorer_nth_inv in Hk as (_ & ->). cbn [cle_patient fst].
    apply Pj. }
  assert (Iv : In rv (map snd (sorted dec))).
  { eapply Permutation_in;
      [apply Permutation_sym, Permutation_map, sorted_perm|].
    subst dec. rewrite decorer_snd, W2, <- app_assoc.
    apply in_or_app. right. left. reflexivity. }
  apply in_map_iff in Iv as ([kv rv'] & Ev & Iv). cbn in Ev. subst rv'.
  apply in_split in Iv as (A & Bl & ES).
  assert (Ij : In rj (map snd (sorted dec))).
  { eapply Permutation_in;
      [apply Permutation_sym, Permutation_map, sorted_perm|].
    subst dec. rewrite decorer_snd, W2, <- app_assoc.
    apply in_or_app. right. right. left. reflexivity. }
  apply in_map_iff in Ij as ([kj rj'] & Ej & Ij). cbn in Ej. subst rj'.
  pose proof (sorted_ordonne dec) as SS.
  assert (Hkv : fst kv = 2).
  { apply Kv. eapply Permutation_in; [apply sorted_perm|].
    rewrite ES. apply in_or_app. right. left. reflexivity. }
  assert (Hkj : fst kj = 3).
  { apply Kj. eapply Permutation_in; [apply sorted_perm|]. exact Ij. }
  rewrite ES in Ij, SS.
  apply in_app_or in Ij as [Ij|[Ij|Ij]].
  - exfalso. apply StronglySorted_milieu in SS.
    rewrite Forall_forall in SS. apply SS in Ij.
    unfold ordre in Ij. cbn [fst] in Ij. apply cle_le_iff in Ij. lia.
  - congruence.
  - apply in_split in Ij as (B1' & B2' & ->).
    unfold calculer_file_priorite. fold dec. rewrite ES.
    exists (List.length A), (List.length A + S (List.length B1'))%nat.
    eexists. split; [lia|]. rewrite !enumerate_nth.
    rewrite !map_app. cbn [map snd].
    split.
    + rewrite nth_error_app2 by (rewrite length_map; lia).
      rewrite length_map, Nat.sub_diag. cbn [nth_error snd fst].
      pose proof (D rv) as Dv. rewrite Tv in Dv. unfold dossier in Dv.
      injection Dv as E1 _ _ E4 _ _. rewrite E1, E4. reflexivity.
    + rewrite nth_error_app2 by (rewrite length_map; lia).
      rewrite length_map.
      replace (List.length A + S (List.length B1') - List.length A)%nat
        with (S (List.length B1')) by lia.
      cbn [nth_error]. rewrite map_app. cbn [map snd].
      rewrite nth_error_app2 by (rewrite length_map; lia).
      rewrite length_map, Nat.sub_diag. cbn [nth_error snd fst].
      pose proof (D rj) as Dj. rewrite Tj in Dj. unfold dossier in Dj.
      injection Dj as E1 _ _ E4 _ _. rewrite E1, E4, Pj. reflexivity.
Qed.

Lemma creer_scenario_exception_360_spec_temoin :
  exception_activee
    (snd (creer_scenario_exception_360 lectures_ex 5%nat 6%nat etat_trois_places))
  = true.
Proof.
  refine (proj1 (proj2 (proj2
            (creer_scenario_exception_360_spec lectures_ex 5%nat 6%nat
               etat_trois_places _ _ _)))).
  - discriminate.
  - reflexivity.
  - reflexivity.
Defined.
